(** * whatsapp-auto: the message orchestration core, embedded and verified

    The development follows the source files of the repository:

    - [Js] and [Re]: the JavaScript string, number, array and
      regular-expression primitives the sources use;
    - [Eff]: the collaborators (random numbers, clock, AI completion
      service, messaging transport) and the monad of the methods;
    - [GeminiAI] (gemini.js): language detection, prompt construction,
      response cleaning, the response cache and the fallback pools;
    - [SessionManager] (sessionManager.js): the session registry;
    - [WhatsAppBot] (whatsapp-bot.js): the single-session bot with its rate
      limiter, chat history and message pipeline;
    - [WhatsAppManager] (whatsapp.js): the per-session manager that drives
      [GeminiAI].

    The properties follow the definitions: the language classifiers, the
    fallback selectors, the session identifiers, the bounded chat history,
    the rate limiter, destroyed sessions, the message handlers, completion
    failures and the response cache.

    Representation of strings.  A JavaScript string is represented by the
    Rocq [string] of its UTF-8 bytes.  On ASCII text a byte is a UTF-16 code
    unit; [Js.utf16] recovers the code units of any well-formed text, and
    [length] and [charCodeAt] are read through it.  Substring tests with
    ASCII needles, the ASCII character classes of the regular expressions
    and the multi-byte white-space characters are read on the bytes. *)

From Stdlib Require Import ZArith QArith Qround String Ascii List Lia DecimalString.
From stdpp Require Import gmap strings list fin_maps.

Local Open Scope Z_scope.

(* ===================================================================== *)
(** * JavaScript primitives *)
(* ===================================================================== *)

Module Js.

Definition byte (c : ascii) : Z := Z.of_nat (nat_of_ascii c).

Definition chr (z : Z) : ascii := ascii_of_nat (Z.to_nat z).

Definition inRange (lo hi : Z) (c : ascii) : bool :=
  (lo <=? byte c) && (byte c <=? hi).

Definition isUpper (c : ascii) : bool := inRange 65 90 c.
Definition isLower (c : ascii) : bool := inRange 97 122 c.
Definition isDigit (c : ascii) : bool := inRange 48 57 c.

(** [\w] without the [u] flag: [A-Za-z0-9_]. *)
Definition isWordChar (c : ascii) : bool :=
  isUpper c || isLower c || isDigit c || (byte c =? 95).

Definition lowerChar (c : ascii) : ascii :=
  if isUpper c then chr (byte c + 32) else c.

(** [String.prototype.toLowerCase].  ASCII letters are lowered.  Two
    characters outside ASCII have a lower-case form that contains an ASCII
    letter, and are lowered too: U+212A (bytes E2 84 AA) becomes [k] and
    U+0130 (bytes C4 B0) becomes [i] followed by U+0307 (bytes CC 87).
    The lower-case forms of the other cased letters outside ASCII lie
    outside ASCII themselves; those letters are kept as they are, which
    no [includes] test with an ASCII needle can tell apart. *)
Fixpoint toLowerCase (s : string) : string :=
  match s with
  | EmptyString => EmptyString
  | String a r1 =>
      match r1 with
      | String b r2 =>
          if (byte a =? 196) && (byte b =? 176)
          then String "i" (String (chr 204) (String (chr 135) (toLowerCase r2)))
          else
            match r2 with
            | String c r3 =>
                if (byte a =? 226) && (byte b =? 132) && (byte c =? 170)
                then String "k" (toLowerCase r3)
                else String (lowerChar a) (toLowerCase r1)
            | EmptyString => String (lowerChar a) (toLowerCase r1)
            end
      | EmptyString => String (lowerChar a) EmptyString
      end
  end.

(** [s.startsWith(p)], and the same modulo ASCII case, as the [i] flag of
    a regular expression without the [u] flag compares letters. *)
Fixpoint startsWith (p s : string) : bool :=
  match p, s with
  | EmptyString, _ => true
  | String a p', String b s' => (byte a =? byte b) && startsWith p' s'
  | String _ _, EmptyString => false
  end.

Fixpoint startsWithCI (p s : string) : bool :=
  match p, s with
  | EmptyString, _ => true
  | String a p', String b s' =>
      (byte (lowerChar a) =? byte (lowerChar b)) && startsWithCI p' s'
  | String _ _, EmptyString => false
  end.

(** [s.includes(needle)]. *)
Fixpoint includes (needle s : string) : bool :=
  startsWith needle s ||
  match s with
  | EmptyString => false
  | String _ r => includes needle r
  end.

Fixpoint drop (n : nat) (s : string) : string :=
  match n, s with
  | O, _ => s
  | S n', String _ r => drop n' r
  | S _, EmptyString => EmptyString
  end.

(** The character after the first [n] bytes of [s], if any. *)
Definition charAt (n : nat) (s : string) : option ascii :=
  match drop n s with
  | String c _ => Some c
  | EmptyString => None
  end.

(** ** White space

    [\s] and [trim] share one character set: TAB, LF, VT, FF, CR, SP,
    U+00A0, U+1680, U+2000 to U+200A, U+2028, U+2029, U+202F, U+205F,
    U+3000 and U+FEFF, here by their UTF-8 bytes. *)
Definition ws1 (a : ascii) : bool :=
  inRange 9 13 a || (byte a =? 32).

Definition ws2 (a b : ascii) : bool :=
  (byte a =? 194) && (byte b =? 160).

Definition ws3 (a b c : ascii) : bool :=
  ((byte a =? 225) && (byte b =? 154) && (byte c =? 128))
  || ((byte a =? 226) && (byte b =? 128)
      && (inRange 128 138 c || inRange 168 169 c || (byte c =? 175)))
  || ((byte a =? 226) && (byte b =? 129) && (byte c =? 159))
  || ((byte a =? 227) && (byte b =? 128) && (byte c =? 128))
  || ((byte a =? 239) && (byte b =? 187) && (byte c =? 191)).

(** Skips the longest run of white space at the start: [\s*] at a fixed
    position, and [trimStart]. *)
Fixpoint trimStart (s : string) : string :=
  match s with
  | String a r1 =>
      if ws1 a then trimStart r1
      else
        match r1 with
        | String b r2 =>
            if ws2 a b then trimStart r2
            else
              match r2 with
              | String c r3 => if ws3 a b c then trimStart r3 else s
              | EmptyString => s
              end
        | EmptyString => s
        end
  | EmptyString => s
  end.

(** The mirror image, on the reversed string. *)
Fixpoint trimStartRev (s : string) : string :=
  match s with
  | String a r1 =>
      if ws1 a then trimStartRev r1
      else
        match r1 with
        | String b r2 =>
            if ws2 b a then trimStartRev r2
            else
              match r2 with
              | String c r3 => if ws3 c b a then trimStartRev r3 else s
              | EmptyString => s
              end
        | EmptyString => s
        end
  | EmptyString => s
  end.

Definition trimEnd (s : string) : string :=
  String.rev (trimStartRev (String.rev s)).

Definition trim (s : string) : string := trimEnd (trimStart s).

(** Does the string start with one white-space character? *)
Definition startsWithSpace (s : string) : bool :=
  match s with
  | String a (String b (String c _)) => ws1 a || ws2 a b || ws3 a b c
  | String a (String b EmptyString) => ws1 a || ws2 a b
  | String a EmptyString => ws1 a
  | EmptyString => false
  end.

(** A line terminator (LF, CR, U+2028, U+2029) somewhere in the string:
    the characters [.] does not match. *)
Fixpoint hasLineTerminator (s : string) : bool :=
  match s with
  | EmptyString => false
  | String a r1 =>
      (byte a =? 10) || (byte a =? 13)
      || match r1 with
         | String b (String c _) =>
             (byte a =? 226) && (byte b =? 128) && inRange 168 169 c
         | _ => false
         end
      || hasLineTerminator r1
  end.

(** ** UTF-16 code units *)

Definition isCont (c : ascii) : bool := inRange 128 191 c.

(** The UTF-16 code units of a code point. *)
Definition unitsOf (cp : Z) : list Z :=
  if cp <? 65536 then [cp]
  else [55296 + (cp - 65536) / 1024; 56320 + (cp - 65536) mod 1024].

(** Decodes UTF-8; a byte that starts no well-formed sequence stands for
    itself. *)
Fixpoint utf16 (s : string) : list Z :=
  match s with
  | EmptyString => []
  | String a r1 =>
      if byte a <? 192 then byte a :: utf16 r1
      else
        match r1 with
        | String b r2 =>
            if negb (isCont b) then byte a :: utf16 r1
            else if byte a <? 224
            then (byte a - 192) * 64 + (byte b - 128) :: utf16 r2
            else
              match r2 with
              | String c r3 =>
                  if negb (isCont c) then byte a :: utf16 r1
                  else if byte a <? 240
                  then (byte a - 224) * 4096 + (byte b - 128) * 64
                       + (byte c - 128) :: utf16 r3
                  else
                    match r3 with
                    | String d r4 =>
                        if negb (isCont d) then byte a :: utf16 r1
                        else unitsOf ((byte a - 240) * 262144
                                      + (byte b - 128) * 4096
                                      + (byte c - 128) * 64
                                      + (byte d - 128)) ++ utf16 r4
                    | EmptyString => byte a :: utf16 r1
                    end
              | EmptyString => byte a :: utf16 r1
              end
        | EmptyString => [byte a]
        end
  end.

(** [s.length]. *)
Definition length (s : string) : Z := Z.of_nat (List.length (utf16 s)).

(** ** Numbers *)

(** [String(n)] for an integer [n] below 10^21 in magnitude. *)
Definition toString (z : Z) : string :=
  NilZero.string_of_int (Z.to_int z).

(** [ToInt32]: the value modulo 2^32, read as a signed 32-bit integer. *)
Definition toInt32 (z : Z) : Z :=
  (z + 2147483648) mod 4294967296 - 2147483648.

(** [x << k] on numbers that hold integers. *)
Definition shl (x : Z) (k : Z) : Z :=
  toInt32 (Z.shiftl (toInt32 x) (k mod 32)).

(** [x & y]. *)
Definition band (x y : Z) : Z := toInt32 (Z.land (toInt32 x) (toInt32 y)).

(** ** Arrays *)

(** [a.slice(-n)]: the last [n] elements. *)
Definition sliceLast {A} (n : nat) (a : list A) : list A :=
  List.skipn (List.length a - n) a.

(** [a.shift()]: the array without its first element. *)
Definition shift {A} (a : list A) : list A := List.tl a.

(** [a.join(sep)]. *)
Fixpoint join (sep : string) (a : list string) : string :=
  match a with
  | [] => ""
  | [x] => x
  | x :: r => x +:+ sep +:+ join sep r
  end.

(** ** Random numbers

    A result of [Math.random()] is a rational in [0, 1).
    [Math.floor(r * n)] picks an index, which is then within the array;
    [d] stands for the [undefined] of an index outside it. *)
Definition pickIndex (r : Q) (n : nat) : nat :=
  Z.to_nat (Qfloor (Qmult r (inject_Z (Z.of_nat n)))).

Definition pick {A} (d : A) (pool : list A) (r : Q) : A :=
  List.nth (pickIndex r (List.length pool)) pool d.

Definition qlt (x y : Q) : bool := negb (Qle_bool y x).

(** [Math.min] on two numbers. *)
Definition qmin (x y : Q) : Q := if Qle_bool x y then x else y.

End Js.

(* ===================================================================== *)
(** * Effects: the collaborators and the monad of the asynchronous methods *)
(* ===================================================================== *)

(** The program talks to its collaborators: [Math.random], the clock, the
    secure random bytes of [crypto], the AI completion service and the
    messaging transport.  Their answers are given by an environment,
    indexed by the number of earlier calls of the same kind; the calls made
    are counted and logged in the [World].  An [async] method is a function
    from the object state and the world to a result, which is a value or a
    thrown error, and the new state and world; a handler runs to its end
    before the next one starts. *)

Module Eff.

Record Contact := { pushname : option string; name : option string }.

(** Requests to the transport (whatsapp-web.js). *)
Inductive Request :=
| GetContact (sender : string)
| SendPresenceAvailable
| GetChat (chat : string)
| SendStateTyping (chat : string)
| ClearState (chat : string)
| Reply (chat text : string)
| GetChatById (chat : string)
| SendMessage (chat text : string)
| DestroyClient.

Inductive Event :=
| Transport (r : Request)
| Completion (prompt : string)
| SocketEmit (event body : string)
| IoEmit (event body : string)
| Sleep (ms : Q).

(** The answers of the collaborators: the n-th result of [Math.random()],
    the n-th reading of the clock in milliseconds, the n-th secure random
    byte, the text the n-th completion request returns for a prompt
    ([None] when the request or the reading of its text throws), whether
    the n-th transport request succeeds, and the contact the n-th
    transport request returns when it is a contact lookup. *)
Record Env := {
  random : nat -> Q;
  clock : nat -> Z;
  entropy : nat -> Byte.byte;
  complete : nat -> string -> option string;
  transportOk : nat -> bool;
  contactInfo : nat -> Contact
}.

(** How many answers of each collaborator have been used, and the log of
    what was asked of the outside. *)
Record World := {
  draws : nat;
  ticks : nat;
  drawnBytes : nat;
  completions : nat;
  requests : nat;
  trace : list Event
}.

Definition world0 : World :=
  {| draws := 0; ticks := 0; drawnBytes := 0; completions := 0;
     requests := 0; trace := [] |}.

Inductive Res (A : Type) :=
| Ok (a : A)
| Throw (error : string).
Arguments Ok {A} a.
Arguments Throw {A} error.

Definition M (O A : Type) : Type := O -> World -> Res A * O * World.

Definition ret {O A} (a : A) : M O A := fun o w => (Ok a, o, w).

Definition bind {O A B} (m : M O A) (k : A -> M O B) : M O B :=
  fun o w =>
    match m o w with
    | (Ok a, o', w') => k a o' w'
    | (Throw e, o', w') => (Throw e, o', w')
    end.

Definition throw {O A} (e : string) : M O A := fun o w => (Throw e, o, w).

(** [try { m } catch (error) { h error }]. *)
Definition tryCatch {O A} (m : M O A) (h : string -> M O A) : M O A :=
  fun o w =>
    match m o w with
    | (Ok a, o', w') => (Ok a, o', w')
    | (Throw e, o', w') => h e o' w'
    end.

Definition get {O} : M O O := fun o w => (Ok o, o, w).
Definition gets {O A} (f : O -> A) : M O A := fun o w => (Ok (f o), o, w).
Definition modify {O} (f : O -> O) : M O unit := fun o w => (Ok tt, f o, w).

(** Runs a method of a sub-object held in a field. *)
Definition zoom {O T A} (proj : O -> T) (upd : T -> O -> O) (m : M T A)
  : M O A :=
  fun o w => match m (proj o) w with (r, t', w') => (r, upd t' o, w') end.

Definition log (e : Event) (w : World) : World :=
  {| draws := draws w; ticks := ticks w; drawnBytes := drawnBytes w;
     completions := completions w; requests := requests w;
     trace := trace w ++ [e] |}.

Definition nextDraw (w : World) : World :=
  {| draws := S (draws w); ticks := ticks w; drawnBytes := drawnBytes w;
     completions := completions w; requests := requests w;
     trace := trace w |}.

Definition nextTick (w : World) : World :=
  {| draws := draws w; ticks := S (ticks w); drawnBytes := drawnBytes w;
     completions := completions w; requests := requests w;
     trace := trace w |}.

Definition nextBytes (n : nat) (w : World) : World :=
  {| draws := draws w; ticks := ticks w;
     drawnBytes := (drawnBytes w + n)%nat;
     completions := completions w; requests := requests w;
     trace := trace w |}.

Definition nextCompletion (w : World) : World :=
  {| draws := draws w; ticks := ticks w; drawnBytes := drawnBytes w;
     completions := S (completions w); requests := requests w;
     trace := trace w |}.

Definition nextRequest (w : World) : World :=
  {| draws := draws w; ticks := ticks w; drawnBytes := drawnBytes w;
     completions := completions w; requests := S (requests w);
     trace := trace w |}.

Section Collaborators.
Context (env : Env).

(** [Math.random()]. *)
Definition mathRandom {O} : M O Q :=
  fun o w => (Ok (random env (draws w)), o, nextDraw w).

(** [Date.now()] and [new Date()]. *)
Definition dateNow {O} : M O Z :=
  fun o w => (Ok (clock env (ticks w)), o, nextTick w).

(** [crypto.randomBytes(n)]. *)
Definition randomBytes {O} (n : nat) : M O (list Byte.byte) :=
  fun o w =>
    (Ok (List.map (entropy env) (List.seq (drawnBytes w) n)), o,
     nextBytes n w).

(** [(await model.generateContent(prompt)).response.text()]. *)
Definition generateContent {O} (prompt : string) : M O string :=
  fun o w =>
    let w' := log (Completion prompt) (nextCompletion w) in
    match complete env (completions w) prompt with
    | Some text => (Ok text, o, w')
    | None => (Throw "completion failed", o, w')
    end.

(** A request to the transport; it is logged whether or not it
    succeeds. *)
Definition request {O} (r : Request) : M O nat :=
  fun o w =>
    let w' := log (Transport r) (nextRequest w) in
    if transportOk env (requests w)
    then (Ok (requests w), o, w')
    else (Throw "transport request failed", o, w').

Definition getContact {O} (sender : string) : M O Contact :=
  bind (request (GetContact sender)) (fun n => ret (contactInfo env n)).

End Collaborators.

Definition emit {O} (e : Event) : M O unit :=
  fun o w => (Ok tt, o, log e w).

(** [await new Promise(resolve => setTimeout(resolve, ms))]. *)
Definition sleep {O} (ms : Q) : M O unit := emit (Sleep ms).

End Eff.

Import Eff.

Notation "x <- m ;; k" := (Eff.bind m (fun x => k))
  (at level 100, m at next level, right associativity).
Notation "m ;;; k" := (Eff.bind m (fun _ => k))
  (at level 100, right associativity).

(** A double quote, for the texts that contain one. *)
Definition dq : string := String (Js.chr 34) EmptyString.
Definition nl : string := String (Js.chr 10) EmptyString.

(** JavaScript truthiness of a string that may be [undefined] or [null]. *)
Definition truthy (s : option string) : bool :=
  match s with
  | Some (String _ _) => true
  | _ => false
  end.

(* ===================================================================== *)
(** * Regular expressions of the sources, as matchers *)
(* ===================================================================== *)

Module Re.

Definition isW (c : option ascii) : bool :=
  match c with
  | Some c => Js.isWordChar c
  | None => false
  end.

(** [\b] between the character before and the character after. *)
Definition wordBoundary (before after : option ascii) : bool :=
  xorb (isW before) (isW after).

(** [\bword\b] with the [i] flag, at the start of [s], where [prev] is
    the character before [s]. *)
Definition wordAt (prev : option ascii) (s word : string) : bool :=
  wordBoundary prev (Js.charAt 0 s)
  && Js.startsWithCI word s
  && wordBoundary (Js.charAt (String.length word - 1) s)
                  (Js.charAt (String.length word) s).

(** [/\b(w1|w2|...)\b/i.test(s)], scanning from the character after
    [prev]. *)
Fixpoint testWordsFrom (words : list string) (prev : option ascii)
         (s : string) : bool :=
  existsb (wordAt prev s) words ||
  match s with
  | EmptyString => false
  | String c r => testWordsFrom words (Some c) r
  end.

Definition testWords (words : list string) (s : string) : bool :=
  testWordsFrom words None s.

(** [s.replace(/\bword\b/gi, alt)]: [skip] counts the characters of a
    match that are still to be dropped. *)
Fixpoint replaceWordFrom (word alt : string) (prev : option ascii)
         (skip : nat) (s : string) : string :=
  match s with
  | EmptyString => EmptyString
  | String c r =>
      match skip with
      | S k => replaceWordFrom word alt (Some c) k r
      | O =>
          if wordAt prev s word
          then alt +:+ replaceWordFrom word alt (Some c)
                                     (String.length word - 1) r
          else String c (replaceWordFrom word alt (Some c) O r)
      end
  end.

Definition replaceWord (word alt s : string) : string :=
  replaceWordFrom word alt None 0 s.

(** [s.replace(/^(a1|a2|...)\s*/i, '')]. *)
Definition stripLead (alts : list string) (s : string) : string :=
  match List.find (fun a => Js.startsWithCI a s) alts with
  | Some a => Js.trimStart (Js.drop (String.length a) s)
  | None => s
  end.

(** [s.replace(/^(a1|a2|...)/i, '')]. *)
Definition stripLeadOnly (alts : list string) (s : string) : string :=
  match List.find (fun a => Js.startsWithCI a s) alts with
  | Some a => Js.drop (String.length a) s
  | None => s
  end.

(** Does [/\s*(p1|p2|...).*$/i] match at the start of [s]?  After the
    white space one of the phrases follows, and no line terminator up to
    the end. *)
Definition tailAt (phrases : list string) (s : string) : bool :=
  let r := Js.trimStart s in
  existsb (fun p => Js.startsWithCI p r
                    && negb (Js.hasLineTerminator
                               (Js.drop (String.length p) r)))
          phrases.

(** [s.replace(/\s*(p1|p2|...).*$/i, '')]: the leftmost match is
    removed. *)
Fixpoint cutTail (phrases : list string) (s : string) : string :=
  if tailAt phrases s then EmptyString
  else
    match s with
    | EmptyString => EmptyString
    | String c r => String c (cutTail phrases r)
    end.

Definition flush (c : ascii) (repl : string) (run : nat) : string :=
  match run with
  | O => EmptyString
  | S O => String c EmptyString
  | S (S _) => repl
  end.

(** [s.replace(/[c]{2,}/g, repl)]: [run] counts the [c]s just read. *)
Fixpoint collapseFrom (c : ascii) (repl : string) (run : nat)
         (s : string) : string :=
  match s with
  | EmptyString => flush c repl run
  | String x r =>
      if Js.byte x =? Js.byte c then collapseFrom c repl (S run) r
      else flush c repl run +:+ String x (collapseFrom c repl O r)
  end.

Definition collapse (c : ascii) (repl : string) (s : string) : string :=
  collapseFrom c repl O s.

(** [\d+] at the start of [s]: the rest after the longest run of digits,
    when there is at least one. *)
Fixpoint skipDigits (s : string) : string :=
  match s with
  | String c r => if Js.isDigit c then skipDigits r else s
  | EmptyString => s
  end.

Definition isQuote (c : ascii) : bool :=
  (Js.byte c =? 34) || (Js.byte c =? 39).

End Re.

(** The conversational register a message is written in. *)
Inductive Language := hindi | english | hinglish.

(* ===================================================================== *)
(** * gemini.js: class GeminiAI *)
(* ===================================================================== *)

Module GeminiAI.

(** An entry of the chat history the caller passes in. *)
Record ChatEntry := { message : string; isBot : bool; timestamp : Z }.

(** The object state: the node-cache instance, a map from keys to a value
    and the instant it expires at. *)
Record t := { cache : gmap string (string * Z) }.

Definition new : t := {| cache := ∅ |}.

Definition stdTTL : Z := 3600.

(** ** detectLanguage *)

Definition hindiWords : list string :=
  ["hai"; "hain"; "kya"; "kaise"; "kahan"; "kab"; "kaun"; "main"; "mein";
   "tum"; "aap"; "yeh"; "woh"; "aur"; "ki"; "ke"; "ka"; "se"; "mera";
   "tera"; "uska"; "bhai"; "yaar"; "dost"].

Definition englishWords : list string :=
  ["the"; "and"; "you"; "are"; "what"; "how"; "where"; "when"; "who";
   "this"; "that"; "with"; "have"; "will"; "can"; "should"; "would"].

Definition hinglishPatterns : list string :=
  ["bro"; "yaar"; "bhai"; "dude"; "man"; "kya"; "hai"; "hain"; "tum";
   "main"; "mein"].

Definition countIncluded (words : list string) (s : string) : nat :=
  List.length (List.filter (fun word => Js.includes word s) words).

Definition detectLanguage (message : string) : Language :=
  let lowerMessage := Js.toLowerCase message in
  let hindiCount := countIncluded hindiWords lowerMessage in
  let englishCount := countIncluded englishWords lowerMessage in
  let hasHinglishPattern := Re.testWords hinglishPatterns message in
  if (englishCount <? hindiCount)%nat || hasHinglishPattern then hinglish
  else if (0 <? englishCount)%nat then english
  else hinglish.

(** ** createSystemPrompt *)

Definition languageInstructions (language : Language) : string :=
  match language with
  | hinglish =>
      "Reply in natural Hinglish (mix of Hindi and English) like young Indians chat. Use words like "
      +:+ dq +:+ "yaar" +:+ dq +:+ ", " +:+ dq +:+ "bhai" +:+ dq +:+ ", "
      +:+ dq +:+ "kya baat hai" +:+ dq +:+ ", " +:+ dq +:+ "achha" +:+ dq
      +:+ ", " +:+ dq +:+ "thik hai" +:+ dq +:+ ", etc."
  | english =>
      "Reply in casual English like a close friend would. Use natural, conversational English."
  | hindi =>
      "Reply in the same language/style as the user. Match their communication style."
  end.

Definition responseStyle (language : Language) : string :=
  match language with
  | hinglish =>
      "Keep it casual, short, and friendly. Use emojis occasionally. Sound like a close desi friend."
  | english =>
      "Keep it friendly, supportive, and natural. Use casual language and be relatable."
  | hindi =>
      "Be natural and friendly, adapting to their way of speaking."
  end.

Definition importantRules : string :=
  "Important rules:
- Keep responses under 50 words
- Be helpful and supportive
- Show genuine interest in their problems
- Give practical advice when asked
- Use humor when appropriate
- Remember you're talking to a friend, not a customer
- Don't be overly formal or robotic
- If you don't know something, admit it honestly
- Avoid repetitive responses".

Definition createSystemPrompt (language : Language)
           (contactName conversationContext : string) : string :=
  let basePersonality :=
    "You are chatting with your close friend " +:+ contactName
    +:+ ". You are a fun, friendly, and helpful person who speaks naturally like a real human friend." in
  let contextPrompt :=
    if truthy (Some conversationContext)
    then nl +:+ "Previous conversation context:" +:+ nl
         +:+ conversationContext +:+ nl
    else "" in
  basePersonality +:+ nl +:+ nl
  +:+ languageInstructions language +:+ nl +:+ nl
  +:+ responseStyle language +:+ nl +:+ nl
  +:+ importantRules +:+ nl +:+ nl
  +:+ contextPrompt.

(** ** buildConversationContext *)

Definition buildConversationContext (chatHistory : list ChatEntry)
  : string :=
  let recentHistory := Js.sliceLast 6 chatHistory in
  List.fold_left
    (fun context entry =>
       let sender := if isBot entry then "You" else "Friend" in
       context +:+ sender +:+ ": " +:+ message entry +:+ nl)
    recentHistory "".

(** ** cleanResponse *)

Definition cleanResponse (response : string) : string :=
  let response :=
    Re.stripLead ["Sure"; "Okay"; "Alright"; "Well"; "So"; "Here";
                  "Response:"; "Reply:"] response in
  let response :=
    Re.cutTail ["Let me know"; "Hope this helps"; "Feel free to ask";
                "Any other questions"] response in
  let response := Re.collapse "!" "!" response in
  let response := Re.collapse "?" "?" response in
  let response := Re.collapse "." "..." response in
  Js.trim response.

(** ** addHumanVariations *)

Definition variations (language : Language)
  : option (list (string * list string)) :=
  match language with
  | hinglish =>
      Some [("okay", ["ok"; "okk"; "theek hai"; "achha"]);
            ("good", ["achha"; "badhiya"; "nice"]);
            ("yes", ["haan"; "han"; "yeah"; "ha"]);
            ("no", ["nahi"; "nah"; "naa"]);
            ("what", ["kya"; "kya baat"; "what"]);
            ("how", ["kaise"; "kese"; "how"]);
            ("friend", ["yaar"; "bro"; "dost"; "bhai"])]
  | english =>
      Some [("okay", ["ok"; "alright"; "cool"]);
            ("good", ["nice"; "great"; "awesome"]);
            ("yes", ["yeah"; "yep"; "sure"]);
            ("no", ["nah"; "nope"]);
            ("friend", ["buddy"; "dude"; "bro"])]
  | hindi => None
  end.

Section Methods.
Context (env : Env).

(** The body of the [forEach] over the words of a language. *)
Fixpoint applyVariations (languageVariations : list (string * list string))
         (response : string) : M t string :=
  match languageVariations with
  | [] => ret response
  | (word, alternatives) :: rest =>
      if Re.testWords [word] response
      then r <- mathRandom env ;;
           let randomAlt := Js.pick "" alternatives r in
           applyVariations rest (Re.replaceWord word randomAlt response)
      else applyVariations rest response
  end.

Definition addHumanVariations (response : string) (language : Language)
  : M t string :=
  r <- mathRandom env ;;
  match variations language with
  | Some languageVariations =>
      if Js.qlt r (2 # 10) then applyVariations languageVariations response
      else ret response
  | None => ret response
  end.

(** ** addPersonalTouch *)

Definition addPersonalTouch (response contactName : string)
  : M t string :=
  r <- mathRandom env ;;
  if Js.qlt r (1 # 10) && negb (String.eqb contactName "Friend")
  then
    let personalGreetings := ["yaar"; "bro"; "dude"; contactName] in
    r' <- mathRandom env ;;
    let greeting := Js.pick "" personalGreetings r' in
    ret (greeting +:+ ", " +:+ response)
  else ret response.

(** ** getFallbackResponse *)

Inductive ResponseType := greeting | question | thanks | default.

Definition fallbackResponses (responseType : ResponseType)
  : list string :=
  match responseType with
  | greeting =>
      ["Hey! Kya haal hai? 😊";
       "Arre yaar, kaisa chal raha hai?";
       "Hello bro! Sab badiya?";
       "Hi! What's up? 👋"]
  | question =>
      ["Hmm, interesting question yaar!";
       "Good question! Let me think...";
       "Arre, ye toh sochna padega 🤔";
       "Wah bhai, deep question hai!"]
  | thanks =>
      ["Arre yaar, mention not! 😄";
       "Koi baat nahi bro!";
       "Happy to help! 👍";
       "Always welcome dude!"]
  | default =>
      ["Haan bhai, main sun raha hun! 👂";
       "Tell me more yaar!";
       "Interesting! Aur bata...";
       "I'm listening! Go on... 😊"]
  end.

Definition detectResponseType (userMessage : string) : ResponseType :=
  let message := Js.toLowerCase userMessage in
  if Js.includes "hello" message || Js.includes "hi" message
     || Js.includes "hey" message || Js.includes "namaste" message
  then greeting
  else if Js.includes "?" message || Js.includes "how" message
          || Js.includes "what" message || Js.includes "kya" message
          || Js.includes "kaise" message
  then question
  else if Js.includes "thanks" message || Js.includes "thank" message
          || Js.includes "shukriya" message
          || Js.includes "dhanyawad" message
  then thanks
  else default.

Definition getFallbackResponse (userMessage : string) : M t string :=
  let responseType := detectResponseType userMessage in
  let responses := fallbackResponses responseType in
  r <- mathRandom env ;;
  ret (Js.pick "" responses r).

(** ** hashMessage *)

Definition hashStep (hash char : Z) : Z :=
  let hash := (Js.shl hash 5 - hash) + char in
  Js.band hash hash.

Definition hashMessage (message : string) : string :=
  Js.toString (List.fold_left hashStep (Js.utf16 message) 0).

(** ** The cache (node-cache with [stdTTL: 3600])

    [get] returns the stored value unless the entry has expired, and
    then deletes it; [set] stores the value with the expiry instant
    [now + stdTTL * 1000].  The clock is read by [set], and by [get]
    when the key is present. *)
Definition cacheGet (key : string) : M t (option string) :=
  c <- gets cache ;;
  match c !! key with
  | None => ret None
  | Some (value, expires) =>
      now <- dateNow env ;;
      if negb (expires =? 0) && (expires <? now)
      then modify (fun g => {| cache := delete key (cache g) |}) ;;;
           ret None
      else ret (Some value)
  end.

Definition cacheSet (key value : string) : M t unit :=
  now <- dateNow env ;;
  modify (fun g =>
            {| cache := <[key := (value, now + stdTTL * 1000)]> (cache g) |}).

(** ** generateResponse *)

Definition generateResponse (userMessage contactName : string)
           (chatHistory : list ChatEntry) : M t string :=
  tryCatch
    (let cacheKey := "response_" +:+ hashMessage userMessage in
     cachedResponse <- cacheGet cacheKey ;;
     match cachedResponse with
     | Some (String c r) => addPersonalTouch (String c r) contactName
     | _ =>
         let detectedLanguage := detectLanguage userMessage in
         let conversationContext :=
           buildConversationContext chatHistory in
         let systemPrompt :=
           createSystemPrompt detectedLanguage contactName
                              conversationContext in
         let prompt :=
           systemPrompt +:+ nl +:+ nl +:+ "User message: " +:+ dq
           +:+ userMessage +:+ dq +:+ nl +:+ nl
           +:+ "Reply naturally as a close friend:" in
         generatedText <- generateContent env prompt ;;
         let generatedText := cleanResponse generatedText in
         generatedText <- addHumanVariations generatedText
                                             detectedLanguage ;;
         cacheSet cacheKey generatedText ;;;
         ret generatedText
     end)
    (fun error => getFallbackResponse userMessage).

End Methods.

End GeminiAI.

(* ===================================================================== *)
(** * sessionManager.js: class SessionManager *)
(* ===================================================================== *)

Module SessionManager.

(** The values the fields of a session record hold. *)
Inductive Value :=
| Str (s : string)
| Num (n : Z)
| Bool (b : bool)
| Date (ms : Z)
| Json (text : string).

Global Instance Value_eq_dec : EqDecision Value.
Proof. solve_decision. Defined.

(** A session record is a JavaScript object: [Object.assign] merges any
    fields into it.  The registry [activeSessions] is a [Map] from
    session identifiers to records.  The copy [saveActiveSessions] writes
    to active-sessions.json is read back by the constructor only and is
    not part of the state. *)
Record t := { activeSessions : gmap string (gmap string Value) }.

Definition new : t := {| activeSessions := ∅ |}.

Definition setSession (sessionId : string) (info : gmap string Value)
           (m : t) : t :=
  {| activeSessions := <[sessionId := info]> (activeSessions m) |}.

(** [Object.assign(target, source)]: the fields of [source] win. *)
Definition assign (target source : gmap string Value) : gmap string Value :=
  source ∪ target.

(** ** generateSessionId *)

Definition hexDigit (n : Z) : ascii :=
  if n <? 10 then Js.chr (48 + n) else Js.chr (87 + n).

(** [buffer.toString('hex')] *)
Definition hexByte (b : Byte.byte) : string :=
  let n := Z.of_N (Byte.to_N b) in
  String (hexDigit (n / 16)) (String (hexDigit (n mod 16)) EmptyString).

Definition toHex (bytes : list Byte.byte) : string :=
  List.fold_right (fun b s => hexByte b +:+ s) "" bytes.

Section Methods.
Context (env : Env).

Definition generateSessionId : M t string :=
  timestamp <- dateNow env ;;
  bytes <- randomBytes env 8 ;;
  let sessionId :=
    "wa_" +:+ Js.toString timestamp +:+ "_" +:+ toHex bytes in
  createdAt <- dateNow env ;;
  lastActivity <- dateNow env ;;
  let sessionInfo : gmap string Value :=
    <["sessionId" := Str sessionId]>
      (<["createdAt" := Date createdAt]>
         (<["lastActivity" := Date lastActivity]>
            (<["status" := Str "created"]>
               (<["messageCount" := Num 0]>
                  (<["isActive" := Bool true]> ∅))))) in
  modify (setSession sessionId sessionInfo) ;;;
  ret sessionId.

(** ** createSession *)

Definition createSession (sessionId : string) (metadata : Value)
  : M t (gmap string Value) :=
  sessions <- gets activeSessions ;;
  match sessions !! sessionId with
  | None => throw ("Session " +:+ sessionId +:+ " not found")
  | Some sessionInfo =>
      let sessionInfo := <["status" := Str "initializing"]> sessionInfo in
      let sessionInfo := <["metadata" := metadata]> sessionInfo in
      now <- dateNow env ;;
      let sessionInfo := <["lastActivity" := Date now]> sessionInfo in
      modify (setSession sessionId sessionInfo) ;;;
      ret sessionInfo
  end.

(** ** updateSessionStatus *)

Definition updateSessionStatus (sessionId status : string)
           (additionalData : gmap string Value) : M t unit :=
  tryCatch
    (sessions <- gets activeSessions ;;
     match sessions !! sessionId with
     | None => ret tt
     | Some sessionInfo =>
         let sessionInfo := <["status" := Str status]> sessionInfo in
         now <- dateNow env ;;
         let sessionInfo := <["lastActivity" := Date now]> sessionInfo in
         let sessionInfo := assign sessionInfo additionalData in
         modify (setSession sessionId sessionInfo)
     end)
    (fun error => ret tt).

(** ** removeSession *)

Definition removeSession (sessionId : string) : M t unit :=
  tryCatch
    (sessions <- gets activeSessions ;;
     match sessions !! sessionId with
     | None => ret tt
     | Some sessionInfo =>
         let sessionInfo := <["isActive" := Bool false]> sessionInfo in
         let sessionInfo := <["status" := Str "destroyed"]> sessionInfo in
         now <- dateNow env ;;
         let sessionInfo := <["lastActivity" := Date now]> sessionInfo in
         modify (setSession sessionId sessionInfo)
     end)
    (fun error => ret tt).

End Methods.

(** ** getSession *)

Definition getSession (sessionId : string) (m : t)
  : option (gmap string Value) :=
  activeSessions m !! sessionId.

(** The status of a session, as [getSession(id).status] reads it. *)
Definition statusOf (sessionId : string) (m : t) : option Value :=
  info ← getSession sessionId m; info !! "status".

(** ** isValidSessionId: [/^wa_\d+_[a-f0-9]{16}$/.test(sessionId)] *)

Definition isHex (c : ascii) : bool :=
  Js.inRange 97 102 c || Js.isDigit c.

Fixpoint allHex (s : string) : bool :=
  match s with
  | EmptyString => true
  | String c r => isHex c && allHex r
  end.

Definition isValidSessionId (sessionId : string) : bool :=
  Js.startsWith "wa_" sessionId
  && let afterPrefix := Js.drop 3 sessionId in
     let afterDigits := Re.skipDigits afterPrefix in
     negb (String.length afterDigits =? String.length afterPrefix)%nat
     && match afterDigits with
        | String c suffix =>
            (Js.byte c =? 95)
            && (String.length suffix =? 16)%nat && allHex suffix
        | EmptyString => false
        end.

(** ** getActiveSessionsCount *)

(** The truth value of a field that may be absent; [Json] stands for an
    object or an array, which are true. *)
Definition truthyValue (v : option Value) : bool :=
  match v with
  | Some (Str s) => negb (String.eqb s "")
  | Some (Num n) => negb (n =? 0)
  | Some (Bool b) => b
  | Some (Date _) => true
  | Some (Json _) => true
  | None => false
  end.

(** [session.isActive && session.status !== 'destroyed'] *)
Definition countsAsActive (session : gmap string Value) : bool :=
  truthyValue (session !! "isActive")
  && negb (bool_decide (session !! "status" = Some (Str "destroyed"))).

Definition getActiveSessionsCount (m : t) : nat :=
  size (filter (fun entry => countsAsActive entry.2 = true)
               (activeSessions m)).

End SessionManager.

(* ===================================================================== *)
(** * whatsapp-bot.js: class WhatsAppBot *)
(* ===================================================================== *)

(** An inbound message of the transport. *)
Record Message := { from : string; fromMe : bool; body : string }.

Module WhatsAppBot.

Record Config := {
  maxHistoryLength : nat;
  responseDelayMin : Z;
  responseDelayMax : Z;
  maxMessagesPerMinute : Z;
  botName : string
}.

(** The configuration the constructor builds when the environment
    variables are not set. *)
Definition defaultConfig : Config :=
  {| maxHistoryLength := 10; responseDelayMin := 1000;
     responseDelayMax := 3000; maxMessagesPerMinute := 2;
     botName := "AI Assistant" |}.

Inductive Direction := received | sent.

(** An entry of the chat history; [party] is the [from] field of a
    received entry and the [to] field of a sent one. *)
Record HistoryEntry := {
  type : Direction;
  message : string;
  timestamp : Z;
  party : string
}.

(** The object state.  [socket] and [model] tell whether the field holds
    an object or [null]. *)
Record t := {
  socket : bool;
  model : bool;
  isInitialized : bool;
  isReady : bool;
  messageCount : Z;
  chatHistory : gmap string (list HistoryEntry);
  rateLimiter : gmap string (list Z);
  config : Config
}.

(** The state the constructor leaves, with the AI model set up. *)
Definition new (hasSocket : bool) (cfg : Config) : t :=
  {| socket := hasSocket; model := true; isInitialized := false;
     isReady := false; messageCount := 0; chatHistory := ∅;
     rateLimiter := ∅; config := cfg |}.

Definition setMessageCount (n : Z) (b : t) : t :=
  {| socket := socket b; model := model b;
     isInitialized := isInitialized b; isReady := isReady b;
     messageCount := n; chatHistory := chatHistory b;
     rateLimiter := rateLimiter b; config := config b |}.

Definition setChatHistory (h : gmap string (list HistoryEntry)) (b : t) : t :=
  {| socket := socket b; model := model b;
     isInitialized := isInitialized b; isReady := isReady b;
     messageCount := messageCount b; chatHistory := h;
     rateLimiter := rateLimiter b; config := config b |}.

Definition setRateLimiter (r : gmap string (list Z)) (b : t) : t :=
  {| socket := socket b; model := model b;
     isInitialized := isInitialized b; isReady := isReady b;
     messageCount := messageCount b; chatHistory := chatHistory b;
     rateLimiter := r; config := config b |}.

(** ** buildAIPrompt *)

Definition languageInstructions (language : Language) : string :=
  match language with
  | hindi => "हिंदी में जवाब दो। बिल्कुल natural और friendly tone में बात करो।"
  | english =>
      "Reply in English. Keep it natural and friendly like talking to a close friend."
  | hinglish =>
      "Hinglish mein reply karo. Natural aur friendly tone rakhna, jaise koi dost se baat kar raha ho."
  end.

Definition importantRules : string :=
  "IMPORTANT RULES:
- बहुत ज्यादा लंबा message मत भेजो (maximum 2-3 sentences)
- Emojis का इस्तेमाल करो but बहुत ज्यादा नहीं
- Natural conversation करो, robot जैसा मत लगो
- अगर कोई personal या sensitive question पूछे तो politely avoid करो
- हमेशा helpful और positive रहो".

Definition buildAIPrompt (message : string) (history : list HistoryEntry)
           (contactName : string) (language : Language) : string :=
  let instruction := languageInstructions language in
  "तुम एक WhatsApp पर chat करने वाले smart और friendly AI assistant हो। " +:+ contactName +:+ " नाम का व्यक्ति तुमसे बात कर रहा है।" +:+ nl +:+ nl
  +:+ instruction +:+ nl +:+ nl
  +:+ importantRules +:+ nl +:+ nl
  +:+ (if (0 <? List.length history)%nat
       then "पिछली conversation:" +:+ nl
            +:+ Js.join nl
                  (List.map
                     (fun h =>
                        (match type h with
                         | received => contactName
                         | sent => "You"
                         end) +:+ ": " +:+ WhatsAppBot.message h)
                     history)
       else "")
  +:+ nl +:+ nl
  +:+ contactName +:+ " का नया message: " +:+ dq +:+ message +:+ dq +:+ nl +:+ nl
  +:+ "अब तुम्हारा reply (सिर्फ message content, कोई extra text नहीं):".

(** ** detectLanguage *)

(** [/[ऀ-ॿ]/.test(text)]: a character of the Devanagari block,
    whose UTF-8 bytes are E0 A4 80 to E0 A5 BF. *)
Fixpoint hindiPattern (text : string) : bool :=
  match text with
  | EmptyString => false
  | String a r =>
      match r with
      | String b (String c _) =>
          (Js.byte a =? 224) && Js.inRange 164 165 b && Js.inRange 128 191 c
      | _ => false
      end
      || hindiPattern r
  end.

(** A character of the class of [englishPattern]: a letter, a digit,
    white space (the multi-byte white space is read by [allEnglish]), or
    one of the nine punctuation marks, given by their codes: full stop,
    comma, exclamation mark, question mark, apostrophe, double quote,
    the two parentheses and the hyphen. *)
Definition englishChar (c : ascii) : bool :=
  Js.isLower c || Js.isUpper c || Js.isDigit c || Js.ws1 c
  || existsb (fun k => Js.byte c =? k) [46; 44; 33; 63; 39; 34; 40; 41; 45].

Fixpoint allEnglish (text : string) : bool :=
  match text with
  | EmptyString => true
  | String a r1 =>
      if englishChar a then allEnglish r1
      else
        match r1 with
        | String b r2 =>
            if Js.ws2 a b then allEnglish r2
            else
              match r2 with
              | String c r3 => Js.ws3 a b c && allEnglish r3
              | EmptyString => false
              end
        | EmptyString => false
        end
  end.

(** [englishPattern.test(text)]: one or more characters, all of the
    class, from the start to the end of the text. *)
Definition englishPattern (text : string) : bool :=
  match text with
  | EmptyString => false
  | String _ _ => allEnglish text
  end.

Definition detectLanguage (text : string) : Language :=
  if hindiPattern text then hindi
  else if englishPattern text then english
  else hinglish.

(** ** cleanAIResponse *)

Definition dropLeadingQuote (s : string) : string :=
  match s with
  | String c r => if Re.isQuote c then r else s
  | EmptyString => s
  end.

Definition dropTrailingQuote (s : string) : string :=
  String.rev (dropLeadingQuote (String.rev s)).

Definition cleanAIResponse (response : string) : string :=
  let response :=
    Re.stripLeadOnly ["You:"; "Me:"; "AI:"; "Bot:"; "Assistant:"] response in
  let response := dropTrailingQuote (dropLeadingQuote response) in
  Js.trim response.

(** ** getFallbackResponse *)

Definition fallbacks : list string :=
    ["Sorry yaar, thoda issue ho gaya. Kya keh rahe the tum? 🤔";
     "Oops! Kuch technical problem hai. Dobara try karo 😅";
     "Hmm, samajh nahi aaya. Thoda aur detail mein batao? 🤷‍♂️";
     "Sorry bro, connection issue. Kya bol rahe the? 📱";
     "Arre yaar, kuch gadbad hai. Phir se message karo 🔄"].

(** ** getStatus *)

Record Status := {
  connected : bool;
  initialized : bool;
  statusMessageCount : Z;
  activeChats : nat;
  rateLimitedContacts : nat
}.

Definition getStatus (b : t) : Status :=
  {| connected := isReady b; initialized := isInitialized b;
     statusMessageCount := messageCount b;
     activeChats := size (chatHistory b);
     rateLimitedContacts := size (rateLimiter b) |}.

(** ** getConversationContext *)

Definition getConversationContext (contactId : string) (b : t)
  : list HistoryEntry :=
  let history := default [] (chatHistory b !! contactId) in
  Js.sliceLast 6 history.

(** ** addToHistory

    The array of the contact is created when absent, the entry is pushed,
    and one entry is shifted out when the array is longer than the
    bound. *)
Definition addToHistory (contactId : string) (messageData : HistoryEntry)
           (b : t) : t :=
  let history := default [] (chatHistory b !! contactId) in
  let history := history ++ [messageData] in
  let history :=
    if (maxHistoryLength (config b) <? List.length history)%nat
    then Js.shift history else history in
  setChatHistory (<[contactId := history]> (chatHistory b)) b.

(** ** checkRateLimit, updateRateLimit, cleanupRateLimiter *)

Definition windowMs : Z := 60 * 1000.

Definition validRequests (now : Z) (requests : list Z) : list Z :=
  List.filter (fun time => now - time <? windowMs) requests.

Definition checkRateLimitAt (now : Z) (contactId : string) (b : t)
  : bool * t :=
  let requests := default [] (rateLimiter b !! contactId) in
  let valid := validRequests now requests in
  ((Z.of_nat (List.length valid) <? maxMessagesPerMinute (config b)),
   setRateLimiter (<[contactId := valid]> (rateLimiter b)) b).

Definition updateRateLimitAt (now : Z) (contactId : string) (b : t) : t :=
  let requests := default [] (rateLimiter b !! contactId) in
  setRateLimiter (<[contactId := requests ++ [now]]> (rateLimiter b)) b.

(** Every window is filtered; a contact whose filtered window is empty is
    deleted, the others keep the filtered window. *)
Definition cleanupRateLimiterAt (now : Z) (b : t) : t :=
  setRateLimiter
    (filter (fun entry => entry.2 <> [])
            (validRequests now <$> rateLimiter b)) b.

Section Methods.
Context (env : Env).

Definition checkRateLimit (contactId : string) : M t bool :=
  now <- dateNow env ;;
  fun b w => let (ok, b') := checkRateLimitAt now contactId b in
             (Ok ok, b', w).

Definition updateRateLimit (contactId : string) : M t unit :=
  now <- dateNow env ;;
  modify (updateRateLimitAt now contactId).

Definition getFallbackResponse : M t string :=
  r <- mathRandom env ;;
  ret (Js.pick "" fallbacks r).

(** ** calculateTypingDelay *)

Definition calculateTypingDelay (message : string) : M t Z :=
  baseDelay <- gets (fun b => responseDelayMin (config b)) ;;
  maxDelay <- gets (fun b => responseDelayMax (config b)) ;;
  let typingSpeed := 30 in
  let calculatedDelay := Z.min (Js.length message * typingSpeed) maxDelay in
  r <- mathRandom env ;;
  let randomDelay :=
    Qplus (inject_Z baseDelay)
          (Qmult r (inject_Z (calculatedDelay - baseDelay))) in
  ret (Qfloor randomDelay).

(** [this.socket?.emit('message', {..., timestamp: new Date(), ...})]:
    nothing is evaluated when there is no socket. *)
Definition emitMessage (sender text : string) : M t unit :=
  hasSocket <- gets socket ;;
  if hasSocket
  then now <- dateNow env ;;
       emit (SocketEmit "message" (sender +:+ ": " +:+ text))
  else ret tt.

(** ** getAIResponse: the reply, or [null] *)

Definition getAIResponse (messageText : string)
           (conversationHistory : list HistoryEntry)
           (contactName : string) : M t (option string) :=
  tryCatch
    (hasModel <- gets model ;;
     if negb hasModel then throw "AI model not initialized"
     else
       let detectedLanguage := detectLanguage messageText in
       let prompt :=
         buildAIPrompt messageText conversationHistory contactName
                       detectedLanguage in
       aiReply <- generateContent env prompt ;;
       ret (Some (cleanAIResponse aiReply)))
    (fun error => ret None).

(** ** generateAndSendResponse *)

Definition generateAndSendResponse (message : Message)
           (contactId contactName : string) : M t unit :=
  tryCatch
    (request env SendPresenceAvailable ;;;
     request env (GetChat (from message)) ;;;
     request env (SendStateTyping (from message)) ;;;
     history <- gets (getConversationContext contactId) ;;
     aiResponse <- getAIResponse (body message) history contactName ;;
     match aiResponse with
     | Some (String c r) =>
         let aiResponse := String c r in
         typingDelay <- calculateTypingDelay aiResponse ;;
         sleep (inject_Z typingDelay) ;;;
         request env (GetChat (from message)) ;;;
         request env (ClearState (from message)) ;;;
         request env (Reply (from message) aiResponse) ;;;
         now <- dateNow env ;;
         modify (addToHistory contactId
                   {| type := sent; WhatsAppBot.message := aiResponse;
                      timestamp := now; party := contactName |}) ;;;
         updateRateLimit contactId ;;;
         botName <- gets (fun b => botName (config b)) ;;
         emitMessage botName aiResponse
     | _ => ret tt
     end)
    (fun error =>
       fallbackResponse <- getFallbackResponse ;;
       tryCatch
         (request env (Reply (from message) fallbackResponse) ;;;
          now <- dateNow env ;;
          modify (addToHistory contactId
                    {| type := sent;
                       WhatsAppBot.message := fallbackResponse;
                       timestamp := now; party := contactName |}))
         (fun fallbackError => ret tt)).

(** ** handleIncomingMessage *)

(** [contact.pushname || contact.name || message.from] *)
Definition contactNameOf (contact : Contact) (sender : string) : string :=
  if truthy (pushname contact) then default "" (pushname contact)
  else if truthy (name contact) then default "" (name contact)
  else sender.

Definition handleIncomingMessage (message : Message) : M t unit :=
  tryCatch
    (if String.eqb (from message) "status@broadcast" then ret tt
     else if fromMe message then ret tt
     else
       contact <- getContact env (from message) ;;
       let contactName := contactNameOf contact (from message) in
       let contactId := from message in
       modify (fun b => setMessageCount (messageCount b + 1) b) ;;;
       allowed <- checkRateLimit contactId ;;
       if negb allowed then ret tt
       else
         now <- dateNow env ;;
         modify (addToHistory contactId
                   {| type := received;
                      WhatsAppBot.message := body message;
                      timestamp := now; party := contactName |}) ;;;
         emitMessage contactName (body message) ;;;
         generateAndSendResponse message contactId contactName)
    (fun error => ret tt).

(** ** cleanupRateLimiter *)

Definition cleanupRateLimiter : M t unit :=
  now <- dateNow env ;;
  modify (cleanupRateLimiterAt now).

(** ** sendMessage: the chat identifier is [to] when it holds an at sign,
    and [to] followed by [@c.us] otherwise. *)

Definition chatIdOf (to : string) : string :=
  if Js.includes "@" to then to else to +:+ "@c.us".

Definition sendMessage (to message : string) : M t nat :=
  ready <- gets isReady ;;
  if negb ready then throw "Bot is not ready"
  else request env (SendMessage (chatIdOf to) message).

End Methods.

End WhatsAppBot.

(* ===================================================================== *)
(** * whatsapp.js: class WhatsAppManager *)
(* ===================================================================== *)

Module WhatsAppManager.

Record MessageStats := { statReceived : Z; statSent : Z; statErrors : Z }.

(** The object state.  [socket], [io] and [client] tell whether the field
    holds an object or [null]; [geminiAI] is the instance the constructor
    creates. *)
Record t := {
  sessionId : string;
  io : bool;
  socket : bool;
  client : bool;
  isReady : bool;
  status : string;
  createdAt : Z;
  geminiAI : GeminiAI.t;
  messageStats : MessageStats;
  chatHistory : gmap string (list GeminiAI.ChatEntry)
}.

Definition new (id : string) (hasIo hasSocket : bool) (now : Z) : t :=
  {| sessionId := id; io := hasIo; socket := hasSocket; client := false;
     isReady := false; status := "initializing"; createdAt := now;
     geminiAI := GeminiAI.new;
     messageStats := {| statReceived := 0; statSent := 0; statErrors := 0 |};
     chatHistory := ∅ |}.

Definition setGeminiAI (g : GeminiAI.t) (m : t) : t :=
  {| sessionId := sessionId m; io := io m; socket := socket m;
     client := client m; isReady := isReady m; status := status m;
     createdAt := createdAt m; geminiAI := g;
     messageStats := messageStats m; chatHistory := chatHistory m |}.

Definition setMessageStats (st : MessageStats) (m : t) : t :=
  {| sessionId := sessionId m; io := io m; socket := socket m;
     client := client m; isReady := isReady m; status := status m;
     createdAt := createdAt m; geminiAI := geminiAI m;
     messageStats := st; chatHistory := chatHistory m |}.

Definition setChatHistory (h : gmap string (list GeminiAI.ChatEntry))
           (m : t) : t :=
  {| sessionId := sessionId m; io := io m; socket := socket m;
     client := client m; isReady := isReady m; status := status m;
     createdAt := createdAt m; geminiAI := geminiAI m;
     messageStats := messageStats m; chatHistory := h |}.

(** The fields [destroy] writes: [client = null], [isReady = false],
    [status = 'destroyed'] and the cleared history. *)
Definition destroyed (m : t) : t :=
  {| sessionId := sessionId m; io := io m; socket := socket m;
     client := false; isReady := false; status := "destroyed";
     createdAt := createdAt m; geminiAI := geminiAI m;
     messageStats := messageStats m; chatHistory := ∅ |}.

Definition countReceived (m : t) : t :=
  setMessageStats
    {| statReceived := statReceived (messageStats m) + 1;
       statSent := statSent (messageStats m);
       statErrors := statErrors (messageStats m) |} m.

Definition countError (m : t) : t :=
  setMessageStats
    {| statReceived := statReceived (messageStats m);
       statSent := statSent (messageStats m);
       statErrors := statErrors (messageStats m) + 1 |} m.

Definition countSent (m : t) : t :=
  setMessageStats
    {| statReceived := statReceived (messageStats m);
       statSent := statSent (messageStats m) + 1;
       statErrors := statErrors (messageStats m) |} m.

Definition setStatus (s : string) (m : t) : t :=
  {| sessionId := sessionId m; io := io m; socket := socket m;
     client := client m; isReady := isReady m; status := s;
     createdAt := createdAt m; geminiAI := geminiAI m;
     messageStats := messageStats m; chatHistory := chatHistory m |}.

Definition setIsReady (ready : bool) (m : t) : t :=
  {| sessionId := sessionId m; io := io m; socket := socket m;
     client := client m; isReady := ready; status := status m;
     createdAt := createdAt m; geminiAI := geminiAI m;
     messageStats := messageStats m; chatHistory := chatHistory m |}.

(** The constants of [typingDelay]. *)
Definition typingMin : Z := 1000.
Definition typingMax : Z := 3000.
Definition typingPerChar : Z := 50.

(** ** updateChatHistory, getChatHistory *)

Definition updateChatHistoryAt (now : Z) (contactId message : string)
           (isBot : bool) (m : t) : t :=
  let history := default [] (chatHistory m !! contactId) in
  let history :=
    history ++ [{| GeminiAI.message := message; GeminiAI.isBot := isBot;
                   GeminiAI.timestamp := now |}] in
  let history :=
    if (10 <? List.length history)%nat then Js.shift history else history in
  setChatHistory (<[contactId := history]> (chatHistory m)) m.

Definition getChatHistory (contactId : string) (m : t)
  : list GeminiAI.ChatEntry :=
  default [] (chatHistory m !! contactId).

(** ** getFallbackMessage *)

Definition fallbackMessages : list string :=
  ["Sorry yaar, thoda issue ho gaya. Tum bolo kya chahiye?";
   "Arre yar, kuch technical problem aa gaya. Main thodi der mein reply karunga!";
   "Bhai, abhi thoda busy hun. Baad mein baat karte hain!";
   "Hmm, samajh nahi aaya. Phir se bologe?";
   "Thoda internet slow hai, baad mein reply karunga bro!"].

(** The events of the client that [setupEventListeners] listens to, with
    what the listener reads of their argument; [qr] carries the outcome of
    the encoding of the code as an image. *)
Inductive ClientEvent :=
| qr (qrImage : option string)
| authenticated
| auth_failure (msg : string)
| ready
| disconnected (reason : string)
| message (msg : Message)
| message_create (isFromMe : bool) (to text : string)
| error (text : string).

Section Methods.
Context (env : Env).

Definition updateChatHistory (contactId message : string) (isBot : bool)
  : M t unit :=
  now <- dateNow env ;;
  modify (updateChatHistoryAt now contactId message isBot).

Definition getFallbackMessage : M t string :=
  r <- mathRandom env ;;
  ret (Js.pick "" fallbackMessages r).

(** ** emitToSocket *)

Definition emitToSocket (event data : string) : M t unit :=
  hasSocket <- gets socket ;;
  (if hasSocket then emit (SocketEmit event data) else ret tt) ;;;
  hasIo <- gets io ;;
  if hasIo then emit (IoEmit event data) else ret tt.

(** ** generateAIResponse *)

Definition generateAIResponse (userMessage contactId contactName : string)
  : M t string :=
  tryCatch
    (chatHistory <- gets (getChatHistory contactId) ;;
     zoom geminiAI setGeminiAI
          (GeminiAI.generateResponse env userMessage contactName chatHistory))
    (fun error => getFallbackMessage).

(** ** simulateTyping *)

Definition simulateTyping (chatId message : string) : M t unit :=
  tryCatch
    (request env (GetChatById chatId) ;;;
     request env (SendStateTyping chatId) ;;;
     r <- mathRandom env ;;
     let baseDelay :=
       Qplus (Qmult r (inject_Z (typingMax - typingMin)))
             (inject_Z typingMin) in
     let charDelay := inject_Z (Js.length message * typingPerChar) in
     let totalDelay := Js.qmin (Qplus baseDelay charDelay) (inject_Z 5000) in
     sleep totalDelay ;;;
     request env (ClearState chatId) ;;;
     ret tt)
    (fun error => sleep (inject_Z 1000)).

(** ** sendMessage *)

Definition sendMessage (to message : string) : M t bool :=
  ready <- gets isReady ;;
  if negb ready then throw "WhatsApp client not ready"
  else request env (SendMessage to message) ;;; ret true.

(** ** handleIncomingMessage *)

(** [contact.name || contact.pushname || message.from] *)
Definition contactNameOf (contact : Contact) (sender : string) : string :=
  if truthy (name contact) then default "" (name contact)
  else if truthy (pushname contact) then default "" (pushname contact)
  else sender.

Definition handleIncomingMessage (message : Message) : M t unit :=
  tryCatch
    (if fromMe message || String.eqb (from message) "status@broadcast"
     then ret tt
     else
       modify countReceived ;;;
       emitToSocket "message_received"
                    (from message +:+ ": " +:+ body message) ;;;
       contact <- getContact env (from message) ;;
       let contactName := contactNameOf contact (from message) in
       updateChatHistory (from message) (body message) false ;;;
       aiResponse <- generateAIResponse (body message) (from message)
                                        contactName ;;
       match aiResponse with
       | String _ _ =>
           simulateTyping (from message) aiResponse ;;;
           sendMessage (from message) aiResponse ;;;
           updateChatHistory (from message) aiResponse true
       | EmptyString => ret tt
       end)
    (fun error =>
       modify countError ;;;
       fallbackMessage <- getFallbackMessage ;;
       (** [sendMessage(...).catch(console.error)] *)
       tryCatch (sendMessage (from message) fallbackMessage ;;; ret tt)
                (fun sendError => ret tt)).

(** ** destroy *)

Definition destroy : M t unit :=
  hasClient <- gets client ;;
  (if hasClient then request env DestroyClient ;;; ret tt else ret tt) ;;;
  modify destroyed.

(** ** setupEventListeners: the listeners of the client events

    [onQr] takes the outcome of [await qrcode.toDataURL(qr)]: the image,
    or [None] when the encoding throws. *)

Definition emitError (message : string) : M t unit :=
  emitToSocket "error" message.

Definition onQr (qrImage : option string) : M t unit :=
  match qrImage with
  | Some image =>
      modify (setStatus "qr_generated") ;;;
      emitToSocket "qr" image
  | None => emitError "Failed to generate QR code"
  end.

Definition onAuthenticated : M t unit :=
  modify (setStatus "authenticated") ;;;
  emitToSocket "authenticated" "null".

Definition onAuthFailure (msg : string) : M t unit :=
  modify (setStatus "auth_failed") ;;;
  emitError ("Authentication failed: " +:+ msg).

Definition onReady : M t unit :=
  modify (setIsReady true) ;;;
  modify (setStatus "ready") ;;;
  id <- gets sessionId ;;
  emitToSocket "ready" id.

Definition onDisconnected (reason : string) : M t unit :=
  modify (setIsReady false) ;;;
  modify (setStatus "disconnected") ;;;
  emitToSocket "disconnected" reason.

(** The listener of [message_create], on the fields [fromMe], [to] and
    [body] of the message. *)
Definition onMessageCreate (isFromMe : bool) (to text : string) : M t unit :=
  if isFromMe
  then modify countSent ;;;
       emitToSocket "message_sent" (to +:+ ": " +:+ text)
  else ret tt.

Definition onError (message : string) : M t unit :=
  modify countError ;;;
  emitError message.

(** The listener [setupEventListeners] registers for each event of the
    client. *)
Definition setupEventListeners (event : ClientEvent) : M t unit :=
  match event with
  | qr qrImage => onQr qrImage
  | authenticated => onAuthenticated
  | auth_failure msg => onAuthFailure msg
  | ready => onReady
  | disconnected reason => onDisconnected reason
  | message msg => handleIncomingMessage msg
  | message_create isFromMe to text => onMessageCreate isFromMe to text
  | error text => onError text
  end.

End Methods.

End WhatsAppManager.

(* ===================================================================== *)
(** * The vocabulary of the statements *)
(* ===================================================================== *)

(** The environments whose random numbers lie in [0, 1), as the results of
    [Math.random()] do. *)
Definition randomInRange (env : Env) : Prop :=
  forall n, (0 <= random env n)%Q /\ (random env n < 1)%Q.

(** An environment for the examples: every draw is [r], the clock shows
    1000 ms more at each reading, the completion service answers
    [answer], the transport does what [ok] says, and the contact is known
    by the push name Rahul. *)
Definition sampleEnv (r : Q) (answer : option string) (ok : nat -> bool)
  : Env :=
  {| random := fun _ => r;
     clock := fun n => 1000 * Z.of_nat n;
     entropy := fun _ => Byte.x1f;
     complete := fun _ _ => answer;
     transportOk := ok;
     contactInfo := fun _ => {| pushname := Some "Rahul"; name := None |} |}.

(** The keyword tests of the selector, on the lower-cased text. *)
Definition greetingKeyword (text : string) : bool :=
  existsb (fun k => Js.includes k (Js.toLowerCase text))
          ["hello"; "hi"; "hey"; "namaste"].

Definition questionKeyword (text : string) : bool :=
  existsb (fun k => Js.includes k (Js.toLowerCase text))
          ["?"; "how"; "what"; "kya"; "kaise"].

Definition gratitudeKeyword (text : string) : bool :=
  existsb (fun k => Js.includes k (Js.toLowerCase text))
          ["thanks"; "thank"; "shukriya"; "dhanyawad"].

(** The category the priority order GREETING, QUESTION, GRATITUDE, DEFAULT
    gives. *)
Definition categoryByPriority (text : string) : GeminiAI.ResponseType :=
  if greetingKeyword text then GeminiAI.greeting
  else if questionKeyword text then GeminiAI.question
  else if gratitudeKeyword text then GeminiAI.thanks
  else GeminiAI.default.

Fixpoint allDigits (s : string) : bool :=
  match s with
  | EmptyString => true
  | String c r => Js.isDigit c && allDigits r
  end.

(** [push] followed by the conditional [shift], on any array. *)
Definition pushCapped {A} (H : nat) (history : list A) (entry : A) : list A :=
  let history := history ++ [entry] in
  if (H <? List.length history)%nat then Js.shift history else history.

Definition botHistory (contactId : string) (b : WhatsAppBot.t)
  : list WhatsAppBot.HistoryEntry :=
  default [] (WhatsAppBot.chatHistory b !! contactId).

(** The appends of a list of entries for one contact, in order. *)
Definition botAppendAll (contactId : string)
           (entries : list WhatsAppBot.HistoryEntry) (b : WhatsAppBot.t)
  : WhatsAppBot.t :=
  List.fold_left (fun b e => WhatsAppBot.addToHistory contactId e b) entries b.

Definition managerAppendAll (contactId : string)
           (entries : list GeminiAI.ChatEntry) (m : WhatsAppManager.t)
  : WhatsAppManager.t :=
  List.fold_left
    (fun m e =>
       WhatsAppManager.updateChatHistoryAt
         (GeminiAI.timestamp e) contactId (GeminiAI.message e)
         (GeminiAI.isBot e) m)
    entries m.

(** Twelve entries numbered 0 to 11, for the examples. *)
Definition sampleEntries : list WhatsAppBot.HistoryEntry :=
  List.map (fun n => {| WhatsAppBot.type := WhatsAppBot.received;
                        WhatsAppBot.message := "m";
                        WhatsAppBot.timestamp := Z.of_nat n;
                        WhatsAppBot.party := "Rahul" |})
           (List.seq 0 12).

Definition sampleChatEntries : list GeminiAI.ChatEntry :=
  List.map (fun n => {| GeminiAI.message := "m"; GeminiAI.isBot := false;
                        GeminiAI.timestamp := Z.of_nat n |})
           (List.seq 0 12).

(** The window of a contact: its array of timestamps, empty when absent. *)
Definition windowOf (contactId : string) (b : WhatsAppBot.t) : list Z :=
  default [] (WhatsAppBot.rateLimiter b !! contactId).

(** A bot whose limiter holds one window. *)
Definition botWithWindow (contactId : string) (window : list Z)
  : WhatsAppBot.t :=
  WhatsAppBot.setRateLimiter
    {[ contactId := window ]}
    (WhatsAppBot.new true WhatsAppBot.defaultConfig).

(** A field of a session record, as [getSession(id)[field]] reads it. *)
Definition fieldOf (sessionId field : string) (m : SessionManager.t)
  : option SessionManager.Value :=
  info ← SessionManager.getSession sessionId m; info !! field.

(** The registry after generateSessionId and removeSession, in the sample
    environment: it holds one session, destroyed. *)
Definition registryWithDestroyed : Res string * SessionManager.t * World :=
  (sessionId <- SessionManager.generateSessionId
                  (sampleEnv (1 # 2) None (fun _ => true)) ;;
   SessionManager.removeSession (sampleEnv (1 # 2) None (fun _ => true))
                                sessionId ;;;
   ret sessionId) SessionManager.new world0.

(** A reply or a message handed to the transport for delivery. *)
Definition isDispatch (e : Event) : bool :=
  match e with
  | Transport (Reply _ _) | Transport (SendMessage _ _) => true
  | _ => false
  end.

(** A message that is neither self-originated nor a status broadcast. *)
Definition isInbound (message : Message) : bool :=
  negb (fromMe message) && negb (String.eqb (from message) "status@broadcast").

Definition sampleMessage : Message :=
  {| from := "911@c.us"; fromMe := false; body := "hello" |}.

(** The method leaves the observation [f] of the object as it was, whether
    it returns or throws. *)
Definition preserves {O X A : Type} (f : O -> X) (m : M O A) : Prop :=
  forall o w, f (snd (fst (m o w))) = f o.

(** The bot with two fresh timestamps in the window of the sender of the
    sample message. *)
Definition busyBot : WhatsAppBot.t := botWithWindow "911@c.us" [0; 0].

(** A manager whose client is connected and ready. *)
Definition readyManager : WhatsAppManager.t :=
  {| WhatsAppManager.sessionId := "s"; WhatsAppManager.io := true;
     WhatsAppManager.socket := true; WhatsAppManager.client := true;
     WhatsAppManager.isReady := true; WhatsAppManager.status := "ready";
     WhatsAppManager.createdAt := 0;
     WhatsAppManager.geminiAI := GeminiAI.new;
     WhatsAppManager.messageStats :=
       {| WhatsAppManager.statReceived := 0; WhatsAppManager.statSent := 0;
          WhatsAppManager.statErrors := 0 |};
     WhatsAppManager.chatHistory := ∅ |}.

(** The prompt generateAndSendResponse sends for a message. *)
Definition promptFor (message : Message) (contactId contactName : string)
           (b : WhatsAppBot.t) : string :=
  WhatsAppBot.buildAIPrompt
    (body message) (WhatsAppBot.getConversationContext contactId b)
    contactName (WhatsAppBot.detectLanguage (body message)).

(** The completion step yields no usable reply: there is no model, or the
    service fails, or the text it returns is empty once cleaned. *)
Definition completionUnusable (env : Env) (b : WhatsAppBot.t) (w : World)
           (prompt : string) : Prop :=
  WhatsAppBot.model b = false
  \/ (WhatsAppBot.model b = true
      /\ (complete env (completions w) prompt = None
          \/ exists text,
              complete env (completions w) prompt = Some text
              /\ WhatsAppBot.cleanAIResponse text = "")).

(** The world once the typing indicator has been shown, and once the
    completion has been asked for when there is a model. *)
Definition afterTyping (message : Message) (w : World) : World :=
  log (Transport (SendStateTyping (from message)))
      (nextRequest
         (log (Transport (GetChat (from message)))
              (nextRequest
                 (log (Transport SendPresenceAvailable) (nextRequest w))))).

Definition afterCompletion (hasModel : bool) (prompt : string)
           (message : Message) (w : World) : World :=
  if hasModel
  then log (Completion prompt) (nextCompletion (afterTyping message w))
  else afterTyping message w.

Definition cacheKey (userMessage : string) : string :=
  "response_" +:+ GeminiAI.hashMessage userMessage.

(** The prompt generateResponse sends on a cache miss. *)
Definition geminiPrompt (userMessage contactName : string)
           (chatHistory : list GeminiAI.ChatEntry) : string :=
  GeminiAI.createSystemPrompt
    (GeminiAI.detectLanguage userMessage) contactName
    (GeminiAI.buildConversationContext chatHistory)
  +:+ nl +:+ nl +:+ "User message: " +:+ dq +:+ userMessage +:+ dq
  +:+ nl +:+ nl +:+ "Reply naturally as a close friend:".

(** Two worlds that differ in the random numbers drawn only. *)
Definition sameButDraws (w w' : World) : Prop :=
  ticks w' = ticks w /\ drawnBytes w' = drawnBytes w
  /\ completions w' = completions w /\ requests w' = requests w
  /\ trace w' = trace w.

(** The two calls of the examples: the same text hello from the contact
    Rahul, in a new GeminiAI, with the service answering [answer] and every
    random draw equal to [r]. *)
Definition firstCall (r : Q) (answer : string)
  : Res string * GeminiAI.t * World :=
  GeminiAI.generateResponse (sampleEnv r (Some answer) (fun _ => true))
                            "hello" "Rahul" [] GeminiAI.new world0.

Definition secondCall (r : Q) (answer : string)
  : Res string * GeminiAI.t * World :=
  GeminiAI.generateResponse (sampleEnv r (Some answer) (fun _ => true))
                            "hello" "Rahul" []
                            (snd (fst (firstCall r answer)))
                            (snd (firstCall r answer)).

(** ** The vocabulary of the further properties *)

(** The polynomial of the code units in the base 31, the first unit
    weighing most. *)
Definition polyHash (units : list Z) : Z :=
  List.fold_left (fun hash char => 31 * hash + char) units 0.

(** The identifier generateSessionId builds in a world. *)
Definition nextSessionId (env : Env) (w : World) : string :=
  "wa_" +:+ Js.toString (clock env (ticks w)) +:+ "_"
  +:+ SessionManager.toHex
        (List.map (entropy env) (List.seq (drawnBytes w) 8)).

(** The entry handleIncomingMessage of WhatsAppBot records for an inbound
    message, and the bot and the world once it has looked up the contact,
    counted the message, let it pass the rate limit, recorded it and
    announced it on the socket. *)
Definition acceptedEntry (env : Env) (message : Message) (w : World)
  : WhatsAppBot.HistoryEntry :=
  {| WhatsAppBot.type := WhatsAppBot.received;
     WhatsAppBot.message := body message;
     WhatsAppBot.timestamp := clock env (S (ticks w));
     WhatsAppBot.party :=
       WhatsAppBot.contactNameOf (contactInfo env (requests w))
                                 (from message) |}.

Definition accepted (env : Env) (message : Message) (b : WhatsAppBot.t)
           (w : World) : WhatsAppBot.t * World :=
  let contactName :=
    WhatsAppBot.contactNameOf (contactInfo env (requests w)) (from message) in
  let w1 :=
    nextTick
      (nextTick
         (log (Transport (GetContact (from message))) (nextRequest w))) in
  (WhatsAppBot.addToHistory
     (from message) (acceptedEntry env message w)
     (snd (WhatsAppBot.checkRateLimitAt
             (clock env (ticks w)) (from message)
             (WhatsAppBot.setMessageCount
                (WhatsAppBot.messageCount b + 1) b))),
   if WhatsAppBot.socket b
   then log (SocketEmit "message"
                        (contactName +:+ ": " +:+ body message))
            (nextTick w1)
   else w1).

(** The listeners run one after the other on the events the client
    emits, each to its end before the next. *)
Fixpoint deliver (env : Env) (events : list WhatsAppManager.ClientEvent)
  : M WhatsAppManager.t unit :=
  match events with
  | [] => ret tt
  | event :: events =>
      WhatsAppManager.setupEventListeners env event ;;; deliver env events
  end.

(** The world [w'] extends the log of [w] by events of the class
    [allowed]. *)
Definition onlyLogs (allowed : Event -> bool) (w w' : World) : Prop :=
  exists events,
    trace w' = trace w ++ events /\ forallb allowed events = true.

(** The method keeps the property [P] of the object and logs events of the
    class [allowed] only, whether it returns or throws. *)
Definition maintains {O A : Type} (P : O -> Prop) (allowed : Event -> bool)
           (m : M O A) : Prop :=
  forall o w,
    P o -> P (snd (fst (m o w))) /\ onlyLogs allowed w (snd (m o w)).

Definition notDispatch (e : Event) : bool := negb (isDispatch e).

Definition isReadyEvent (event : WhatsAppManager.ClientEvent) : bool :=
  match event with
  | WhatsAppManager.ready => true
  | _ => false
  end.

(** What the events say of the connection: the last ready or disconnected
    event decides, and the value before the events when there is none. *)
Fixpoint readyAfter (before : bool)
         (events : list WhatsAppManager.ClientEvent) : bool :=
  match events with
  | [] => before
  | WhatsAppManager.ready :: events => readyAfter true events
  | WhatsAppManager.disconnected _ :: events => readyAfter false events
  | _ :: events => readyAfter before events
  end.

(** The events that are inbound messages, and those that are messages
    created by the account itself. *)
Definition isInboundEvent (event : WhatsAppManager.ClientEvent) : bool :=
  match event with
  | WhatsAppManager.message msg => isInbound msg
  | _ => false
  end.

Definition isOwnMessageEvent (event : WhatsAppManager.ClientEvent) : bool :=
  match event with
  | WhatsAppManager.message_create isFromMe _ _ => isFromMe
  | _ => false
  end.

Definition countOf {A} (p : A -> bool) (l : list A) : Z :=
  Z.of_nat (List.length (List.filter p l)).



Definition isErrorEvent (event : WhatsAppManager.ClientEvent) : bool :=
  match event with
  | WhatsAppManager.error _ => true
  | _ => false
  end.

(** The status ready is shown by a ready manager only. *)
Definition readyStatusIsReady (m : WhatsAppManager.t) : Prop :=
  WhatsAppManager.status m = "ready" -> WhatsAppManager.isReady m = true.

(** The world once emitToSocket has announced an event. *)
Definition announced (m : WhatsAppManager.t) (event data : string)
           (w : World) : World :=
  let w := if WhatsAppManager.socket m then log (SocketEmit event data) w
           else w in
  if WhatsAppManager.io m then log (IoEmit event data) w else w.

(** The manager and the world once handleIncomingMessage has counted and
    announced an inbound message, looked up its contact and recorded it in
    the history. *)
Definition recorded (env : Env) (msg : Message) (m : WhatsAppManager.t)
           (w : World) : WhatsAppManager.t * World :=
  (WhatsAppManager.updateChatHistoryAt
     (clock env (ticks w)) (from msg) (body msg) false
     (WhatsAppManager.countReceived m),
   nextTick
     (log (Transport (GetContact (from msg)))
          (nextRequest
             (announced m "message_received"
                        (from msg +:+ ": " +:+ body msg) w)))).

(** The call of GeminiAI.generateResponse that handleIncomingMessage makes
    for an inbound message whose contact lookup succeeds. *)
Definition generated (env : Env) (msg : Message) (m : WhatsAppManager.t)
           (w : World) : Res string * GeminiAI.t * World :=
  GeminiAI.generateResponse
    env (body msg)
    (WhatsAppManager.contactNameOf
       (contactInfo env (requests w)) (from msg))
    (WhatsAppManager.getChatHistory (from msg) (fst (recorded env msg m w)))
    (WhatsAppManager.geminiAI m)
    (snd (recorded env msg m w)).

(** Every stored history is within its bound. *)
Definition botHistoriesBounded (b : WhatsAppBot.t) : Prop :=
  forall contactId,
    (List.length (botHistory contactId b)
     <= WhatsAppBot.maxHistoryLength (WhatsAppBot.config b))%nat.

Definition managerHistoriesBounded (m : WhatsAppManager.t) : Prop :=
  forall contactId,
    (List.length (WhatsAppManager.getChatHistory contactId m) <= 10)%nat.

Definition anyEvent (e : Event) : bool := true.

(** The string does not hold the character [c] twice in a row; it starts
    with [c]; it holds [c]. *)
Fixpoint noPair (c : ascii) (s : string) : bool :=
  match s with
  | String a r =>
      match r with
      | String b _ =>
          negb ((Js.byte a =? Js.byte c) && (Js.byte b =? Js.byte c))
          && noPair c r
      | EmptyString => true
      end
  | EmptyString => true
  end.

Definition headIs (c : ascii) (s : string) : bool :=
  match s with
  | String a _ => Js.byte a =? Js.byte c
  | EmptyString => false
  end.

Fixpoint hasChar (c : ascii) (s : string) : bool :=
  match s with
  | String a r => (Js.byte a =? Js.byte c) || hasChar c r
  | EmptyString => false
  end.

(** Runs the monadic combinators of a method applied to a state and a
    world. *)
Ltac run :=
  cbv beta iota zeta delta
      [Eff.bind Eff.ret Eff.tryCatch Eff.throw Eff.gets Eff.get Eff.modify
       Eff.zoom Eff.mathRandom Eff.dateNow Eff.randomBytes
       Eff.generateContent Eff.request Eff.getContact Eff.emit Eff.sleep].

(* ===================================================================== *)
(** * The language classifiers *)
(* ===================================================================== *)

Lemma sampleEnv_randomInRange answer ok :
  randomInRange (sampleEnv (1 # 2) answer ok).
Proof. intros n. unfold Qle, Qlt. simpl. lia. Qed.

Lemma detectLanguage_never_hindi message :
  GeminiAI.detectLanguage message <> hindi.
Proof.
  unfold GeminiAI.detectLanguage.
  repeat match goal with |- context [if ?b then _ else _] => destruct b end;
    discriminate.
Qed.

(** Claim C7, on the source: the script test of WhatsAppBot.detectLanguage
    answers english, not hinglish, for the text kaise ho yaar, which holds
    Latin letters and spaces only. *)
Lemma bot_detectLanguage_kaise_ho_yaar :
  WhatsAppBot.detectLanguage "kaise ho yaar" = english
  /\ WhatsAppBot.detectLanguage "kaise ho yaar" <> hinglish.
Proof. split; vm_compute; [ reflexivity | discriminate ]. Qed.

(** Claim C7, as amended: both classifiers are functions of the text alone
    (equal texts give equal answers).  GeminiAI.detectLanguage, the
    vocabulary count, answers hinglish or english, hinglish for kaise ho
    yaar and english for How are you today.  WhatsAppBot.detectLanguage,
    the script test, answers english for both texts. *)
Theorem detectLanguage_deterministic_and_table :
  (forall m1 m2 : string,
      m1 = m2 ->
      GeminiAI.detectLanguage m1 = GeminiAI.detectLanguage m2
      /\ WhatsAppBot.detectLanguage m1 = WhatsAppBot.detectLanguage m2)
  /\ (forall m, GeminiAI.detectLanguage m = hinglish
                \/ GeminiAI.detectLanguage m = english)
  /\ GeminiAI.detectLanguage "kaise ho yaar" = hinglish
  /\ GeminiAI.detectLanguage "How are you today" = english
  /\ WhatsAppBot.detectLanguage "kaise ho yaar" = english
  /\ WhatsAppBot.detectLanguage "How are you today" = english.
Proof.
  split; [ intros m1 m2 ->; split; reflexivity | ].
  split.
  { intros m. pose proof (detectLanguage_never_hindi m) as H.
    destruct (GeminiAI.detectLanguage m); [ congruence | right | left ];
      reflexivity. }
  repeat split; vm_compute; reflexivity.
Qed.

(* ===================================================================== *)
(** * The fallback selectors *)
(* ===================================================================== *)

Lemma pickIndex_lt (r : Q) (n : nat) :
  (0 <= r)%Q -> (r < 1)%Q -> (0 < n)%nat -> (Js.pickIndex r n < n)%nat.
Proof.
  intros H0 H1 Hn. unfold Js.pickIndex.
  set (x := Qmult r (inject_Z (Z.of_nat n))).
  assert (Hpos : (0 < inject_Z (Z.of_nat n))%Q).
  { change 0%Q with (inject_Z 0). rewrite <- Zlt_Qlt. lia. }
  assert (Hx0 : (0 <= x)%Q).
  { unfold x. apply Qmult_le_0_compat; [ exact H0 | apply Qlt_le_weak, Hpos ]. }
  assert (Hxn : (x < inject_Z (Z.of_nat n))%Q).
  { unfold x.
    apply Qlt_le_trans with (1 * inject_Z (Z.of_nat n))%Q.
    - apply Qmult_lt_compat_r; assumption.
    - apply Qle_lteq. right. apply Qmult_1_l. }
  assert (Hf0 : 0 <= Qfloor x).
  { change 0 with (Qfloor 0). apply Qfloor_resp_le, Hx0. }
  assert (Hfn : Qfloor x < Z.of_nat n).
  { rewrite Zlt_Qlt. eapply Qle_lt_trans; [ apply Qfloor_le | exact Hxn ]. }
  lia.
Qed.

Lemma pick_In {A} (d : A) (pool : list A) (r : Q) :
  (0 <= r)%Q -> (r < 1)%Q -> pool <> [] -> In (Js.pick d pool r) pool.
Proof.
  intros H0 H1 Hne. unfold Js.pick. apply nth_In.
  apply pickIndex_lt; try assumption.
  destruct pool; [ congruence | simpl; lia ].
Qed.

Lemma detectResponseType_priority text :
  GeminiAI.detectResponseType text = categoryByPriority text.
Proof.
  unfold GeminiAI.detectResponseType, categoryByPriority, greetingKeyword,
    questionKeyword, gratitudeKeyword.
  simpl existsb. rewrite !orb_false_r, !orb_assoc. reflexivity.
Qed.

Lemma fallbackResponses_nonempty ty : GeminiAI.fallbackResponses ty <> [].
Proof. destruct ty; discriminate. Qed.

(** Claim C6, on the source: the fallback of WhatsAppBot takes no text and
    draws from one pool of five replies; the reply drawn at 0 belongs to
    none of the four category pools. *)
Lemma bot_fallback_outside_category_pools :
  fst (fst (WhatsAppBot.getFallbackResponse
              (sampleEnv 0 None (fun _ => true))
              (WhatsAppBot.new true WhatsAppBot.defaultConfig) world0))
  = Ok "Sorry yaar, thoda issue ho gaya. Kya keh rahe the tum? 🤔"
  /\ forall ty,
      ~ In "Sorry yaar, thoda issue ho gaya. Kya keh rahe the tum? 🤔"
           (GeminiAI.fallbackResponses ty).
Proof.
  split; [ vm_compute; reflexivity | ].
  intros ty Hin. destruct ty; simpl in Hin; intuition discriminate.
Qed.

(** Claim C6, as amended: for every text, GeminiAI.getFallbackResponse
    never fails, changes no state, and returns a member of the pool of the
    one category that the keyword tests give in the priority order
    GREETING, QUESTION, GRATITUDE, DEFAULT; hello there falls in GREETING,
    thanks a lot in GRATITUDE and random statement in DEFAULT.  The
    fallback of WhatsAppBot does not look at the text: it never fails and
    returns a member of its own pool of five replies. *)
Theorem fallback_selector_total_and_in_pool (env : Env) :
  randomInRange env ->
  (forall userMessage g w,
      exists reply,
        GeminiAI.getFallbackResponse env userMessage g w
        = (Ok reply, g, nextDraw w)
        /\ In reply (GeminiAI.fallbackResponses
                       (categoryByPriority userMessage)))
  /\ categoryByPriority "hello there" = GeminiAI.greeting
  /\ categoryByPriority "thanks a lot" = GeminiAI.thanks
  /\ categoryByPriority "random statement" = GeminiAI.default
  /\ (forall b w,
         exists reply,
           WhatsAppBot.getFallbackResponse env b w = (Ok reply, b, nextDraw w)
           /\ In reply WhatsAppBot.fallbacks).
Proof.
  intros Hr. split.
  { intros userMessage g w. eexists. split; [ reflexivity | ].
    rewrite <- detectResponseType_priority.
    destruct (Hr (draws w)) as [H0 H1].
    apply pick_In; [ exact H0 | exact H1 | apply fallbackResponses_nonempty ]. }
  repeat split; try (vm_compute; reflexivity).
  intros b w. eexists. split; [ reflexivity | ].
  destruct (Hr (draws w)) as [H0 H1].
  apply pick_In; [ exact H0 | exact H1 | discriminate ].
Qed.

(** The theorem at the text hello there, with every draw at 1/2. *)
Lemma fallback_selector_witness :
  randomInRange (sampleEnv (1 # 2) None (fun _ => true))
  /\ exists reply,
      GeminiAI.getFallbackResponse (sampleEnv (1 # 2) None (fun _ => true))
                                   "hello there" GeminiAI.new world0
      = (Ok reply, GeminiAI.new, nextDraw world0)
      /\ In reply (GeminiAI.fallbackResponses GeminiAI.greeting).
Proof.
  split; [ apply sampleEnv_randomInRange | ].
  exact (proj1 (fallback_selector_total_and_in_pool
                  (sampleEnv (1 # 2) None (fun _ => true))
                  (sampleEnv_randomInRange None (fun _ => true)))
               "hello there" GeminiAI.new world0).
Defined.

(* ===================================================================== *)
(** * Session identifiers *)
(* ===================================================================== *)

Lemma string_of_uint_allDigits (d : Decimal.uint) :
  allDigits (NilEmpty.string_of_uint d) = true.
Proof. induction d; simpl; try rewrite IHd; reflexivity. Qed.

Lemma toString_digits (z : Z) :
  0 <= z ->
  allDigits (Js.toString z) = true /\ Js.toString z <> EmptyString.
Proof.
  intros Hz. unfold Js.toString.
  destruct z as [ | p | p ]; [ split; [ reflexivity | discriminate ] | | lia ].
  simpl. unfold NilZero.string_of_uint.
  destruct (Pos.to_uint p); simpl;
    (split; [ try apply string_of_uint_allDigits; reflexivity | discriminate ]).
Qed.

Lemma length_app_string (a b : string) :
  String.length (a +:+ b) = (String.length a + String.length b)%nat.
Proof. induction a; simpl; [ reflexivity | rewrite IHa; reflexivity ]. Qed.

Lemma skipDigits_app (ds rest : string) :
  allDigits ds = true ->
  Re.skipDigits (ds +:+ String "_" rest) = String "_" rest.
Proof.
  induction ds as [ | c ds IH ]; simpl; intros H; [ reflexivity | ].
  apply andb_true_iff in H as [Hc Hds]. rewrite Hc. apply IH, Hds.
Qed.

Lemma hexByte_allHex (b : Byte.byte) :
  SessionManager.allHex (SessionManager.hexByte b) = true.
Proof. destruct b; reflexivity. Qed.

Lemma allHex_app (a b : string) :
  SessionManager.allHex a = true -> SessionManager.allHex b = true ->
  SessionManager.allHex (a +:+ b) = true.
Proof.
  induction a; simpl; intros Ha Hb; [ exact Hb | ].
  apply andb_true_iff in Ha as [Hc Ha]. rewrite Hc. apply IHa; assumption.
Qed.

Lemma toHex_allHex (bytes : list Byte.byte) :
  SessionManager.allHex (SessionManager.toHex bytes) = true.
Proof.
  induction bytes as [ | b bytes IH ]; [ reflexivity | ].
  change (SessionManager.toHex (b :: bytes))
    with (SessionManager.hexByte b +:+ SessionManager.toHex bytes).
  apply allHex_app; [ apply hexByte_allHex | exact IH ].
Qed.

Lemma toHex_length (bytes : list Byte.byte) :
  String.length (SessionManager.toHex bytes) = (2 * List.length bytes)%nat.
Proof.
  induction bytes as [ | b bytes IH ]; [ reflexivity | ].
  change (SessionManager.toHex (b :: bytes))
    with (SessionManager.hexByte b +:+ SessionManager.toHex bytes).
  rewrite length_app_string, IH. cbn [List.length].
  unfold SessionManager.hexByte. cbn [String.length]. lia.
Qed.

(** The strings of the shape wa_, digits, underscore, sixteen hexadecimal
    digits pass the pattern. *)
Lemma isValidSessionId_shape (ds hx : string) :
  allDigits ds = true -> ds <> EmptyString ->
  String.length hx = 16%nat -> SessionManager.allHex hx = true ->
  SessionManager.isValidSessionId ("wa_" +:+ ds +:+ "_" +:+ hx) = true.
Proof.
  intros Hds Hne Hlen Hhex. unfold SessionManager.isValidSessionId.
  change ("wa_" +:+ ds +:+ "_" +:+ hx)
    with (String "w" (String "a" (String "_" (ds +:+ String "_" hx)))).
  cbn [Js.startsWith Js.drop andb].
  replace (Js.byte "w" =? Js.byte "w") with true by reflexivity.
  replace (Js.byte "a" =? Js.byte "a") with true by reflexivity.
  replace (Js.byte "_" =? Js.byte "_") with true by reflexivity.
  cbn [andb]. rewrite skipDigits_app by exact Hds.
  rewrite length_app_string. cbn [String.length].
  rewrite Hlen, Hhex.
  replace (Js.byte "_" =? 95) with true by reflexivity.
  destruct ds as [ | c ds ]; [ congruence | ].
  cbn [String.length]. rewrite andb_true_r.
  apply negb_true_iff, Nat.eqb_neq. lia.
Qed.

(** Claim C8: when the clock shows a time after the epoch, generateSessionId
    succeeds, and the identifier it returns, wa_, the time in decimal, an
    underscore and the sixteen hexadecimal digits of eight random bytes,
    passes isValidSessionId, which reads the string alone; the session is
    registered under it with the status created. *)
Theorem generateSessionId_isValid (env : Env) (m : SessionManager.t)
        (w : World) :
  0 <= clock env (ticks w) ->
  exists sessionId m' w',
    SessionManager.generateSessionId env m w = (Ok sessionId, m', w')
    /\ sessionId
       = "wa_" +:+ Js.toString (clock env (ticks w)) +:+ "_"
         +:+ SessionManager.toHex
               (List.map (entropy env) (List.seq (drawnBytes w) 8))
    /\ SessionManager.isValidSessionId sessionId = true
    /\ SessionManager.statusOf sessionId m'
       = Some (SessionManager.Str "created").
Proof.
  intros Hclock.
  destruct (toString_digits _ Hclock) as [Hds Hne].
  unfold SessionManager.generateSessionId. run.
  eexists _, _, _. split; [ reflexivity | ].
  split; [ reflexivity | ]. split.
  - apply isValidSessionId_shape; try assumption.
    + rewrite toHex_length, length_map, length_seq. reflexivity.
    + apply toHex_allHex.
  - unfold SessionManager.statusOf, SessionManager.getSession,
      SessionManager.setSession. cbn [SessionManager.activeSessions].
    rewrite lookup_insert_eq. cbn.
    rewrite lookup_insert_ne by discriminate.
    rewrite lookup_insert_ne by discriminate.
    rewrite lookup_insert_ne by discriminate.
    apply lookup_insert_eq.
Qed.

(** The theorem in the sample environment, whose clock starts at 0. *)
Lemma generateSessionId_isValid_witness :
  0 <= clock (sampleEnv (1 # 2) None (fun _ => true)) (ticks world0)
  /\ exists sessionId m' w',
      SessionManager.generateSessionId (sampleEnv (1 # 2) None (fun _ => true))
                                       SessionManager.new world0
      = (Ok sessionId, m', w')
      /\ sessionId
         = "wa_" +:+ Js.toString
                       (clock (sampleEnv (1 # 2) None (fun _ => true))
                              (ticks world0))
           +:+ "_"
           +:+ SessionManager.toHex
                 (List.map (entropy (sampleEnv (1 # 2) None (fun _ => true)))
                           (List.seq (drawnBytes world0) 8))
      /\ SessionManager.isValidSessionId sessionId = true
      /\ SessionManager.statusOf sessionId m'
         = Some (SessionManager.Str "created").
Proof.
  split; [ simpl; lia | ].
  apply (generateSessionId_isValid (sampleEnv (1 # 2) None (fun _ => true))
                                   SessionManager.new world0).
  simpl. lia.
Defined.

(* ===================================================================== *)
(** * The bounded chat history *)
(* ===================================================================== *)

Section Capped.
Context {A : Type}.
Implicit Types (h es : list A) (e : A) (H : nat).

Lemma pushCapped_sliceLast H h e :
  (List.length h <= H)%nat ->
  pushCapped H h e = Js.sliceLast H (h ++ [e]).
Proof.
  intros Hlen. unfold pushCapped, Js.sliceLast, Js.shift.
  rewrite length_app. cbn [List.length].
  destruct (Nat.ltb_spec H (List.length h + 1)) as [Hgt | Hle].
  - replace (List.length h + 1 - H)%nat with 1%nat by lia.
    destruct h; reflexivity.
  - replace (List.length h + 1 - H)%nat with 0%nat by lia. reflexivity.
Qed.

Lemma sliceLast_length H h :
  List.length (Js.sliceLast H h) = Nat.min H (List.length h).
Proof. unfold Js.sliceLast. rewrite length_skipn. lia. Qed.

Lemma sliceLast_short H h :
  (List.length h <= H)%nat -> Js.sliceLast H h = h.
Proof.
  intros Hlen. unfold Js.sliceLast.
  replace (List.length h - H)%nat with 0%nat by lia. reflexivity.
Qed.

Lemma sliceLast_app_one H h e :
  Js.sliceLast H (Js.sliceLast H h ++ [e]) = Js.sliceLast H (h ++ [e]).
Proof.
  destruct (Nat.le_gt_cases (List.length h) H) as [Hle | Hgt].
  - rewrite (sliceLast_short H h) by exact Hle. reflexivity.
  - unfold Js.sliceLast. rewrite !length_app, length_skipn.
    cbn [List.length].
    replace (List.length h - (List.length h - H) + 1 - H)%nat
      with 1%nat by lia.
    replace (List.length h + 1 - H)%nat
      with (S (List.length h - H)) by lia.
    destruct H as [ | H ].
    + rewrite Nat.sub_0_r, skipn_all. cbn [app skipn].
      rewrite skipn_all2 by (rewrite length_app; cbn [List.length]; lia).
      reflexivity.
    + rewrite (skipn_app (S (List.length h - S H)) h [e]).
      replace (S (List.length h - S H) - List.length h)%nat
        with 0%nat by lia.
      rewrite (skipn_app 1 (skipn (List.length h - S H) h) [e]).
      rewrite length_skipn, skipn_skipn.
      replace (1 - (List.length h - (List.length h - S H)))%nat
        with 0%nat by lia.
      reflexivity.
Qed.

Lemma fold_pushCapped_sliceLast H es h :
  List.fold_left (pushCapped H) es (Js.sliceLast H h)
  = Js.sliceLast H (h ++ es).
Proof.
  revert h. induction es as [ | e es IH ]; intros h.
  - rewrite app_nil_r. reflexivity.
  - cbn [List.fold_left].
    rewrite pushCapped_sliceLast by (rewrite sliceLast_length; lia).
    rewrite sliceLast_app_one, IH, <- app_assoc. reflexivity.
Qed.

Lemma fold_pushCapped H es h :
  (List.length h <= H)%nat ->
  List.fold_left (pushCapped H) es h = Js.sliceLast H (h ++ es).
Proof.
  intros Hlen. rewrite <- (sliceLast_short H h) at 1 by exact Hlen.
  apply fold_pushCapped_sliceLast.
Qed.

Lemma sliceLast_app_long H h es :
  (List.length h <= H)%nat -> (H < List.length es)%nat ->
  Js.sliceLast H (h ++ es) = Js.sliceLast H es.
Proof.
  intros Hh Hes. unfold Js.sliceLast. rewrite length_app, skipn_app.
  rewrite skipn_all2 by lia. cbn [app]. f_equal. lia.
Qed.

End Capped.

Lemma botHistory_addToHistory contactId e b :
  botHistory contactId (WhatsAppBot.addToHistory contactId e b)
  = pushCapped (WhatsAppBot.maxHistoryLength (WhatsAppBot.config b))
               (botHistory contactId b) e.
Proof.
  unfold botHistory, WhatsAppBot.addToHistory, WhatsAppBot.setChatHistory.
  cbn [WhatsAppBot.chatHistory]. rewrite lookup_insert_eq. reflexivity.
Qed.

Lemma botHistory_addToHistory_other contactId other e b :
  other <> contactId ->
  botHistory contactId (WhatsAppBot.addToHistory other e b)
  = botHistory contactId b.
Proof.
  intros Hne. unfold botHistory, WhatsAppBot.addToHistory,
    WhatsAppBot.setChatHistory.
  cbn [WhatsAppBot.chatHistory]. rewrite lookup_insert_ne by exact Hne.
  reflexivity.
Qed.

Lemma botHistory_appendAll contactId entries b :
  botHistory contactId (botAppendAll contactId entries b)
  = List.fold_left
      (pushCapped (WhatsAppBot.maxHistoryLength (WhatsAppBot.config b)))
      entries (botHistory contactId b).
Proof.
  revert b. induction entries as [ | e entries IH ]; intros b;
    [ reflexivity | ].
  unfold botAppendAll in *. cbn [List.fold_left].
  rewrite IH, botHistory_addToHistory. reflexivity.
Qed.

Lemma getChatHistory_updateChatHistoryAt now contactId message isBot m :
  WhatsAppManager.getChatHistory
    contactId (WhatsAppManager.updateChatHistoryAt now contactId message isBot m)
  = pushCapped 10 (WhatsAppManager.getChatHistory contactId m)
               {| GeminiAI.message := message; GeminiAI.isBot := isBot;
                  GeminiAI.timestamp := now |}.
Proof.
  unfold WhatsAppManager.getChatHistory, WhatsAppManager.updateChatHistoryAt,
    WhatsAppManager.setChatHistory.
  cbn [WhatsAppManager.chatHistory]. rewrite lookup_insert_eq. reflexivity.
Qed.

Lemma getChatHistory_appendAll contactId entries m :
  WhatsAppManager.getChatHistory contactId
                                 (managerAppendAll contactId entries m)
  = List.fold_left (pushCapped 10) entries
                   (WhatsAppManager.getChatHistory contactId m).
Proof.
  revert m. induction entries as [ | e entries IH ]; intros m;
    [ reflexivity | ].
  unfold managerAppendAll in *. cbn [List.fold_left].
  rewrite IH, getChatHistory_updateChatHistoryAt. destruct e; reflexivity.
Qed.

Lemma pushCapped_length {A} (H : nat) (h : list A) (e : A) :
  (List.length h <= H)%nat -> (List.length (pushCapped H h e) <= H)%nat.
Proof.
  intros Hlen. rewrite pushCapped_sliceLast by exact Hlen.
  rewrite sliceLast_length. lia.
Qed.

(** Claim C5: take a contact whose stored history holds at most H entries,
    as every history does that starts empty.  After more than H appends
    for the contact the stored history is exactly the last H entries
    appended, in the order of arrival, and after any single append it holds
    at most H entries.  For WhatsAppBot.addToHistory H is
    config.maxHistoryLength, which is 10 in the configuration the
    constructor builds; for WhatsAppManager.updateChatHistory H is 10. *)
Theorem history_keeps_last_entries
        (b : WhatsAppBot.t) (m : WhatsAppManager.t) (contactId : string)
        (entries : list WhatsAppBot.HistoryEntry)
        (entries' : list GeminiAI.ChatEntry)
        (e : WhatsAppBot.HistoryEntry) (e' : GeminiAI.ChatEntry) :
  let H := WhatsAppBot.maxHistoryLength (WhatsAppBot.config b) in
  (List.length (botHistory contactId b) <= H)%nat ->
  (List.length (WhatsAppManager.getChatHistory contactId m) <= 10)%nat ->
  (H < List.length entries)%nat ->
  (10 < List.length entries')%nat ->
  (botHistory contactId (botAppendAll contactId entries b)
   = Js.sliceLast H entries
   /\ List.length (botHistory contactId (botAppendAll contactId entries b))
      = H
   /\ (List.length
         (botHistory contactId (WhatsAppBot.addToHistory contactId e b))
       <= H)%nat)
  /\ (WhatsAppManager.getChatHistory
        contactId (managerAppendAll contactId entries' m)
      = Js.sliceLast 10 entries'
      /\ List.length
           (WhatsAppManager.getChatHistory
              contactId (managerAppendAll contactId entries' m))
         = 10%nat
      /\ (List.length
            (WhatsAppManager.getChatHistory
               contactId
               (WhatsAppManager.updateChatHistoryAt
                  (GeminiAI.timestamp e') contactId (GeminiAI.message e')
                  (GeminiAI.isBot e') m))
          <= 10)%nat)
  /\ WhatsAppBot.maxHistoryLength WhatsAppBot.defaultConfig = 10%nat.
Proof.
  intros H Hb Hm Hn Hn'. split; [ | split; [ | reflexivity ] ].
  - assert (Heq : botHistory contactId (botAppendAll contactId entries b)
                  = Js.sliceLast H entries).
    { rewrite botHistory_appendAll, fold_pushCapped by exact Hb.
      apply sliceLast_app_long; assumption. }
    split; [ exact Heq | split ].
    + rewrite Heq, sliceLast_length. lia.
    + rewrite botHistory_addToHistory. apply pushCapped_length, Hb.
  - assert (Heq : WhatsAppManager.getChatHistory
                    contactId (managerAppendAll contactId entries' m)
                  = Js.sliceLast 10 entries').
    { rewrite getChatHistory_appendAll, fold_pushCapped by exact Hm.
      apply sliceLast_app_long; assumption. }
    split; [ exact Heq | split ].
    + rewrite Heq, sliceLast_length. lia.
    + rewrite getChatHistory_updateChatHistoryAt.
      apply pushCapped_length, Hm.
Qed.

(** The theorem at twelve appends to a new bot and a new manager. *)
Lemma history_keeps_last_entries_witness :
  botHistory "c" (botAppendAll "c" sampleEntries
                               (WhatsAppBot.new true WhatsAppBot.defaultConfig))
  = Js.sliceLast 10 sampleEntries.
Proof.
  refine (proj1 (proj1 (history_keeps_last_entries
                          (WhatsAppBot.new true WhatsAppBot.defaultConfig)
                          (WhatsAppManager.new "s" true true 0) "c"
                          sampleEntries sampleChatEntries
                          (List.hd {| WhatsAppBot.type := WhatsAppBot.sent;
                                      WhatsAppBot.message := "";
                                      WhatsAppBot.timestamp := 0;
                                      WhatsAppBot.party := "" |}
                                   sampleEntries)
                          (List.hd {| GeminiAI.message := "";
                                      GeminiAI.isBot := false;
                                      GeminiAI.timestamp := 0 |}
                                   sampleChatEntries)
                          _ _ _ _))).
  - vm_compute. lia.
  - vm_compute. lia.
  - vm_compute. lia.
  - vm_compute. lia.
Defined.

(* ===================================================================== *)
(** * The rate limiter *)
(* ===================================================================== *)

(** Claim C2, on the source: checkRateLimit answers true on an empty window
    at the instant 1000 and leaves the window empty, so the admission is
    not recorded; and on the window 0, 50000, 55000 at the instant 61000 it
    answers false and has dropped the timestamp 0 from the window. *)
Lemma checkRateLimit_records_nothing_and_prunes_on_refusal :
  (fst (WhatsAppBot.checkRateLimitAt 1000 "c" (botWithWindow "c" [])) = true
   /\ windowOf "c" (snd (WhatsAppBot.checkRateLimitAt
                           1000 "c" (botWithWindow "c" []))) = [])
  /\ (fst (WhatsAppBot.checkRateLimitAt
             61000 "c" (botWithWindow "c" [0; 50000; 55000])) = false
      /\ windowOf "c" (botWithWindow "c" [0; 50000; 55000])
         = [0; 50000; 55000]
      /\ windowOf "c" (snd (WhatsAppBot.checkRateLimitAt
                              61000 "c" (botWithWindow "c" [0; 50000; 55000])))
         = [50000; 55000]).
Proof. repeat split; vm_compute; reflexivity. Qed.

(** Claim C2, as amended: for every contact and every instant now,
    checkRateLimit replaces the window of the contact by its timestamps t
    with now - t < W, in their order, whether it then answers true or
    false; it leaves the windows of the other contacts and the rest of the
    state as they were; it answers true exactly when the number of
    timestamps kept is below R; and it adds no timestamp, so now is not
    recorded by it.  updateRateLimit is what records now: it appends it to
    the window of the contact and changes nothing else. *)
Theorem checkRateLimit_prunes_then_compares
        (now : Z) (contactId : string) (b : WhatsAppBot.t) :
  let ok := fst (WhatsAppBot.checkRateLimitAt now contactId b) in
  let b' := snd (WhatsAppBot.checkRateLimitAt now contactId b) in
  windowOf contactId b'
  = List.filter (fun t => now - t <? WhatsAppBot.windowMs)
                (windowOf contactId b)
  /\ (forall t, In t (windowOf contactId b')
                <-> In t (windowOf contactId b) /\ now - 60000 < t)
  /\ (ok = true
      <-> Z.of_nat (List.length (windowOf contactId b'))
          < WhatsAppBot.maxMessagesPerMinute (WhatsAppBot.config b))
  /\ (forall other, other <> contactId ->
                    windowOf other b' = windowOf other b)
  /\ WhatsAppBot.chatHistory b' = WhatsAppBot.chatHistory b
  /\ WhatsAppBot.messageCount b' = WhatsAppBot.messageCount b
  /\ WhatsAppBot.config b' = WhatsAppBot.config b
  /\ windowOf contactId (WhatsAppBot.updateRateLimitAt now contactId b)
     = windowOf contactId b ++ [now]
  /\ (forall other, other <> contactId ->
                    windowOf other (WhatsAppBot.updateRateLimitAt
                                      now contactId b)
                    = windowOf other b)
  /\ WhatsAppBot.chatHistory (WhatsAppBot.updateRateLimitAt now contactId b)
     = WhatsAppBot.chatHistory b.
Proof.
  intros ok b'.
  assert (Hw : windowOf contactId b'
               = List.filter (fun t => now - t <? WhatsAppBot.windowMs)
                             (windowOf contactId b)).
  { unfold b', windowOf, WhatsAppBot.checkRateLimitAt,
      WhatsAppBot.setRateLimiter.
    cbn [snd WhatsAppBot.rateLimiter]. rewrite lookup_insert_eq.
    reflexivity. }
  split; [ exact Hw | ]. split.
  { intros t. rewrite Hw, filter_In. unfold WhatsAppBot.windowMs.
    rewrite Z.ltb_lt. split; intros [Hin Hlt]; (split; [ exact Hin | lia ]). }
  split.
  { rewrite Hw. unfold ok, WhatsAppBot.checkRateLimitAt, windowOf,
      WhatsAppBot.validRequests.
    cbn [fst]. apply Z.ltb_lt. }
  split.
  { intros other Hne. unfold b', windowOf, WhatsAppBot.checkRateLimitAt,
      WhatsAppBot.setRateLimiter.
    cbn [snd WhatsAppBot.rateLimiter].
    rewrite lookup_insert_ne by congruence. reflexivity. }
  split; [ reflexivity | ]. split; [ reflexivity | ].
  split; [ reflexivity | ]. split.
  { unfold windowOf, WhatsAppBot.updateRateLimitAt,
      WhatsAppBot.setRateLimiter.
    cbn [WhatsAppBot.rateLimiter]. rewrite lookup_insert_eq. reflexivity. }
  split; [ | reflexivity ].
  intros other Hne. unfold windowOf, WhatsAppBot.updateRateLimitAt,
    WhatsAppBot.setRateLimiter.
  cbn [WhatsAppBot.rateLimiter].
  rewrite lookup_insert_ne by congruence. reflexivity.
Qed.

(* ===================================================================== *)
(** * Destroyed sessions *)
(* ===================================================================== *)

Lemma removeSession_registered env sessionId info m w :
  SessionManager.getSession sessionId m = Some info ->
  SessionManager.removeSession env sessionId m w
  = (Ok tt,
     SessionManager.setSession
       sessionId
       (<["lastActivity" := SessionManager.Date (clock env (ticks w))]>
          (<["status" := SessionManager.Str "destroyed"]>
             (<["isActive" := SessionManager.Bool false]> info))) m,
     nextTick w).
Proof.
  unfold SessionManager.getSession. intros Hget.
  unfold SessionManager.removeSession. run. rewrite Hget. reflexivity.
Qed.

Lemma updateSessionStatus_registered env sessionId status data info m w :
  SessionManager.getSession sessionId m = Some info ->
  SessionManager.updateSessionStatus env sessionId status data m w
  = (Ok tt,
     SessionManager.setSession
       sessionId
       (SessionManager.assign
          (<["lastActivity" := SessionManager.Date (clock env (ticks w))]>
             (<["status" := SessionManager.Str status]> info)) data) m,
     nextTick w).
Proof.
  unfold SessionManager.getSession. intros Hget.
  unfold SessionManager.updateSessionStatus. run. rewrite Hget. reflexivity.
Qed.

Lemma getSession_setSession sessionId info m :
  SessionManager.getSession sessionId
                            (SessionManager.setSession sessionId info m)
  = Some info.
Proof.
  unfold SessionManager.getSession, SessionManager.setSession.
  cbn [SessionManager.activeSessions]. apply lookup_insert_eq.
Qed.

(** Claim C3, on the source: after removeSession the session is destroyed;
    updateSessionStatus with the status ready then sets its status to
    ready, and a second removeSession moves its lastActivity from 3000 to
    4000. *)
Lemma updateSessionStatus_leaves_destroyed :
  let env := sampleEnv (1 # 2) None (fun _ => true) in
  let sessionId := "wa_0_1f1f1f1f1f1f1f1f" in
  let m := snd (fst registryWithDestroyed) in
  let w := snd registryWithDestroyed in
  fst (fst registryWithDestroyed) = Ok sessionId
  /\ SessionManager.statusOf sessionId m
     = Some (SessionManager.Str "destroyed")
  /\ SessionManager.statusOf
       sessionId
       (snd (fst (SessionManager.updateSessionStatus
                    env sessionId "ready" ∅ m w)))
     = Some (SessionManager.Str "ready")
  /\ fieldOf sessionId "lastActivity" m = Some (SessionManager.Date 3000)
  /\ fieldOf sessionId "lastActivity"
             (snd (fst (SessionManager.removeSession env sessionId m w)))
     = Some (SessionManager.Date 4000).
Proof. repeat split; vm_compute; reflexivity. Qed.

Lemma insert_destroyed_again (info : gmap string SessionManager.Value) t1 t2 :
  <["lastActivity" := SessionManager.Date t2]>
    (<["status" := SessionManager.Str "destroyed"]>
       (<["isActive" := SessionManager.Bool false]>
          (<["lastActivity" := SessionManager.Date t1]>
             (<["status" := SessionManager.Str "destroyed"]>
                (<["isActive" := SessionManager.Bool false]> info)))))
  = <["lastActivity" := SessionManager.Date t2]>
      (<["status" := SessionManager.Str "destroyed"]>
         (<["isActive" := SessionManager.Bool false]> info)).
Proof.
  apply map_eq. intros field. rewrite !lookup_insert.
  repeat case_decide; reflexivity.
Qed.

(** Claim C3, as amended: let a registered session have the status
    destroyed.  removeSession succeeds on it and leaves it destroyed and
    inactive, with lastActivity set to the current time and every other
    field as it was; a second removeSession gives the record of the first
    with lastActivity set to the later time, so the two states are equal
    when the clock has not moved.  updateSessionStatus is not blocked by
    the status destroyed: it stores the requested status, sets
    lastActivity and merges the additional fields, so the status leaves
    destroyed whenever another one is requested.  When destroy of
    WhatsAppManager has succeeded, the status is destroyed and a second
    destroy does nothing: it sends no request and leaves the state and
    the world as they were. *)
Theorem destroyed_session_operations
        (env : Env) (m : SessionManager.t) (w : World)
        (sessionId status : string)
        (info additionalData : gmap string SessionManager.Value)
        (wm : WhatsAppManager.t) :
  SessionManager.getSession sessionId m = Some info ->
  info !! "status" = Some (SessionManager.Str "destroyed") ->
  let once := SessionManager.removeSession env sessionId m w in
  let twice :=
    SessionManager.removeSession env sessionId (snd (fst once)) (snd once) in
  let updated :=
    SessionManager.updateSessionStatus env sessionId status additionalData
                                       m w in
  let info1 :=
    <["lastActivity" := SessionManager.Date (clock env (ticks w))]>
      (<["isActive" := SessionManager.Bool false]> info) in
  (fst (fst once) = Ok tt
   /\ SessionManager.getSession sessionId (snd (fst once)) = Some info1
   /\ SessionManager.statusOf sessionId (snd (fst once))
      = Some (SessionManager.Str "destroyed"))
  /\ (fst (fst twice) = Ok tt
      /\ SessionManager.getSession sessionId (snd (fst twice))
         = Some (<["lastActivity" :=
                     SessionManager.Date (clock env (S (ticks w)))]> info1)
      /\ SessionManager.statusOf sessionId (snd (fst twice))
         = Some (SessionManager.Str "destroyed")
      /\ (clock env (S (ticks w)) = clock env (ticks w) ->
          snd (fst twice) = snd (fst once)))
  /\ (fst (fst updated) = Ok tt
      /\ SessionManager.getSession sessionId (snd (fst updated))
         = Some (additionalData
                 ∪ <["lastActivity" :=
                       SessionManager.Date (clock env (ticks w))]>
                     (<["status" := SessionManager.Str status]> info))
      /\ (additionalData !! "status" = None ->
          SessionManager.statusOf sessionId (snd (fst updated))
          = Some (SessionManager.Str status)))
  /\ (forall wm1 w1,
         WhatsAppManager.destroy env wm w = (Ok tt, wm1, w1) ->
         WhatsAppManager.status wm1 = "destroyed"
         /\ WhatsAppManager.destroy env wm1 w1 = (Ok tt, wm1, w1)).
Proof.
  intros Hget Hstatus once twice updated info1.
  assert (Hinfo1 :
            <["lastActivity" := SessionManager.Date (clock env (ticks w))]>
              (<["status" := SessionManager.Str "destroyed"]>
                 (<["isActive" := SessionManager.Bool false]> info))
            = info1).
  { unfold info1. f_equal. apply insert_id.
    rewrite lookup_insert_ne by discriminate. exact Hstatus. }
  assert (Honce : once = (Ok tt, SessionManager.setSession sessionId info1 m,
                          nextTick w)).
  { unfold once. rewrite (removeSession_registered _ _ _ _ _ Hget), Hinfo1.
    reflexivity. }
  assert (Hst1 : info1 !! "status" = Some (SessionManager.Str "destroyed")).
  { unfold info1. rewrite !lookup_insert_ne by discriminate. exact Hstatus. }
  assert (Htwice :
            twice
            = (Ok tt,
               SessionManager.setSession
                 sessionId
                 (<["lastActivity" :=
                      SessionManager.Date (clock env (S (ticks w)))]> info1)
                 m,
               nextTick (nextTick w))).
  { unfold twice. rewrite Honce. cbn [fst snd].
    rewrite (removeSession_registered _ _ _ _ _
               (getSession_setSession sessionId info1 m)).
    cbn [ticks nextTick]. rewrite <- Hinfo1 at 1.
    rewrite insert_destroyed_again.
    unfold SessionManager.setSession. cbn [SessionManager.activeSessions].
    rewrite insert_insert_eq. do 3 f_equal.
    rewrite <- Hinfo1. rewrite insert_insert_eq. reflexivity. }
  split; [ | split; [ | split ] ].
  - rewrite Honce. cbn [fst snd]. split; [ reflexivity | ].
    split; [ apply getSession_setSession | ].
    unfold SessionManager.statusOf. rewrite getSession_setSession.
    exact Hst1.
  - rewrite Htwice, Honce. cbn [fst snd]. split; [ reflexivity | ].
    split; [ apply getSession_setSession | ]. split.
    + unfold SessionManager.statusOf. rewrite getSession_setSession.
      cbn. rewrite lookup_insert_ne by discriminate. exact Hst1.
    + intros ->. f_equal. unfold info1. apply insert_insert_eq.
  - unfold updated.
    rewrite (updateSessionStatus_registered _ _ _ _ _ _ _ Hget).
    cbn [fst snd]. split; [ reflexivity | ].
    split; [ apply getSession_setSession | ].
    intros Hnone. unfold SessionManager.statusOf.
    rewrite getSession_setSession. cbn. unfold SessionManager.assign.
    rewrite lookup_union_r by exact Hnone.
    rewrite lookup_insert_ne by discriminate. apply lookup_insert_eq.
  - intros wm1 w1. unfold WhatsAppManager.destroy. run.
    destruct (WhatsAppManager.client wm);
      [ destruct (transportOk env (requests w)) | ];
      intros Heq; inversion Heq; subst; split; reflexivity.
Qed.

(** The theorem at the destroyed session of the sample registry. *)
Lemma destroyed_session_operations_witness :
  SessionManager.statusOf
    "wa_0_1f1f1f1f1f1f1f1f"
    (snd (fst (SessionManager.removeSession
                 (sampleEnv (1 # 2) None (fun _ => true))
                 "wa_0_1f1f1f1f1f1f1f1f"
                 (snd (fst registryWithDestroyed))
                 (snd registryWithDestroyed))))
  = Some (SessionManager.Str "destroyed").
Proof.
  refine (proj2 (proj2 (proj1
            (destroyed_session_operations
               (sampleEnv (1 # 2) None (fun _ => true))
               (snd (fst registryWithDestroyed))
               (snd registryWithDestroyed)
               "wa_0_1f1f1f1f1f1f1f1f" "ready"
               (default ∅ (SessionManager.getSession
                             "wa_0_1f1f1f1f1f1f1f1f"
                             (snd (fst registryWithDestroyed))))
               ∅ (WhatsAppManager.new "s" true true 0) _ _)))).
  - vm_compute. reflexivity.
  - vm_compute. reflexivity.
Defined.

(* ===================================================================== *)
(** * The message handlers *)
(* ===================================================================== *)

(** Simplifies the counters and the log of a world built by the
    collaborators. *)
Ltac world :=
  cbn [Eff.log Eff.nextDraw Eff.nextTick Eff.nextBytes Eff.nextCompletion
       Eff.nextRequest Eff.draws Eff.ticks Eff.drawnBytes Eff.completions
       Eff.requests Eff.trace] in *.

(** Claim C9: a message that is self-originated or comes from
    status@broadcast is ignored by both handlers: the call returns without
    error, and the object state and the world are what they were, so that
    no history entry is added, no counter moves, no rate-limit window is
    touched, no collaborator is asked anything and nothing is sent. *)
Theorem handleIncomingMessage_ignores_self_and_broadcast
        (env : Env) (message : Message)
        (b : WhatsAppBot.t) (m : WhatsAppManager.t) (w : World) :
  fromMe message = true \/ from message = "status@broadcast" ->
  WhatsAppBot.handleIncomingMessage env message b w = (Ok tt, b, w)
  /\ WhatsAppManager.handleIncomingMessage env message m w = (Ok tt, m, w).
Proof.
  intros Hskip.
  unfold WhatsAppBot.handleIncomingMessage,
    WhatsAppManager.handleIncomingMessage.
  destruct Hskip as [Hme | Hfrom].
  - rewrite Hme. run.
    destruct (String.eqb (from message) "status@broadcast"); split;
      reflexivity.
  - rewrite Hfrom. run. rewrite orb_true_r. split; reflexivity.
Qed.

(** The theorem at a status broadcast. *)
Lemma handleIncomingMessage_ignores_self_and_broadcast_witness :
  WhatsAppBot.handleIncomingMessage
    (sampleEnv (1 # 2) None (fun _ => true))
    {| from := "status@broadcast"; fromMe := false; body := "story" |}
    (WhatsAppBot.new true WhatsAppBot.defaultConfig) world0
  = (Ok tt, WhatsAppBot.new true WhatsAppBot.defaultConfig, world0)
  /\ WhatsAppManager.handleIncomingMessage
       (sampleEnv (1 # 2) None (fun _ => true))
       {| from := "status@broadcast"; fromMe := false; body := "story" |}
       (WhatsAppManager.new "s" true true 0) world0
     = (Ok tt, WhatsAppManager.new "s" true true 0, world0).
Proof.
  apply (handleIncomingMessage_ignores_self_and_broadcast
           (sampleEnv (1 # 2) None (fun _ => true))
           {| from := "status@broadcast"; fromMe := false; body := "story" |}).
  right. reflexivity.
Defined.

(** ** What a method leaves unchanged *)

Section Frame.
Context {O X : Type} (f : O -> X).

Lemma preserves_ret {A} (a : A) : preserves f (ret a).
Proof. intros o w. reflexivity. Qed.

Lemma preserves_throw {A} e : preserves f (@throw O A e).
Proof. intros o w. reflexivity. Qed.

Lemma preserves_gets {A} (g : O -> A) : preserves f (gets g).
Proof. intros o w. reflexivity. Qed.

Lemma preserves_modify (g : O -> O) :
  (forall o, f (g o) = f o) -> preserves f (modify g).
Proof. intros Hg o w. apply Hg. Qed.

Lemma preserves_bind {A B} (m : M O A) (k : A -> M O B) :
  preserves f m -> (forall a, preserves f (k a)) -> preserves f (bind m k).
Proof.
  intros Hm Hk o w. unfold bind. specialize (Hm o w).
  destruct (m o w) as [[[a | e] o'] w']; cbn [fst snd] in *.
  - rewrite Hk. exact Hm.
  - exact Hm.
Qed.

Lemma preserves_tryCatch {A} (m : M O A) (h : string -> M O A) :
  preserves f m -> (forall e, preserves f (h e)) -> preserves f (tryCatch m h).
Proof.
  intros Hm Hh o w. unfold tryCatch. specialize (Hm o w).
  destruct (m o w) as [[[a | e] o'] w']; cbn [fst snd] in *.
  - exact Hm.
  - rewrite Hh. exact Hm.
Qed.

Lemma preserves_mathRandom env : preserves f (@mathRandom env O).
Proof. intros o w. reflexivity. Qed.

Lemma preserves_dateNow env : preserves f (@dateNow env O).
Proof. intros o w. reflexivity. Qed.

Lemma preserves_generateContent env prompt :
  preserves f (@generateContent env O prompt).
Proof.
  intros o w. unfold generateContent.
  destruct (complete env (completions w) prompt); reflexivity.
Qed.

Lemma preserves_request env r : preserves f (@request env O r).
Proof.
  intros o w. unfold request.
  destruct (transportOk env (requests w)); reflexivity.
Qed.

Lemma preserves_emit e : preserves f (@emit O e).
Proof. intros o w. reflexivity. Qed.

Lemma preserves_sleep ms : preserves f (@sleep O ms).
Proof. intros o w. reflexivity. Qed.

End Frame.

Create HintDb frame.
#[export] Hint Resolve preserves_ret preserves_throw preserves_gets
  preserves_mathRandom preserves_dateNow preserves_generateContent
  preserves_request preserves_emit preserves_sleep : frame.

(** Splits a method into its steps and closes the steps that are
    collaborator calls or reads. *)
Ltac frame_steps :=
  repeat first
    [ apply preserves_bind; [ | intros ? ]
    | apply preserves_tryCatch; [ | intros ? ]
    | solve [ auto with frame ]
    | match goal with
      | |- preserves _ (if ?c then _ else _) => destruct c
      | |- preserves _ (match ?x with _ => _ end) => destruct x
      end ].

Lemma messageCount_addToHistory contactId e b :
  WhatsAppBot.messageCount (WhatsAppBot.addToHistory contactId e b)
  = WhatsAppBot.messageCount b.
Proof. reflexivity. Qed.

Lemma generateAndSendResponse_keeps_messageCount env message contactId
      contactName :
  preserves WhatsAppBot.messageCount
            (WhatsAppBot.generateAndSendResponse env message contactId
                                                 contactName).
Proof.
  unfold WhatsAppBot.generateAndSendResponse, WhatsAppBot.getAIResponse,
    WhatsAppBot.calculateTypingDelay, WhatsAppBot.updateRateLimit,
    WhatsAppBot.emitMessage, WhatsAppBot.getFallbackResponse.
  frame_steps; apply preserves_modify; reflexivity.
Qed.

(** The handler never throws: its outer [catch] logs the error. *)
Lemma handleIncomingMessage_returns env message b w :
  fst (fst (WhatsAppBot.handleIncomingMessage env message b w)) = Ok tt.
Proof.
  unfold WhatsAppBot.handleIncomingMessage, tryCatch.
  match goal with
  | |- context [match ?m b w with _ => _ end] =>
      destruct (m b w) as [[[[] | e] b'] w']
  end; reflexivity.
Qed.

Lemma handleIncomingMessage_tail_keeps_messageCount env message contactName :
  preserves WhatsAppBot.messageCount
    (allowed <- WhatsAppBot.checkRateLimit env (from message) ;;
     if negb allowed then ret tt
     else
       now <- dateNow env ;;
       modify (WhatsAppBot.addToHistory
                 (from message)
                 {| WhatsAppBot.type := WhatsAppBot.received;
                    WhatsAppBot.message := body message;
                    WhatsAppBot.timestamp := now;
                    WhatsAppBot.party := contactName |}) ;;;
       WhatsAppBot.emitMessage env contactName (body message) ;;;
       WhatsAppBot.generateAndSendResponse env message (from message)
                                           contactName).
Proof.
  apply preserves_bind.
  - unfold WhatsAppBot.checkRateLimit. apply preserves_bind;
      [ auto with frame | ].
    intros now o w. unfold WhatsAppBot.checkRateLimitAt. reflexivity.
  - intros allowed. destruct allowed; cbn [negb]; [ | auto with frame ].
    unfold WhatsAppBot.emitMessage. frame_steps;
      solve [ apply preserves_modify; reflexivity
            | apply generateAndSendResponse_keeps_messageCount ].
Qed.

(** Claim C10, on the source: when the contact lookup fails, the handler
    ends in its catch block before the counter is incremented: the status
    of a new bot still shows the count 0 after an inbound message. *)
Lemma messageCount_unchanged_when_contact_lookup_fails :
  isInbound sampleMessage = true
  /\ WhatsAppBot.statusMessageCount
       (WhatsAppBot.getStatus
          (snd (fst (WhatsAppBot.handleIncomingMessage
                       (sampleEnv (1 # 2) None (fun _ => false))
                       sampleMessage
                       (WhatsAppBot.new true WhatsAppBot.defaultConfig)
                       world0))))
     = 0.
Proof. split; vm_compute; reflexivity. Qed.

(** Claim C10, as amended: for every inbound message that is neither
    self-originated nor a status broadcast and whose contact lookup
    succeeds, the handler returns without error and the message count that
    getStatus shows has grown by one, whatever happens afterwards.  The
    increment comes before the rate-limit check: when the limiter refuses
    the message, the count has still grown by one, while the chat history
    is unchanged, the only request made is the contact lookup, nothing is
    sent, and the window of the contact has been pruned. *)
Theorem handleIncomingMessage_counts_before_rate_limit
        (env : Env) (message : Message) (b : WhatsAppBot.t) (w : World) :
  isInbound message = true ->
  transportOk env (requests w) = true ->
  let result := WhatsAppBot.handleIncomingMessage env message b w in
  let b' := snd (fst result) in
  let w' := snd result in
  let now := clock env (ticks w) in
  fst (fst result) = Ok tt
  /\ WhatsAppBot.statusMessageCount (WhatsAppBot.getStatus b')
     = WhatsAppBot.statusMessageCount (WhatsAppBot.getStatus b) + 1
  /\ (fst (WhatsAppBot.checkRateLimitAt now (from message) b) = false ->
      b' = WhatsAppBot.setMessageCount
             (WhatsAppBot.messageCount b + 1)
             (snd (WhatsAppBot.checkRateLimitAt now (from message) b))
      /\ WhatsAppBot.chatHistory b' = WhatsAppBot.chatHistory b
      /\ trace w' = trace w ++ [Transport (GetContact (from message))]
      /\ completions w' = completions w).
Proof.
  intros Hin Hok result b' w' now.
  split; [ apply handleIncomingMessage_returns | ].
  unfold isInbound in Hin. apply andb_true_iff in Hin as [Hme Hfrom].
  apply negb_true_iff in Hme, Hfrom.
  split.
  - unfold b', result, WhatsAppBot.handleIncomingMessage.
    rewrite Hme, Hfrom. unfold tryCatch, getContact.
    unfold bind at 1. unfold bind at 1. unfold request at 1. rewrite Hok.
    unfold ret at 1. unfold bind at 1. unfold modify at 1.
    unfold WhatsAppBot.getStatus. cbn [WhatsAppBot.statusMessageCount].
    match goal with
    | |- context [let (p, _) := ?t in _] =>
        assert (Hkeep : WhatsAppBot.messageCount (snd (fst t))
                        = WhatsAppBot.messageCount b + 1)
          by exact (handleIncomingMessage_tail_keeps_messageCount
                      env message _ _ _);
        destruct t as [[[[] | e] o1] w1]
    end; cbn [fst snd ret] in *; exact Hkeep.
  - intros Hrefuse.
    assert (Hres :
              result
              = (Ok tt,
                 WhatsAppBot.setMessageCount
                   (WhatsAppBot.messageCount b + 1)
                   (snd (WhatsAppBot.checkRateLimitAt now (from message) b)),
                 nextTick (log (Transport (GetContact (from message)))
                               (nextRequest w)))).
    { unfold result, WhatsAppBot.handleIncomingMessage.
      rewrite Hme, Hfrom.
      unfold tryCatch, getContact, WhatsAppBot.checkRateLimit.
      unfold bind at 1. unfold bind at 1. unfold request at 1. rewrite Hok.
      unfold ret at 1. unfold bind at 1. unfold modify at 1.
      unfold bind at 1. unfold bind at 1. unfold dateNow at 1. world.
      unfold WhatsAppBot.checkRateLimitAt in *.
      cbn [fst snd WhatsAppBot.rateLimiter WhatsAppBot.config
           WhatsAppBot.setMessageCount WhatsAppBot.setRateLimiter] in *.
      fold now. rewrite Hrefuse. reflexivity. }
    unfold b', w'. rewrite Hres. cbn [fst snd]. world.
    repeat split; reflexivity.
Qed.

(** The theorem at a message the limiter refuses. *)
Lemma handleIncomingMessage_counts_before_rate_limit_witness :
  WhatsAppBot.statusMessageCount
    (WhatsAppBot.getStatus
       (snd (fst (WhatsAppBot.handleIncomingMessage
                    (sampleEnv (1 # 2) None (fun _ => true))
                    sampleMessage busyBot world0))))
  = WhatsAppBot.statusMessageCount (WhatsAppBot.getStatus busyBot) + 1.
Proof.
  refine (proj1 (proj2 (handleIncomingMessage_counts_before_rate_limit
                          (sampleEnv (1 # 2) None (fun _ => true))
                          sampleMessage busyBot world0 _ _))).
  - reflexivity.
  - reflexivity.
Defined.

(* ===================================================================== *)
(** * Completion failures in the pipeline of WhatsAppBot *)
(* ===================================================================== *)

(** Claim C4, on the source: the completion service fails, or answers two
    quote characters, which clean to the empty text; the handler returns
    without error, and nothing was handed to the transport for delivery:
    the history of the contact holds the received message only. *)
Lemma failed_completion_dispatches_nothing :
  let bot := WhatsAppBot.new true WhatsAppBot.defaultConfig in
  let failing :=
    WhatsAppBot.handleIncomingMessage
      (sampleEnv (1 # 2) None (fun _ => true)) sampleMessage bot world0 in
  let empty :=
    WhatsAppBot.handleIncomingMessage
      (sampleEnv (1 # 2) (Some "''") (fun _ => true)) sampleMessage bot
      world0 in
  (fst (fst failing) = Ok tt
   /\ existsb isDispatch (trace (snd failing)) = false
   /\ List.map WhatsAppBot.type (botHistory "911@c.us" (snd (fst failing)))
      = [WhatsAppBot.received])
  /\ (fst (fst empty) = Ok tt
      /\ existsb isDispatch (trace (snd empty)) = false
      /\ List.map WhatsAppBot.type (botHistory "911@c.us" (snd (fst empty)))
         = [WhatsAppBot.received]).
Proof. repeat split; vm_compute; reflexivity. Qed.

(** Claim C4, as amended: in the pipeline of WhatsAppBot, once the typing
    indicator has been shown, a completion step that fails, or that yields
    a text which is empty once cleaned, ends generateAndSendResponse
    without error and without any reply: no fallback is drawn, nothing is
    handed to the transport for delivery, and the state (chat history and
    rate-limit windows included) is what it was.  The failure is not
    propagated: generateAndSendResponse returns normally, and
    handleIncomingMessage never throws. *)
Theorem completion_failure_ends_without_reply
        (env : Env) (message : Message) (contactId contactName : string)
        (b : WhatsAppBot.t) (w : World) :
  transportOk env (requests w) = true ->
  transportOk env (S (requests w)) = true ->
  transportOk env (S (S (requests w))) = true ->
  completionUnusable env b w (promptFor message contactId contactName b) ->
  let result :=
    WhatsAppBot.generateAndSendResponse env message contactId contactName
                                        b w in
  fst (fst result) = Ok tt
  /\ snd (fst result) = b
  /\ trace (snd result)
     = trace w
       ++ [Transport SendPresenceAvailable;
           Transport (GetChat (from message));
           Transport (SendStateTyping (from message))]
       ++ (if WhatsAppBot.model b
           then [Completion (promptFor message contactId contactName b)]
           else [])
  /\ List.filter isDispatch (trace (snd result))
     = List.filter isDispatch (trace w)
  /\ draws (snd result) = draws w
  /\ fst (fst (WhatsAppBot.handleIncomingMessage env message b w)) = Ok tt.
Proof.
  intros H1 H2 H3 Hfail result.
  assert (Hres :
            result
            = (Ok tt, b,
               afterCompletion (WhatsAppBot.model b)
                               (promptFor message contactId contactName b)
                               message w)).
  { unfold result, WhatsAppBot.generateAndSendResponse,
      WhatsAppBot.getAIResponse, afterCompletion, afterTyping.
    run. world. rewrite H1. world. rewrite H2. world. rewrite H3.
    fold (promptFor message contactId contactName b).
    destruct Hfail as [Hm | [Hm [Hnone | [text [Hsome Hclean]]]]];
      rewrite Hm; cbn [negb]; world.
    - reflexivity.
    - rewrite Hnone. reflexivity.
    - rewrite Hsome, Hclean. reflexivity. }
  assert (Htrace :
            trace (afterCompletion (WhatsAppBot.model b)
                                   (promptFor message contactId contactName b)
                                   message w)
            = trace w
              ++ [Transport SendPresenceAvailable;
                  Transport (GetChat (from message));
                  Transport (SendStateTyping (from message))]
              ++ (if WhatsAppBot.model b
                  then [Completion (promptFor message contactId
                                              contactName b)]
                  else [])).
  { unfold afterCompletion, afterTyping.
    destruct (WhatsAppBot.model b); world;
      rewrite <- ?app_assoc; reflexivity. }
  rewrite Hres. cbn [fst snd].
  split; [ reflexivity | ]. split; [ reflexivity | ].
  split; [ exact Htrace | ]. split.
  - rewrite Htrace, List.filter_app.
    replace (List.filter isDispatch
               ([Transport SendPresenceAvailable;
                 Transport (GetChat (from message));
                 Transport (SendStateTyping (from message))]
                ++ (if WhatsAppBot.model b
                    then [Completion (promptFor message contactId
                                                contactName b)]
                    else [])))
      with (@nil Event) by (destruct (WhatsAppBot.model b); reflexivity).
    apply app_nil_r.
  - split; [ | apply handleIncomingMessage_returns ].
    unfold afterCompletion, afterTyping.
    destruct (WhatsAppBot.model b); reflexivity.
Qed.

(** The theorem at a completion that fails. *)
Lemma completion_failure_ends_without_reply_witness :
  snd (fst (WhatsAppBot.generateAndSendResponse
              (sampleEnv (1 # 2) None (fun _ => true)) sampleMessage
              "911@c.us" "Rahul"
              (WhatsAppBot.new true WhatsAppBot.defaultConfig) world0))
  = WhatsAppBot.new true WhatsAppBot.defaultConfig.
Proof.
  refine (proj1 (proj2 (completion_failure_ends_without_reply
                          (sampleEnv (1 # 2) None (fun _ => true))
                          sampleMessage "911@c.us" "Rahul"
                          (WhatsAppBot.new true WhatsAppBot.defaultConfig)
                          world0 _ _ _ _))).
  - reflexivity.
  - reflexivity.
  - reflexivity.
  - right. split; [ reflexivity | left; reflexivity ].
Defined.

(* ===================================================================== *)
(** * The response cache *)
(* ===================================================================== *)

Lemma sameButDraws_refl w : sameButDraws w w.
Proof. repeat split. Qed.

Lemma sameButDraws_nextDraw w w' :
  sameButDraws (nextDraw w) w' -> sameButDraws w w'.
Proof. unfold sameButDraws. world. tauto. Qed.

Lemma applyVariations_total env vs response g w :
  exists text w',
    GeminiAI.applyVariations env vs response g w = (Ok text, g, w')
    /\ sameButDraws w w'.
Proof.
  revert response w. induction vs as [ | [word alternatives] vs IH ];
    intros response w.
  - exists response, w. split; [ reflexivity | apply sameButDraws_refl ].
  - cbn [GeminiAI.applyVariations].
    destruct (Re.testWords [word] response).
    + unfold bind, mathRandom.
      destruct (IH (Re.replaceWord
                      word (Js.pick "" alternatives (random env (draws w)))
                      response)
                   (nextDraw w)) as (text & w' & Heq & Hsame).
      exists text, w'. split; [ exact Heq | ].
      apply sameButDraws_nextDraw, Hsame.
    + apply IH.
Qed.

(** addHumanVariations never fails and touches nothing but the random
    number generator. *)
Lemma addHumanVariations_total env response language g w :
  exists text w',
    GeminiAI.addHumanVariations env response language g w = (Ok text, g, w')
    /\ sameButDraws w w'.
Proof.
  unfold GeminiAI.addHumanVariations, bind, mathRandom.
  destruct (GeminiAI.variations language) as [vs | ].
  - destruct (Js.qlt (random env (draws w)) (2 # 10)).
    + destruct (applyVariations_total env vs response g (nextDraw w))
        as (text & w' & Heq & Hsame).
      exists text, w'. split; [ exact Heq | ].
      apply sameButDraws_nextDraw, Hsame.
    + exists response, (nextDraw w). split; [ reflexivity | ].
      apply sameButDraws_nextDraw, sameButDraws_refl.
  - exists response, (nextDraw w). split; [ reflexivity | ].
    apply sameButDraws_nextDraw, sameButDraws_refl.
Qed.

(** A miss followed by a completion: the reply is generated, returned and
    stored under the key of the message, to expire an hour after the
    clock reading of the store. *)
Lemma generateResponse_miss env userMessage contactName chatHistory g w raw :
  GeminiAI.cache g !! cacheKey userMessage = None ->
  complete env (completions w)
           (geminiPrompt userMessage contactName chatHistory) = Some raw ->
  exists text w',
    GeminiAI.generateResponse env userMessage contactName chatHistory g w
    = (Ok text,
       {| GeminiAI.cache :=
            <[cacheKey userMessage :=
                (text, clock env (ticks w) + GeminiAI.stdTTL * 1000)]>
              (GeminiAI.cache g) |},
       w')
    /\ ticks w' = S (ticks w)
    /\ completions w' = S (completions w).
Proof.
  intros Hmiss Hcomplete.
  unfold GeminiAI.generateResponse, GeminiAI.cacheGet, GeminiAI.cacheSet.
  fold (cacheKey userMessage).
  fold (geminiPrompt userMessage contactName chatHistory).
  unfold tryCatch. unfold bind at 1. unfold bind at 1. unfold gets at 1.
  rewrite Hmiss. unfold ret at 1.
  unfold bind at 1. unfold generateContent at 1. rewrite Hcomplete.
  unfold bind at 1.
  destruct (addHumanVariations_total
              env (GeminiAI.cleanResponse raw)
              (GeminiAI.detectLanguage userMessage) g
              (log (Completion (geminiPrompt userMessage contactName
                                             chatHistory))
                   (nextCompletion w)))
    as (text & w1 & Heq & Ht & Hb & Hc & Hr & Htr).
  rewrite Heq. run. world.
  exists text, (nextTick w1). world. rewrite Ht.
  split; [ reflexivity | split; [ reflexivity | exact Hc ] ].
Qed.

(** A hit: a live entry with a non-empty value is returned through
    addPersonalTouch, with one clock reading and no completion. *)
Lemma generateResponse_hit env userMessage contactName chatHistory g w
      value expires :
  GeminiAI.cache g !! cacheKey userMessage = Some (value, expires) ->
  value <> "" ->
  clock env (ticks w) <= expires ->
  GeminiAI.generateResponse env userMessage contactName chatHistory g w
  = GeminiAI.addPersonalTouch env value contactName g (nextTick w).
Proof.
  intros Hhit Hvalue Hlive.
  unfold GeminiAI.generateResponse, GeminiAI.cacheGet.
  fold (cacheKey userMessage).
  unfold tryCatch. unfold bind at 1. unfold bind at 1. unfold gets at 1.
  rewrite Hhit. unfold bind at 1. unfold dateNow at 1.
  replace (expires <? clock env (ticks w)) with false
    by (symmetry; apply Z.ltb_ge; exact Hlive).
  rewrite andb_false_r. unfold ret at 1.
  destruct value as [ | c r ]; [ congruence | ].
  unfold GeminiAI.addPersonalTouch. run.
  destruct (Js.qlt (random env (draws (nextTick w))) (1 # 10)
            && negb (String.eqb contactName "Friend")); reflexivity.
Qed.

Lemma addPersonalTouch_cases env response contactName g w :
  randomInRange env ->
  exists text w',
    GeminiAI.addPersonalTouch env response contactName g w = (Ok text, g, w')
    /\ sameButDraws w w'
    /\ (text = response
        \/ exists greeting,
            In greeting ["yaar"; "bro"; "dude"; contactName]
            /\ text = greeting +:+ ", " +:+ response)
    /\ (contactName = "Friend" \/ (1 # 10 <= random env (draws w))%Q ->
        text = response)
    /\ (contactName <> "Friend" /\ (random env (draws w) < 1 # 10)%Q ->
        exists greeting,
          In greeting ["yaar"; "bro"; "dude"; contactName]
          /\ text = greeting +:+ ", " +:+ response).
Proof.
  intros Hr. unfold GeminiAI.addPersonalTouch. run.
  destruct (Js.qlt (random env (draws w)) (1 # 10)) eqn:Hlt;
    [ destruct (String.eqb contactName "Friend") eqn:Hname | ];
    cbn [andb negb].
  - apply String.eqb_eq in Hname.
    eexists _, _. split; [ reflexivity | ].
    split; [ apply sameButDraws_nextDraw, sameButDraws_refl | ].
    split; [ left; reflexivity | ]. split; [ reflexivity | ].
    intros [Hne _]. congruence.
  - assert (Hgreeting :
              In (Js.pick "" ["yaar"; "bro"; "dude"; contactName]
                          (random env (draws (nextDraw w))))
                 ["yaar"; "bro"; "dude"; contactName]).
    { destruct (Hr (draws (nextDraw w))) as [H0 H1].
      apply pick_In; [ exact H0 | exact H1 | discriminate ]. }
    eexists _, _. split; [ reflexivity | ].
    split; [ do 2 apply sameButDraws_nextDraw; apply sameButDraws_refl | ].
    split; [ right; eexists; split; [ exact Hgreeting | reflexivity ] | ].
    split.
    + intros [Hfriend | Hge].
      * apply String.eqb_neq in Hname. congruence.
      * unfold Js.qlt in Hlt. apply negb_true_iff in Hlt.
        apply Qle_bool_iff in Hge. congruence.
    + intros _. eexists. split; [ exact Hgreeting | reflexivity ].
  - eexists _, _. split; [ reflexivity | ].
    split; [ apply sameButDraws_nextDraw, sameButDraws_refl | ].
    split; [ left; reflexivity | ]. split; [ reflexivity | ].
    intros [_ Hlt']. unfold Js.qlt in Hlt. apply negb_false_iff in Hlt.
    apply Qle_bool_iff in Hlt. apply Qlt_not_le in Hlt'. contradiction.
Qed.

(** Claim C1, on the source: with the draws at 1/20 the first call returns
    the generated reply Hi there and the second call, one second later and
    served from the cache, returns yaar, Hi there, which differs; and when
    the service answers Sure, which cleans to the empty text, the second
    call finds the empty entry, takes it for a miss and asks the service
    again. *)
Lemma second_reply_differs_or_completion_repeated :
  (fst (fst (firstCall (1 # 20) "Hi there")) = Ok "Hi there"
   /\ fst (fst (secondCall (1 # 20) "Hi there")) = Ok "yaar, Hi there"
   /\ completions (snd (firstCall (1 # 20) "Hi there")) = 1%nat
   /\ completions (snd (secondCall (1 # 20) "Hi there")) = 1%nat)
  /\ (fst (fst (firstCall (1 # 20) "Sure")) = Ok ""
      /\ completions (snd (firstCall (1 # 20) "Sure")) = 1%nat
      /\ completions (snd (secondCall (1 # 20) "Sure")) = 2%nat).
Proof. repeat split; vm_compute; reflexivity. Qed.

(** Claim C1, as amended: let the first call miss the cache and obtain from
    the AI service a reply that is not empty once cleaned and varied; it
    returns that reply and stores it.  A second call with the same text,
    made while the entry has not expired, is served from the cache: it
    does not invoke the AI service and leaves the cache as it is.  The
    reply it returns is the stored one passed through addPersonalTouch: it
    equals the first reply when the contact name is Friend or the random
    draw is at least 1/10, and otherwise it is the first reply prefixed by
    yaar, bro, dude or the contact name, and a comma. *)
Theorem second_call_served_from_cache
        (env : Env) (userMessage name1 name2 : string)
        (hist1 hist2 : list GeminiAI.ChatEntry)
        (g : GeminiAI.t) (w : World) (raw : string) :
  randomInRange env ->
  GeminiAI.cache g !! cacheKey userMessage = None ->
  complete env (completions w) (geminiPrompt userMessage name1 hist1)
  = Some raw ->
  let first := GeminiAI.generateResponse env userMessage name1 hist1 g w in
  let second :=
    GeminiAI.generateResponse env userMessage name2 hist2
                              (snd (fst first)) (snd first) in
  fst (fst first) <> Ok "" ->
  clock env (S (ticks w)) <= clock env (ticks w) + GeminiAI.stdTTL * 1000 ->
  exists text1 text2,
    fst (fst first) = Ok text1
    /\ fst (fst second) = Ok text2
    /\ completions (snd second) = completions (snd first)
    /\ trace (snd second) = trace (snd first)
    /\ snd (fst second) = snd (fst first)
    /\ (text2 = text1
        \/ exists greeting,
            In greeting ["yaar"; "bro"; "dude"; name2]
            /\ text2 = greeting +:+ ", " +:+ text1)
    /\ (name2 = "Friend"
        \/ (1 # 10 <= random env (draws (snd first)))%Q ->
        text2 = text1)
    /\ (name2 <> "Friend"
        /\ (random env (draws (snd first)) < 1 # 10)%Q ->
        exists greeting,
          In greeting ["yaar"; "bro"; "dude"; name2]
          /\ text2 = greeting +:+ ", " +:+ text1).
Proof.
  intros Hr Hmiss Hcomplete first second Hnonempty Hlive.
  destruct (generateResponse_miss env userMessage name1 hist1 g w raw
                                  Hmiss Hcomplete)
    as (text1 & w1 & Hfirst & Hticks & Hcompl).
  fold first in Hfirst.
  assert (Hsecond :
            second
            = GeminiAI.addPersonalTouch env text1 name2 (snd (fst first))
                                        (nextTick w1)).
  { unfold second. rewrite Hfirst. cbn [fst snd].
    apply generateResponse_hit
      with (expires := clock env (ticks w) + GeminiAI.stdTTL * 1000).
    - cbn [GeminiAI.cache]. apply lookup_insert_eq.
    - intros ->. apply Hnonempty. rewrite Hfirst. reflexivity.
    - rewrite Hticks. exact Hlive. }
  destruct (addPersonalTouch_cases env text1 name2 (snd (fst first))
                                   (nextTick w1) Hr)
    as (text2 & w2 & Htouch & Hsame & Hshape & Hequal & Hprefixed).
  rewrite Htouch in Hsecond.
  destruct Hsame as (_ & _ & Hc & _ & Htr). world.
  exists text1, text2. rewrite Hsecond, Hfirst. cbn [fst snd].
  split; [ reflexivity | ]. split; [ reflexivity | ].
  split; [ exact Hc | ]. split; [ exact Htr | ].
  split; [ reflexivity | ].
  split; [ exact Hshape | ]. split; [ exact Hequal | exact Hprefixed ].
Qed.

(** The theorem at the two calls of the examples, with every draw at
    1/2. *)
Lemma second_call_served_from_cache_witness :
  completions (snd (secondCall (1 # 2) "Hi there"))
  = completions (snd (firstCall (1 # 2) "Hi there")).
Proof.
  destruct (second_call_served_from_cache
              (sampleEnv (1 # 2) (Some "Hi there") (fun _ => true))
              "hello" "Rahul" "Rahul" [] [] GeminiAI.new world0 "Hi there")
    as (text1 & text2 & _ & _ & Hcompletions & _).
  - apply sampleEnv_randomInRange.
  - reflexivity.
  - reflexivity.
  - vm_compute. discriminate.
  - vm_compute. discriminate.
  - exact Hcompletions.
Defined.

(* ===================================================================== *)
(** * Two runs of the pipelines *)
(* ===================================================================== *)

(** In the pipeline of WhatsAppBot the admission is recorded once the reply
    has been sent: after a message that is answered, the window of the
    contact holds the clock reading of updateRateLimit. *)
Example answered_message_is_recorded_after_the_reply :
  let result :=
    WhatsAppBot.handleIncomingMessage
      (sampleEnv (1 # 2) (Some "Hi there") (fun _ => true)) sampleMessage
      (WhatsAppBot.new false WhatsAppBot.defaultConfig) world0 in
  List.filter isDispatch (trace (snd result))
  = [Transport (Reply "911@c.us" "Hi there")]
  /\ windowOf "911@c.us" (snd (fst result)) = [3000]
  /\ List.map WhatsAppBot.type (botHistory "911@c.us" (snd (fst result)))
     = [WhatsAppBot.received; WhatsAppBot.sent].
Proof. repeat split; vm_compute; reflexivity. Qed.

(** In the pipeline of WhatsAppManager a completion that fails is replaced
    by a reply of the category pools of GeminiAI, which is sent: for the
    text hello and the draw 1/2, the third greeting. *)
Example manager_sends_fallback_when_completion_fails :
  let result :=
    WhatsAppManager.handleIncomingMessage
      (sampleEnv (1 # 2) None (fun _ => true)) sampleMessage readyManager
      world0 in
  List.filter isDispatch (trace (snd result))
  = [Transport (SendMessage "911@c.us" "Hello bro! Sab badiya?")]
  /\ In "Hello bro! Sab badiya?"
        (GeminiAI.fallbackResponses GeminiAI.greeting).
Proof. split; [ vm_compute; reflexivity | simpl; tauto ]. Qed.

(* ===================================================================== *)
(** * The hash of the cache key *)
(* ===================================================================== *)

Lemma toInt32_range z : -2147483648 <= Js.toInt32 z < 2147483648.
Proof.
  unfold Js.toInt32.
  pose proof (Z.mod_pos_bound (z + 2147483648) 4294967296 ltac:(lia)). lia.
Qed.

Lemma toInt32_small z :
  -2147483648 <= z < 2147483648 -> Js.toInt32 z = z.
Proof.
  intros Hz. unfold Js.toInt32. rewrite Z.mod_small by lia. lia.
Qed.

Lemma toInt32_idem z : Js.toInt32 (Js.toInt32 z) = Js.toInt32 z.
Proof. apply toInt32_small, toInt32_range. Qed.

(** [toInt32] reads its argument modulo 2^32. *)
Lemma toInt32_congr a b :
  (a - b) mod 4294967296 = 0 -> Js.toInt32 a = Js.toInt32 b.
Proof.
  intros Hab. unfold Js.toInt32. f_equal.
  apply Z.mod_divide in Hab; [ | lia ]. destruct Hab as [k Hk].
  replace (a + 2147483648) with (b + 2147483648 + k * 4294967296) by lia.
  apply Z.mod_add. lia.
Qed.

Lemma toInt32_diff z : exists k, Js.toInt32 z = z + k * 4294967296.
Proof.
  unfold Js.toInt32.
  exists (- ((z + 2147483648) / 4294967296)).
  pose proof (Z.div_mod (z + 2147483648) 4294967296 ltac:(lia)). lia.
Qed.

Lemma hashStep_poly hash char :
  GeminiAI.hashStep (Js.toInt32 hash) char = Js.toInt32 (31 * hash + char).
Proof.
  unfold GeminiAI.hashStep, Js.band, Js.shl.
  rewrite Z.land_diag, !toInt32_idem.
  change (5 mod 32) with 5. rewrite Z.shiftl_mul_pow2 by lia.
  change (2 ^ 5) with 32.
  apply toInt32_congr.
  destruct (toInt32_diff hash) as [k Hk].
  destruct (toInt32_diff (Js.toInt32 hash * 32)) as [j Hj].
  rewrite Hj, Hk.
  replace ((hash + k * 4294967296) * 32 + j * 4294967296
           - (hash + k * 4294967296) + char - (31 * hash + char))
    with ((31 * k + j) * 4294967296) by lia.
  apply Z.mod_mul. lia.
Qed.

Lemma fold_hashStep_poly units hash :
  List.fold_left GeminiAI.hashStep units (Js.toInt32 hash)
  = Js.toInt32 (List.fold_left (fun h c => 31 * h + c) units hash).
Proof.
  revert hash. induction units as [ | c units IH ]; intros hash;
    [ reflexivity | ].
  cbn [List.fold_left]. rewrite hashStep_poly. apply IH.
Qed.

(** Extra X1: the hash of a message is the polynomial of its UTF-16 code
    units in the base 31, reduced modulo 2^32 to a signed 32-bit integer
    and written in decimal; the cache key is that text after response_. *)
Theorem hashMessage_is_polynomial_modulo_2_32 (message : string) :
  GeminiAI.hashMessage message
  = Js.toString (Js.toInt32 (polyHash (Js.utf16 message)))
  /\ -2147483648 <= Js.toInt32 (polyHash (Js.utf16 message)) < 2147483648
  /\ cacheKey message
     = "response_"
       +:+ Js.toString (Js.toInt32 (polyHash (Js.utf16 message))).
Proof.
  assert (H : GeminiAI.hashMessage message
              = Js.toString (Js.toInt32 (polyHash (Js.utf16 message)))).
  { unfold GeminiAI.hashMessage, polyHash. f_equal.
    change 0 with (Js.toInt32 0) at 1. apply fold_hashStep_poly. }
  split; [ exact H | ]. split; [ apply toInt32_range | ].
  unfold cacheKey. rewrite H. reflexivity.
Qed.

(* ===================================================================== *)
(** * More on the response cache *)
(* ===================================================================== *)

(** generateResponse never throws: its catch block returns a fallback. *)
Lemma generateResponse_returns env userMessage contactName chatHistory g w :
  exists reply,
    fst (fst (GeminiAI.generateResponse env userMessage contactName
                                        chatHistory g w)) = Ok reply.
Proof.
  unfold GeminiAI.generateResponse, tryCatch.
  match goal with
  | |- context [match ?m g w with _ => _ end] =>
      destruct (m g w) as [[[reply | e] g'] w']
  end.
  - exists reply. reflexivity.
  - eexists. reflexivity.
Qed.

(** Extra X2: the cache key is the 32-bit hash of the text alone.  When two
    texts have the same hash, the reply generated and stored for the first
    is served for the second, whatever the contact names and histories of
    the two calls: the AI service is not asked, and the reply is the stored
    one, with or without the greeting prefix of addPersonalTouch. *)
Theorem colliding_messages_share_one_cache_entry
        (env : Env) (message1 message2 name1 name2 : string)
        (hist1 hist2 : list GeminiAI.ChatEntry)
        (g : GeminiAI.t) (w : World) (raw : string) :
  randomInRange env ->
  GeminiAI.hashMessage message1 = GeminiAI.hashMessage message2 ->
  GeminiAI.cache g !! cacheKey message1 = None ->
  complete env (completions w) (geminiPrompt message1 name1 hist1)
  = Some raw ->
  let first := GeminiAI.generateResponse env message1 name1 hist1 g w in
  let second :=
    GeminiAI.generateResponse env message2 name2 hist2
                              (snd (fst first)) (snd first) in
  fst (fst first) <> Ok "" ->
  clock env (S (ticks w)) <= clock env (ticks w) + GeminiAI.stdTTL * 1000 ->
  exists text1 text2,
    fst (fst first) = Ok text1
    /\ fst (fst second) = Ok text2
    /\ completions (snd second) = completions (snd first)
    /\ (text2 = text1
        \/ exists greeting,
            In greeting ["yaar"; "bro"; "dude"; name2]
            /\ text2 = greeting +:+ ", " +:+ text1).
Proof.
  intros Hr Hhash Hmiss Hcomplete first second Hnonempty Hlive.
  destruct (generateResponse_miss env message1 name1 hist1 g w raw
                                  Hmiss Hcomplete)
    as (text1 & w1 & Hfirst & Hticks & Hcompl).
  fold first in Hfirst.
  assert (Hkey : cacheKey message2 = cacheKey message1)
    by (unfold cacheKey; rewrite Hhash; reflexivity).
  assert (Hsecond :
            second
            = GeminiAI.addPersonalTouch env text1 name2 (snd (fst first))
                                        (nextTick w1)).
  { unfold second. rewrite Hfirst. cbn [fst snd].
    apply generateResponse_hit
      with (expires := clock env (ticks w) + GeminiAI.stdTTL * 1000).
    - cbn [GeminiAI.cache]. rewrite Hkey. apply lookup_insert_eq.
    - intros ->. apply Hnonempty. rewrite Hfirst. reflexivity.
    - rewrite Hticks. exact Hlive. }
  destruct (addPersonalTouch_cases env text1 name2 (snd (fst first))
                                   (nextTick w1) Hr)
    as (text2 & w2 & Htouch & Hsame & Hshape & _).
  rewrite Htouch in Hsecond.
  destruct Hsame as (_ & _ & Hc & _ & _). world.
  exists text1, text2. rewrite Hsecond, Hfirst. cbn [fst snd].
  split; [ reflexivity | ]. split; [ reflexivity | ].
  split; [ exact Hc | exact Hshape ].
Qed.

(** The theorem at the texts Aa and BB, whose hashes are both 2112. *)
Lemma colliding_messages_share_one_cache_entry_witness :
  GeminiAI.hashMessage "Aa" = GeminiAI.hashMessage "BB"
  /\ exists text1 text2,
      fst (fst (GeminiAI.generateResponse
                  (sampleEnv (1 # 2) (Some "Hi there") (fun _ => true))
                  "Aa" "Rahul" [] GeminiAI.new world0)) = Ok text1
      /\ fst (fst (GeminiAI.generateResponse
                     (sampleEnv (1 # 2) (Some "Hi there") (fun _ => true))
                     "BB" "Priya" []
                     (snd (fst (GeminiAI.generateResponse
                                  (sampleEnv (1 # 2) (Some "Hi there")
                                             (fun _ => true))
                                  "Aa" "Rahul" [] GeminiAI.new world0)))
                     (snd (GeminiAI.generateResponse
                             (sampleEnv (1 # 2) (Some "Hi there")
                                        (fun _ => true))
                             "Aa" "Rahul" [] GeminiAI.new world0))))
         = Ok text2
      /\ completions
           (snd (GeminiAI.generateResponse
                   (sampleEnv (1 # 2) (Some "Hi there") (fun _ => true))
                   "BB" "Priya" []
                   (snd (fst (GeminiAI.generateResponse
                                (sampleEnv (1 # 2) (Some "Hi there")
                                           (fun _ => true))
                                "Aa" "Rahul" [] GeminiAI.new world0)))
                   (snd (GeminiAI.generateResponse
                           (sampleEnv (1 # 2) (Some "Hi there")
                                      (fun _ => true))
                           "Aa" "Rahul" [] GeminiAI.new world0))))
         = completions
             (snd (GeminiAI.generateResponse
                     (sampleEnv (1 # 2) (Some "Hi there") (fun _ => true))
                     "Aa" "Rahul" [] GeminiAI.new world0))
      /\ (text2 = text1
          \/ exists greeting,
              In greeting ["yaar"; "bro"; "dude"; "Priya"]
              /\ text2 = greeting +:+ ", " +:+ text1).
Proof.
  split; [ reflexivity | ].
  apply (colliding_messages_share_one_cache_entry
           (sampleEnv (1 # 2) (Some "Hi there") (fun _ => true))
           "Aa" "BB" "Rahul" "Priya" [] [] GeminiAI.new world0 "Hi there").
  - apply sampleEnv_randomInRange.
  - reflexivity.
  - reflexivity.
  - reflexivity.
  - vm_compute. discriminate.
  - vm_compute. discriminate.
Defined.

(** An expired entry: it is deleted, the reply is generated again and
    stored. *)
Lemma generateResponse_expired env userMessage contactName chatHistory g w
      value expires raw :
  GeminiAI.cache g !! cacheKey userMessage = Some (value, expires) ->
  expires <> 0 ->
  expires < clock env (ticks w) ->
  complete env (completions w)
           (geminiPrompt userMessage contactName chatHistory) = Some raw ->
  exists text w',
    GeminiAI.generateResponse env userMessage contactName chatHistory g w
    = (Ok text,
       {| GeminiAI.cache :=
            <[cacheKey userMessage :=
                (text, clock env (S (ticks w)) + GeminiAI.stdTTL * 1000)]>
              (GeminiAI.cache g) |},
       w')
    /\ completions w' = S (completions w).
Proof.
  intros Hentry Hexp Hdead Hcomplete.
  unfold GeminiAI.generateResponse, GeminiAI.cacheGet, GeminiAI.cacheSet.
  fold (cacheKey userMessage).
  fold (geminiPrompt userMessage contactName chatHistory).
  unfold tryCatch. unfold bind at 1. unfold bind at 1. unfold gets at 1.
  rewrite Hentry. unfold bind at 1. unfold dateNow at 1.
  replace (expires =? 0) with false
    by (symmetry; apply Z.eqb_neq; exact Hexp).
  replace (expires <? clock env (ticks w)) with true
    by (symmetry; apply Z.ltb_lt; exact Hdead).
  cbn [negb andb]. unfold bind at 1. unfold modify at 1.
  unfold ret at 1. unfold bind at 1. unfold generateContent at 1. world.
  rewrite Hcomplete. unfold bind at 1.
  destruct (addHumanVariations_total
              env (GeminiAI.cleanResponse raw)
              (GeminiAI.detectLanguage userMessage)
              {| GeminiAI.cache :=
                   delete (cacheKey userMessage) (GeminiAI.cache g) |}
              (log (Completion (geminiPrompt userMessage contactName
                                             chatHistory))
                   (nextCompletion (nextTick w))))
    as (text & w1 & Heq & Ht & Hb & Hc & Hr & Htr).
  rewrite Heq. run. world. cbn [GeminiAI.cache].
  exists text, (nextTick w1). world. rewrite Ht, insert_delete_eq.
  split; [ reflexivity | exact Hc ].
Qed.

(** Extra X3: a cache entry is served up to and at its expiry instant and
    is dropped after it.  While the clock does not exceed the expiry
    instant, a non-empty entry answers the call with no completion request
    and the cache stays as it is; once the clock exceeds it, the call asks
    the AI service again and replaces the entry by the new reply, to
    expire an hour after the clock reading of the store. *)
Theorem cache_entry_lives_until_its_expiry
        (env : Env) (userMessage contactName : string)
        (chatHistory : list GeminiAI.ChatEntry) (g : GeminiAI.t) (w : World)
        (value : string) (expires : Z) :
  GeminiAI.cache g !! cacheKey userMessage = Some (value, expires) ->
  value <> "" ->
  expires <> 0 ->
  let result :=
    GeminiAI.generateResponse env userMessage contactName chatHistory g w in
  (clock env (ticks w) <= expires ->
   completions (snd result) = completions w
   /\ snd (fst result) = g)
  /\ (expires < clock env (ticks w) ->
      forall raw,
        complete env (completions w)
                 (geminiPrompt userMessage contactName chatHistory)
        = Some raw ->
        exists text,
          fst (fst result) = Ok text
          /\ snd (fst result)
             = {| GeminiAI.cache :=
                    <[cacheKey userMessage :=
                        (text,
                         clock env (S (ticks w)) + GeminiAI.stdTTL * 1000)]>
                      (GeminiAI.cache g) |}
          /\ completions (snd result) = S (completions w)).
Proof.
  intros Hentry Hvalue Hexp result. split.
  - intros Hlive. unfold result.
    rewrite (generateResponse_hit env userMessage contactName chatHistory
               g w value expires Hentry Hvalue Hlive).
    unfold GeminiAI.addPersonalTouch. run.
    destruct (Js.qlt (random env (draws (nextTick w))) (1 # 10)
              && negb (String.eqb contactName "Friend"));
      split; reflexivity.
  - intros Hdead raw Hcomplete. unfold result.
    destruct (generateResponse_expired env userMessage contactName chatHistory
                g w value expires raw Hentry Hexp Hdead Hcomplete)
      as (text & w' & Heq & Hc).
    rewrite Heq. exists text. cbn [fst snd].
    split; [ reflexivity | split; [ reflexivity | exact Hc ] ].
Qed.

(** The theorem at an entry that expires at 1000, read at the clock
    1000. *)
Lemma cache_entry_lives_until_its_expiry_witness :
  completions
    (snd (GeminiAI.generateResponse
            (sampleEnv (1 # 2) (Some "Hi there") (fun _ => true))
            "hello" "Rahul" []
            {| GeminiAI.cache := {[ cacheKey "hello" := ("Hey", 1000) ]} |}
            (nextTick world0)))
  = completions (nextTick world0)
  /\ snd (fst (GeminiAI.generateResponse
                 (sampleEnv (1 # 2) (Some "Hi there") (fun _ => true))
                 "hello" "Rahul" []
                 {| GeminiAI.cache :=
                      {[ cacheKey "hello" := ("Hey", 1000) ]} |}
                 (nextTick world0)))
     = {| GeminiAI.cache := {[ cacheKey "hello" := ("Hey", 1000) ]} |}.
Proof.
  refine (proj1 (cache_entry_lives_until_its_expiry
                   (sampleEnv (1 # 2) (Some "Hi there") (fun _ => true))
                   "hello" "Rahul" []
                   {| GeminiAI.cache :=
                        {[ cacheKey "hello" := ("Hey", 1000) ]} |}
                   (nextTick world0) "Hey" 1000 _ _ _) _).
  - vm_compute. reflexivity.
  - discriminate.
  - lia.
  - simpl. lia.
Defined.

(** Extra X4: a completion that fails is answered and not cached.  On a
    cache miss, when the AI service fails, generateResponse still returns
    a reply, drawn from the fallback pool of the category of the text; the
    cache is left as it was, so the next call with the same text asks the
    service again. *)
Theorem failed_completion_is_answered_and_not_cached
        (env : Env) (userMessage contactName : string)
        (chatHistory : list GeminiAI.ChatEntry) (g : GeminiAI.t) (w : World) :
  randomInRange env ->
  GeminiAI.cache g !! cacheKey userMessage = None ->
  complete env (completions w)
           (geminiPrompt userMessage contactName chatHistory) = None ->
  exists reply w',
    GeminiAI.generateResponse env userMessage contactName chatHistory g w
    = (Ok reply, g, w')
    /\ In reply (GeminiAI.fallbackResponses (categoryByPriority userMessage))
    /\ completions w' = S (completions w)
    /\ ticks w' = ticks w
    /\ (forall name2 hist2 raw,
           complete env (completions w')
                    (geminiPrompt userMessage name2 hist2) = Some raw ->
           completions
             (snd (GeminiAI.generateResponse env userMessage name2 hist2
                                             g w'))
           = S (completions w')).
Proof.
  intros Hr Hmiss Hfail.
  assert (Hres :
            GeminiAI.generateResponse env userMessage contactName chatHistory
                                      g w
            = (Ok (Js.pick "" (GeminiAI.fallbackResponses
                                 (GeminiAI.detectResponseType userMessage))
                           (random env (draws w))),
               g,
               nextDraw
                 (log (Completion (geminiPrompt userMessage contactName
                                                chatHistory))
                      (nextCompletion w)))).
  { unfold GeminiAI.generateResponse, GeminiAI.cacheGet,
      GeminiAI.getFallbackResponse.
    fold (cacheKey userMessage).
    fold (geminiPrompt userMessage contactName chatHistory).
    unfold tryCatch. unfold bind at 1. unfold bind at 1. unfold gets at 1.
    rewrite Hmiss. unfold ret at 1.
    unfold bind at 1. unfold generateContent at 1. rewrite Hfail.
    run. world. reflexivity. }
  eexists _, _. split; [ exact Hres | ]. world. split.
  - rewrite <- detectResponseType_priority.
    destruct (Hr (draws w)) as [H0 H1].
    apply pick_In; [ exact H0 | exact H1 | apply fallbackResponses_nonempty ].
  - split; [ reflexivity | ]. split; [ reflexivity | ].
    intros name2 hist2 raw Hcomplete.
    match goal with
    | |- context [GeminiAI.generateResponse env userMessage name2 hist2 g
                                            ?w1] =>
        destruct (generateResponse_miss env userMessage name2 hist2 g w1 raw
                                        Hmiss Hcomplete)
          as (text & w2 & Heq & _ & Hc)
    end.
    rewrite Heq. exact Hc.
Qed.

(** The theorem at the text hello, with a service that always fails; the
    last part of it holds of no request there. *)
Lemma failed_completion_is_answered_and_not_cached_witness :
  exists reply w',
    GeminiAI.generateResponse (sampleEnv (1 # 2) None (fun _ => true))
                              "hello" "Rahul" [] GeminiAI.new world0
    = (Ok reply, GeminiAI.new, w')
    /\ In reply (GeminiAI.fallbackResponses (categoryByPriority "hello")).
Proof.
  destruct (failed_completion_is_answered_and_not_cached
              (sampleEnv (1 # 2) None (fun _ => true))
              "hello" "Rahul" [] GeminiAI.new world0)
    as (reply & w' & Heq & Hin & _).
  - apply sampleEnv_randomInRange.
  - reflexivity.
  - reflexivity.
  - exists reply, w'. split; [ exact Heq | exact Hin ].
Defined.

(* ===================================================================== *)
(** * The shape of a valid session identifier *)
(* ===================================================================== *)

Lemma byte_inj a b : Js.byte a = Js.byte b -> a = b.
Proof.
  unfold Js.byte. intros H. apply Nat2Z.inj in H.
  rewrite <- (ascii_nat_embedding a), <- (ascii_nat_embedding b), H.
  reflexivity.
Qed.

Lemma startsWith_split p s :
  Js.startsWith p s = true -> s = p +:+ Js.drop (String.length p) s.
Proof.
  revert s. induction p as [ | a p IH ]; intros s H; [ reflexivity | ].
  destruct s as [ | b s ]; [ discriminate | ].
  cbn [Js.startsWith] in H. apply andb_true_iff in H as [Hab Hps].
  apply Z.eqb_eq, byte_inj in Hab. subst b.
  cbn [String.length Js.drop].
  change (String a p +:+ Js.drop (String.length p) s)
    with (String a (p +:+ Js.drop (String.length p) s)).
  f_equal. apply IH, Hps.
Qed.

Lemma skipDigits_split s :
  exists ds, s = ds +:+ Re.skipDigits s /\ allDigits ds = true.
Proof.
  induction s as [ | c s IH ]; [ exists ""; split; reflexivity | ].
  cbn [Re.skipDigits]. destruct (Js.isDigit c) eqn:Hc.
  - destruct IH as (ds & Hs & Hds). exists (String c ds). split.
    + change (String c ds +:+ Re.skipDigits s)
        with (String c (ds +:+ Re.skipDigits s)).
      f_equal. exact Hs.
    + cbn [allDigits]. rewrite Hc. exact Hds.
  - exists "". split; reflexivity.
Qed.

Lemma allDigits_wordChars ds :
  allDigits ds = true ->
  Forall (fun c => Js.isWordChar c = true) (list_ascii_of_string ds).
Proof.
  induction ds as [ | c ds IH ]; cbn [allDigits list_ascii_of_string];
    intros H; [ constructor | ].
  apply andb_true_iff in H as [Hc Hds]. constructor; [ | apply IH, Hds ].
  unfold Js.isWordChar. rewrite Hc, !orb_true_r. reflexivity.
Qed.

Lemma isHex_wordChar c : SessionManager.isHex c = true -> Js.isWordChar c = true.
Proof.
  unfold SessionManager.isHex, Js.isWordChar, Js.isLower, Js.isUpper,
    Js.isDigit, Js.inRange.
  intros H. apply orb_true_iff in H as [H | H].
  - apply andb_true_iff in H as [H1 H2].
    apply Z.leb_le in H1, H2.
    replace (97 <=? Js.byte c) with true by (symmetry; apply Z.leb_le; lia).
    replace (Js.byte c <=? 122) with true by (symmetry; apply Z.leb_le; lia).
    rewrite !orb_true_r. reflexivity.
  - rewrite H, !orb_true_r. reflexivity.
Qed.

Lemma allHex_wordChars hx :
  SessionManager.allHex hx = true ->
  Forall (fun c => Js.isWordChar c = true) (list_ascii_of_string hx).
Proof.
  induction hx as [ | c hx IH ];
    cbn [SessionManager.allHex list_ascii_of_string]; intros H;
    [ constructor | ].
  apply andb_true_iff in H as [Hc Hhx].
  constructor; [ apply isHex_wordChar, Hc | apply IH, Hhx ].
Qed.

Lemma list_ascii_of_string_app a b :
  list_ascii_of_string (a +:+ b)
  = list_ascii_of_string a ++ list_ascii_of_string b.
Proof.
  induction a as [ | c a IH ]; [ reflexivity | ].
  change (String c a +:+ b) with (String c (a +:+ b)).
  cbn [list_ascii_of_string app]. rewrite IH. reflexivity.
Qed.

(** Extra X5: isValidSessionId accepts exactly the strings made of wa_, one
    or more decimal digits, an underscore and sixteen characters among 0 to
    9 and a to f.  A valid identifier therefore holds letters, digits and
    underscores only: no dot, slash or backslash can reach the session
    directory path built from it. *)
Theorem isValidSessionId_iff_shape (sessionId : string) :
  (SessionManager.isValidSessionId sessionId = true
   <-> exists ds hx,
         sessionId = "wa_" +:+ ds +:+ "_" +:+ hx
         /\ ds <> EmptyString
         /\ allDigits ds = true
         /\ String.length hx = 16%nat
         /\ SessionManager.allHex hx = true)
  /\ (SessionManager.isValidSessionId sessionId = true ->
      Forall (fun c => Js.isWordChar c = true)
             (list_ascii_of_string sessionId)).
Proof.
  assert (Hshape :
            SessionManager.isValidSessionId sessionId = true ->
            exists ds hx,
              sessionId = "wa_" +:+ ds +:+ "_" +:+ hx
              /\ ds <> EmptyString
              /\ allDigits ds = true
              /\ String.length hx = 16%nat
              /\ SessionManager.allHex hx = true).
  { unfold SessionManager.isValidSessionId. intros H.
    apply andb_true_iff in H as [Hprefix H].
    apply startsWith_split in Hprefix. cbn [String.length] in Hprefix.
    cbv zeta in H. apply andb_true_iff in H as [Hlen H].
    destruct (skipDigits_split (Js.drop 3 sessionId)) as (ds & Hds & Hall).
    destruct (Re.skipDigits (Js.drop 3 sessionId)) as [ | c hx ] eqn:Hrest;
      [ discriminate | ].
    apply andb_true_iff in H as [H Hhex].
    apply andb_true_iff in H as [Hunderscore Hlen16].
    apply Z.eqb_eq in Hunderscore.
    assert (c = "_"%char) by (apply byte_inj; exact Hunderscore). subst c.
    apply Nat.eqb_eq in Hlen16.
    exists ds, hx. split; [ | split; [ | repeat split; assumption ] ].
    - rewrite Hprefix, Hds at 1. reflexivity.
    - intros ->. change ("" +:+ String "_" hx) with (String "_" hx) in Hds.
      rewrite <- Hds in Hlen.
      rewrite Nat.eqb_refl in Hlen. discriminate. }
  split; [ split; [ exact Hshape | ] | ].
  - intros (ds & hx & -> & Hne & Hds & Hlen & Hhex).
    apply isValidSessionId_shape; assumption.
  - intros H. destruct (Hshape H) as (ds & hx & -> & _ & Hds & _ & Hhex).
    change ("wa_" +:+ ds +:+ "_" +:+ hx)
      with (String "w" (String "a" (String "_" (ds +:+ String "_" hx)))).
    cbn [list_ascii_of_string]. repeat (constructor; [ reflexivity | ]).
    rewrite list_ascii_of_string_app. apply Forall_app. split.
    + apply allDigits_wordChars, Hds.
    + cbn [list_ascii_of_string]. constructor; [ reflexivity | ].
      apply allHex_wordChars, Hhex.
Qed.

(* ===================================================================== *)
(** * The session registry *)
(* ===================================================================== *)

Lemma generateSessionId_result env m w :
  exists info w',
    SessionManager.generateSessionId env m w
    = (Ok (nextSessionId env w),
       SessionManager.setSession (nextSessionId env w) info m, w')
    /\ info !! "isActive" = Some (SessionManager.Bool true)
    /\ info !! "status" = Some (SessionManager.Str "created")
    /\ info !! "messageCount" = Some (SessionManager.Num 0).
Proof.
  unfold SessionManager.generateSessionId. run.
  fold (nextSessionId env w). eexists _, _. split; [ reflexivity | ].
  split; [ | split ]; reflexivity.
Qed.

Lemma createSession_registered env sessionId metadata info m w :
  SessionManager.getSession sessionId m = Some info ->
  SessionManager.createSession env sessionId metadata m w
  = (Ok (<["lastActivity" := SessionManager.Date (clock env (ticks w))]>
           (<["metadata" := metadata]>
              (<["status" := SessionManager.Str "initializing"]> info))),
     SessionManager.setSession
       sessionId
       (<["lastActivity" := SessionManager.Date (clock env (ticks w))]>
          (<["metadata" := metadata]>
             (<["status" := SessionManager.Str "initializing"]> info))) m,
     nextTick w).
Proof.
  unfold SessionManager.getSession. intros Hget.
  unfold SessionManager.createSession. run. rewrite Hget. reflexivity.
Qed.

(** On an identifier that is not registered the three methods change
    nothing. *)
Lemma unregistered_session_unchanged env sessionId status additionalData
      metadata m w :
  SessionManager.getSession sessionId m = None ->
  SessionManager.updateSessionStatus env sessionId status additionalData m w
  = (Ok tt, m, w)
  /\ SessionManager.removeSession env sessionId m w = (Ok tt, m, w)
  /\ SessionManager.createSession env sessionId metadata m w
     = (Throw ("Session " +:+ sessionId +:+ " not found"), m, w).
Proof.
  unfold SessionManager.getSession. intros Hnone.
  unfold SessionManager.updateSessionStatus, SessionManager.removeSession,
    SessionManager.createSession.
  run. rewrite Hnone. repeat split; reflexivity.
Qed.

(** Extra X6: on an identifier that is not registered, updateSessionStatus
    and removeSession return without error and change nothing, not even
    reading the clock, so that neither creates a session; createSession
    throws the error Session, the identifier, not found, and changes
    nothing either. *)
Theorem unknown_session_is_never_created
        (env : Env) (sessionId status : string)
        (additionalData : gmap string SessionManager.Value)
        (metadata : SessionManager.Value)
        (m : SessionManager.t) (w : World) :
  SessionManager.getSession sessionId m = None ->
  SessionManager.updateSessionStatus env sessionId status additionalData m w
  = (Ok tt, m, w)
  /\ SessionManager.removeSession env sessionId m w = (Ok tt, m, w)
  /\ SessionManager.createSession env sessionId metadata m w
     = (Throw ("Session " +:+ sessionId +:+ " not found"), m, w).
Proof.
  unfold SessionManager.getSession. intros Hnone.
  split; [ | split ].
  - unfold SessionManager.updateSessionStatus. run. rewrite Hnone.
    reflexivity.
  - unfold SessionManager.removeSession. run. rewrite Hnone. reflexivity.
  - unfold SessionManager.createSession. run. rewrite Hnone. reflexivity.
Qed.

(** The theorem at the empty registry. *)
Lemma unknown_session_is_never_created_witness :
  SessionManager.updateSessionStatus
    (sampleEnv (1 # 2) None (fun _ => true)) "wa_1_0000000000000000" "ready"
    ∅ SessionManager.new world0
  = (Ok tt, SessionManager.new, world0)
  /\ SessionManager.removeSession
       (sampleEnv (1 # 2) None (fun _ => true)) "wa_1_0000000000000000"
       SessionManager.new world0
     = (Ok tt, SessionManager.new, world0)
  /\ SessionManager.createSession
       (sampleEnv (1 # 2) None (fun _ => true)) "wa_1_0000000000000000"
       (SessionManager.Json "{}") SessionManager.new world0
     = (Throw ("Session " +:+ "wa_1_0000000000000000" +:+ " not found"),
        SessionManager.new, world0).
Proof.
  apply (unknown_session_is_never_created
           (sampleEnv (1 # 2) None (fun _ => true))
           "wa_1_0000000000000000" "ready" ∅ (SessionManager.Json "{}")
           SessionManager.new world0).
  reflexivity.
Defined.

Lemma getSession_setSession_ne sessionId other info m :
  other <> sessionId ->
  SessionManager.getSession other
                            (SessionManager.setSession sessionId info m)
  = SessionManager.getSession other m.
Proof.
  intros Hne.
  unfold SessionManager.getSession, SessionManager.setSession.
  cbn [SessionManager.activeSessions]. apply lookup_insert_ne. congruence.
Qed.

(** Extra X7: the methods of the registry that write a session record,
    createSession, updateSessionStatus and removeSession, leave the record
    of every other session as it was, and none of them, nor
    generateSessionId, removes a session: an identifier that was registered
    before the call is registered after it. *)
Theorem registry_writes_one_session_and_removes_none
        (env : Env) (sessionId other status : string)
        (additionalData : gmap string SessionManager.Value)
        (metadata : SessionManager.Value)
        (m : SessionManager.t) (w : World) :
  other <> sessionId ->
  let created :=
    snd (fst (SessionManager.createSession env sessionId metadata m w)) in
  let updated :=
    snd (fst (SessionManager.updateSessionStatus env sessionId status
                                                 additionalData m w)) in
  let removed := snd (fst (SessionManager.removeSession env sessionId m w)) in
  let generated := snd (fst (SessionManager.generateSessionId env m w)) in
  (SessionManager.getSession other created
   = SessionManager.getSession other m
   /\ SessionManager.getSession other updated
      = SessionManager.getSession other m
   /\ SessionManager.getSession other removed
      = SessionManager.getSession other m)
  /\ (forall id,
         is_Some (SessionManager.getSession id m) ->
         is_Some (SessionManager.getSession id created)
         /\ is_Some (SessionManager.getSession id updated)
         /\ is_Some (SessionManager.getSession id removed)
         /\ is_Some (SessionManager.getSession id generated)).
Proof.
  intros Hne created updated removed generated.
  assert (Hcreated :
            created = m
            \/ exists info, created = SessionManager.setSession sessionId info m).
  { unfold created.
    destruct (SessionManager.getSession sessionId m) as [info | ] eqn:Hget.
    - rewrite (createSession_registered _ _ _ _ _ _ Hget). right. eauto.
    - left.
      destruct (unregistered_session_unchanged
                  env sessionId status additionalData metadata m w Hget)
        as (_ & _ & ->). reflexivity. }
  assert (Hupdated :
            updated = m
            \/ exists info, updated = SessionManager.setSession sessionId info m).
  { unfold updated.
    destruct (SessionManager.getSession sessionId m) as [info | ] eqn:Hget.
    - rewrite (updateSessionStatus_registered _ _ _ _ _ _ _ Hget).
      right. eauto.
    - left.
      destruct (unregistered_session_unchanged
                  env sessionId status additionalData metadata m w Hget)
        as (-> & _). reflexivity. }
  assert (Hremoved :
            removed = m
            \/ exists info, removed = SessionManager.setSession sessionId info m).
  { unfold removed.
    destruct (SessionManager.getSession sessionId m) as [info | ] eqn:Hget.
    - rewrite (removeSession_registered _ _ _ _ _ Hget). right. eauto.
    - left.
      destruct (unregistered_session_unchanged
                  env sessionId status additionalData metadata m w Hget)
        as (_ & -> & _). reflexivity. }
  assert (Hgenerated :
            exists id info, generated = SessionManager.setSession id info m).
  { unfold generated.
    destruct (generateSessionId_result env m w) as (info & w' & -> & _).
    eauto. }
  assert (Hkeeps :
            forall id id' info,
              is_Some (SessionManager.getSession id m) ->
              is_Some (SessionManager.getSession
                         id (SessionManager.setSession id' info m))).
  { intros id id' info Hsome. destruct (decide (id = id')) as [-> | Hd].
    - rewrite getSession_setSession. eauto.
    - rewrite getSession_setSession_ne by exact Hd. exact Hsome. }
  split.
  - repeat split.
    + destruct Hcreated as [-> | [info ->]]; [ reflexivity | ].
      apply getSession_setSession_ne, Hne.
    + destruct Hupdated as [-> | [info ->]]; [ reflexivity | ].
      apply getSession_setSession_ne, Hne.
    + destruct Hremoved as [-> | [info ->]]; [ reflexivity | ].
      apply getSession_setSession_ne, Hne.
  - intros id Hsome. repeat split.
    + destruct Hcreated as [-> | [info ->]]; [ exact Hsome | ].
      apply Hkeeps, Hsome.
    + destruct Hupdated as [-> | [info ->]]; [ exact Hsome | ].
      apply Hkeeps, Hsome.
    + destruct Hremoved as [-> | [info ->]]; [ exact Hsome | ].
      apply Hkeeps, Hsome.
    + destruct Hgenerated as (id' & info & ->). apply Hkeeps, Hsome.
Qed.

(** The theorem at the sample registry and another identifier. *)
Lemma registry_writes_one_session_and_removes_none_witness :
  SessionManager.getSession
    "wa_0_1f1f1f1f1f1f1f1f"
    (snd (fst (SessionManager.removeSession
                 (sampleEnv (1 # 2) None (fun _ => true))
                 "wa_9_0000000000000000"
                 (snd (fst registryWithDestroyed))
                 (snd registryWithDestroyed))))
  = SessionManager.getSession "wa_0_1f1f1f1f1f1f1f1f"
                              (snd (fst registryWithDestroyed)).
Proof.
  refine (proj2 (proj2 (proj1
            (registry_writes_one_session_and_removes_none
               (sampleEnv (1 # 2) None (fun _ => true))
               "wa_9_0000000000000000" "wa_0_1f1f1f1f1f1f1f1f" "ready" ∅
               (SessionManager.Json "{}")
               (snd (fst registryWithDestroyed))
               (snd registryWithDestroyed) _)))).
  discriminate.
Defined.

Lemma countsAsActive_destroyed (info : gmap string SessionManager.Value) v :
  SessionManager.countsAsActive
    (<["lastActivity" := v]>
       (<["status" := SessionManager.Str "destroyed"]> info))
  = false.
Proof.
  unfold SessionManager.countsAsActive.
  rewrite (lookup_insert_ne _ "lastActivity" "status") by discriminate.
  rewrite lookup_insert_eq, bool_decide_eq_true_2 by reflexivity.
  apply andb_false_r.
Qed.

(** Extra X8: getActiveSessionsCount counts the sessions that are active
    and not destroyed.  Generating an identifier that is not registered
    yet adds one to the count; removeSession takes one off when the session
    was counted and leaves the count as it is otherwise, so that a removed
    session is never counted, although it stays in the registry. *)
Theorem active_sessions_count_follows_generate_and_remove
        (env : Env) (sessionId : string)
        (info : gmap string SessionManager.Value)
        (m : SessionManager.t) (w : World) :
  SessionManager.getSession (nextSessionId env w) m = None ->
  SessionManager.getSession sessionId m = Some info ->
  SessionManager.getActiveSessionsCount
    (snd (fst (SessionManager.generateSessionId env m w)))
  = S (SessionManager.getActiveSessionsCount m)
  /\ SessionManager.getActiveSessionsCount
       (snd (fst (SessionManager.removeSession env sessionId m w)))
     = (SessionManager.getActiveSessionsCount m
        - (if SessionManager.countsAsActive info then 1 else 0))%nat
  /\ is_Some (SessionManager.getSession
                sessionId
                (snd (fst (SessionManager.removeSession env sessionId m w)))).
Proof.
  intros Hfresh Hget. split; [ | split ].
  - unfold SessionManager.getSession in Hfresh. destruct (generateSessionId_result env m w)
      as (info0 & w' & -> & Hactive & Hstatus & _).
    cbn [fst snd]. unfold SessionManager.getActiveSessionsCount,
      SessionManager.setSession.
    cbn [SessionManager.activeSessions].
    rewrite map_filter_insert_True.
    + apply map_size_insert_None, map_lookup_filter_None. left. exact Hfresh.
    + cbn [snd]. unfold SessionManager.countsAsActive.
      rewrite Hactive, Hstatus. reflexivity.
  - rewrite (removeSession_registered env sessionId info m w Hget).
    unfold SessionManager.getSession in Hget.
    cbn [fst snd]. unfold SessionManager.getActiveSessionsCount,
      SessionManager.setSession.
    cbn [SessionManager.activeSessions].
    rewrite map_filter_insert_False
      by (cbn [snd]; rewrite countsAsActive_destroyed; discriminate).
    rewrite map_filter_delete, map_size_delete.
    destruct (SessionManager.countsAsActive info) eqn:Hcounted.
    + rewrite (map_lookup_filter_Some_2 _ _ _ info Hget)
        by (cbn [snd]; exact Hcounted).
      lia.
    + replace (filter
                 (fun entry : string * gmap string SessionManager.Value =>
                    SessionManager.countsAsActive entry.2 = true)
                 (SessionManager.activeSessions m) !! sessionId)
        with (@None (gmap string SessionManager.Value)).
      * cbn [id]. lia.
      * symmetry. apply map_lookup_filter_None. right.
        intros x Hx. cbn [snd]. rewrite Hget in Hx. injection Hx as <-.
        rewrite Hcounted. discriminate.
  - rewrite (removeSession_registered env sessionId info m w Hget).
    cbn [fst snd]. rewrite getSession_setSession. eauto.
Qed.

(** The theorem at a registry that holds one session, created at the
    clock 0, in a world where the clock shows 3000. *)
Lemma active_sessions_count_follows_generate_and_remove_witness :
  SessionManager.getActiveSessionsCount
    (snd (fst (SessionManager.removeSession
                 (sampleEnv (1 # 2) None (fun _ => true))
                 "wa_0_1f1f1f1f1f1f1f1f"
                 (snd (fst (SessionManager.generateSessionId
                              (sampleEnv (1 # 2) None (fun _ => true))
                              SessionManager.new world0)))
                 (snd (SessionManager.generateSessionId
                         (sampleEnv (1 # 2) None (fun _ => true))
                         SessionManager.new world0)))))
  = (SessionManager.getActiveSessionsCount
       (snd (fst (SessionManager.generateSessionId
                    (sampleEnv (1 # 2) None (fun _ => true))
                    SessionManager.new world0)))
     - 1)%nat.
Proof.
  refine (proj1 (proj2
            (active_sessions_count_follows_generate_and_remove
               (sampleEnv (1 # 2) None (fun _ => true))
               "wa_0_1f1f1f1f1f1f1f1f"
               (default ∅ (SessionManager.getSession
                             "wa_0_1f1f1f1f1f1f1f1f"
                             (snd (fst (SessionManager.generateSessionId
                                          (sampleEnv (1 # 2) None
                                                     (fun _ => true))
                                          SessionManager.new world0)))))
               (snd (fst (SessionManager.generateSessionId
                            (sampleEnv (1 # 2) None (fun _ => true))
                            SessionManager.new world0)))
               (snd (SessionManager.generateSessionId
                       (sampleEnv (1 # 2) None (fun _ => true))
                       SessionManager.new world0))
               _ _))).
  - vm_compute. reflexivity.
  - vm_compute. reflexivity.
Defined.

Lemma countsAsActive_inactive (info : gmap string SessionManager.Value) :
  info !! "isActive" = Some (SessionManager.Bool false) ->
  SessionManager.countsAsActive info = false.
Proof.
  intros Hinactive. unfold SessionManager.countsAsActive.
  rewrite Hinactive. reflexivity.
Qed.

Lemma getActiveSessionsCount_replace_inactive sessionId info info' m :
  SessionManager.getSession sessionId m = Some info ->
  SessionManager.countsAsActive info = false ->
  SessionManager.countsAsActive info' = false ->
  SessionManager.getActiveSessionsCount
    (SessionManager.setSession sessionId info' m)
  = SessionManager.getActiveSessionsCount m.
Proof.
  unfold SessionManager.getSession. intros Hget Hold Hnew.
  unfold SessionManager.getActiveSessionsCount, SessionManager.setSession.
  cbn [SessionManager.activeSessions].
  rewrite map_filter_insert_False by (cbn [snd]; rewrite Hnew; discriminate).
  rewrite map_filter_delete_not; [ reflexivity | ].
  intros info0 Hinfo0. cbn [snd]. rewrite Hget in Hinfo0.
  injection Hinfo0 as <-. rewrite Hold. discriminate.
Qed.

(** Extra X9: a removed session does not come back into the count of
    active sessions.  removeSession sets isActive to false; on a session
    whose isActive is false, createSession and updateSessionStatus store
    their new status, so the session no longer shows destroyed, but they
    leave isActive as it is, and the session stays out of
    getActiveSessionsCount, unless the additional data of
    updateSessionStatus set isActive themselves. *)
Theorem inactive_session_stays_out_of_the_active_count
        (env : Env) (sessionId status : string)
        (info additionalData : gmap string SessionManager.Value)
        (metadata : SessionManager.Value)
        (m : SessionManager.t) (w : World) :
  SessionManager.getSession sessionId m = Some info ->
  info !! "isActive" = Some (SessionManager.Bool false) ->
  additionalData !! "isActive" = None ->
  SessionManager.getActiveSessionsCount
    (snd (fst (SessionManager.createSession env sessionId metadata m w)))
  = SessionManager.getActiveSessionsCount m
  /\ SessionManager.getActiveSessionsCount
       (snd (fst (SessionManager.updateSessionStatus
                    env sessionId status additionalData m w)))
     = SessionManager.getActiveSessionsCount m
  /\ SessionManager.statusOf
       sessionId
       (snd (fst (SessionManager.createSession env sessionId metadata m w)))
     = Some (SessionManager.Str "initializing").
Proof.
  intros Hget Hinactive Hdata.
  pose proof (countsAsActive_inactive info Hinactive) as Hold.
  rewrite (createSession_registered env sessionId metadata info m w Hget).
  rewrite (updateSessionStatus_registered
             env sessionId status additionalData info m w Hget).
  cbn [fst snd]. split; [ | split ].
  - apply (getActiveSessionsCount_replace_inactive _ info); try assumption.
    apply countsAsActive_inactive.
    rewrite !lookup_insert_ne by discriminate. exact Hinactive.
  - apply (getActiveSessionsCount_replace_inactive _ info); try assumption.
    apply countsAsActive_inactive.
    unfold SessionManager.assign. rewrite lookup_union_r by exact Hdata.
    rewrite !lookup_insert_ne by discriminate. exact Hinactive.
  - unfold SessionManager.statusOf. rewrite getSession_setSession.
    cbn. rewrite lookup_insert_ne by discriminate.
    rewrite lookup_insert_ne by discriminate. apply lookup_insert_eq.
Qed.

(** The theorem at the registry that holds one removed session. *)
Lemma inactive_session_stays_out_of_the_active_count_witness :
  SessionManager.getActiveSessionsCount
    (snd (fst (SessionManager.createSession
                 (sampleEnv (1 # 2) None (fun _ => true))
                 "wa_0_1f1f1f1f1f1f1f1f" (SessionManager.Json "{}")
                 (snd (fst registryWithDestroyed))
                 (snd registryWithDestroyed))))
  = SessionManager.getActiveSessionsCount (snd (fst registryWithDestroyed)).
Proof.
  refine (proj1 (inactive_session_stays_out_of_the_active_count
                   (sampleEnv (1 # 2) None (fun _ => true))
                   "wa_0_1f1f1f1f1f1f1f1f" "ready"
                   (default ∅ (SessionManager.getSession
                                 "wa_0_1f1f1f1f1f1f1f1f"
                                 (snd (fst registryWithDestroyed))))
                   ∅ (SessionManager.Json "{}")
                   (snd (fst registryWithDestroyed))
                   (snd registryWithDestroyed) _ _ _)).
  - vm_compute. reflexivity.
  - vm_compute. reflexivity.
  - reflexivity.
Defined.

(* ===================================================================== *)
(** * The rate limiter over time *)
(* ===================================================================== *)

Lemma validRequests_later now later requests :
  now <= later ->
  WhatsAppBot.validRequests later (WhatsAppBot.validRequests now requests)
  = WhatsAppBot.validRequests later requests.
Proof.
  intros Hle. unfold WhatsAppBot.validRequests, WhatsAppBot.windowMs.
  induction requests as [ | t requests IH]; [ reflexivity | ].
  cbn [List.filter].
  destruct (now - t <? 60 * 1000) eqn:Hnow;
    destruct (later - t <? 60 * 1000) eqn:Hlater; cbn [List.filter];
    rewrite ?Hlater, IH; try reflexivity.
  apply Z.ltb_lt in Hlater. apply Z.ltb_ge in Hnow. lia.
Qed.

Lemma validRequests_fresh now requests :
  Forall (fun t => now - 60000 < t) (WhatsAppBot.validRequests now requests).
Proof.
  apply List.Forall_forall. intros t Hin.
  unfold WhatsAppBot.validRequests, WhatsAppBot.windowMs in Hin.
  apply filter_In in Hin as [_ Hlt]. apply Z.ltb_lt in Hlt. lia.
Qed.

Lemma validRequests_shrinks now later requests :
  now <= later ->
  (List.length (WhatsAppBot.validRequests later requests)
   <= List.length (WhatsAppBot.validRequests now requests))%nat.
Proof.
  intros Hle. rewrite <- (validRequests_later now later requests Hle).
  unfold WhatsAppBot.validRequests at 1. apply List.filter_length_le.
Qed.

Lemma windowOf_cleanupRateLimiterAt now contactId b :
  windowOf contactId (WhatsAppBot.cleanupRateLimiterAt now b)
  = WhatsAppBot.validRequests now (windowOf contactId b).
Proof.
  unfold windowOf, WhatsAppBot.cleanupRateLimiterAt,
    WhatsAppBot.setRateLimiter.
  cbn [WhatsAppBot.rateLimiter].
  rewrite map_lookup_filter, lookup_fmap.
  destruct (WhatsAppBot.rateLimiter b !! contactId) as [requests | ];
    cbn -[WhatsAppBot.validRequests]; [ | reflexivity ].
  destruct (WhatsAppBot.validRequests now requests) as [ | t valid] eqn:Hvalid.
  - rewrite option_guard_False by (cbn; congruence). reflexivity.
  - rewrite option_guard_True by (cbn; congruence). reflexivity.
Qed.

(** Extra X10: cleanupRateLimiter returns without error and replaces the
    window of every contact by its timestamps of the last minute; a contact
    whose window becomes empty is deleted, so every window that remains is
    not empty and holds fresh timestamps only.  The cleanup changes no
    admission decision taken at the same instant or later, and it leaves
    the chat history, the message count and the configuration as they
    were. *)
Theorem cleanupRateLimiter_prunes_without_changing_decisions
        (env : Env) (contactId : string) (b : WhatsAppBot.t) (w : World) :
  let result := WhatsAppBot.cleanupRateLimiter env b w in
  let b' := snd (fst result) in
  let now := clock env (ticks w) in
  fst (fst result) = Ok tt
  /\ windowOf contactId b'
     = WhatsAppBot.validRequests now (windowOf contactId b)
  /\ (forall window,
         WhatsAppBot.rateLimiter b' !! contactId = Some window ->
         window <> [] /\ Forall (fun t => now - 60000 < t) window)
  /\ (forall later,
         now <= later ->
         fst (WhatsAppBot.checkRateLimitAt later contactId b')
         = fst (WhatsAppBot.checkRateLimitAt later contactId b))
  /\ WhatsAppBot.chatHistory b' = WhatsAppBot.chatHistory b
  /\ WhatsAppBot.messageCount b' = WhatsAppBot.messageCount b
  /\ WhatsAppBot.config b' = WhatsAppBot.config b
  /\ trace (snd result) = trace w.
Proof.
  intros result b' now.
  assert (Hres : result
                 = (Ok tt, WhatsAppBot.cleanupRateLimiterAt now b, nextTick w))
    by reflexivity.
  unfold b'. rewrite Hres. cbn [fst snd].
  split; [ reflexivity | ].
  split; [ apply windowOf_cleanupRateLimiterAt | ].
  split.
  { intros window Hwindow.
    pose proof (windowOf_cleanupRateLimiterAt now contactId b) as Hw.
    unfold windowOf in Hw at 1. rewrite Hwindow in Hw. cbn in Hw.
    split; [ | rewrite Hw; apply validRequests_fresh ].
    unfold WhatsAppBot.cleanupRateLimiterAt, WhatsAppBot.setRateLimiter
      in Hwindow.
    cbn [WhatsAppBot.rateLimiter] in Hwindow.
    apply map_lookup_filter_Some in Hwindow as [_ Hne]. exact Hne. }
  split.
  { intros later Hle. unfold WhatsAppBot.checkRateLimitAt. cbn [fst].
    change (default [] (WhatsAppBot.rateLimiter
                          (WhatsAppBot.cleanupRateLimiterAt now b)
                        !! contactId))
      with (windowOf contactId (WhatsAppBot.cleanupRateLimiterAt now b)).
    rewrite windowOf_cleanupRateLimiterAt, validRequests_later by exact Hle.
    reflexivity. }
  repeat split; reflexivity.
Qed.

(** Extra X11: asking checkRateLimit again at the same instant gives the
    same answer and the same state.  The pruning a check does at the
    instant now changes no decision taken at a later instant, and, as long
    as no reply is recorded in between, a contact that is admitted at now
    is admitted at every later instant. *)
Theorem checkRateLimit_decisions_over_time
        (now later : Z) (contactId : string) (b : WhatsAppBot.t) :
  now <= later ->
  let checked := snd (WhatsAppBot.checkRateLimitAt now contactId b) in
  WhatsAppBot.checkRateLimitAt now contactId checked
  = (fst (WhatsAppBot.checkRateLimitAt now contactId b), checked)
  /\ fst (WhatsAppBot.checkRateLimitAt later contactId checked)
     = fst (WhatsAppBot.checkRateLimitAt later contactId b)
  /\ (fst (WhatsAppBot.checkRateLimitAt now contactId b) = true ->
      fst (WhatsAppBot.checkRateLimitAt later contactId b) = true).
Proof.
  intros Hle checked.
  assert (Hwindow : default [] (WhatsAppBot.rateLimiter checked !! contactId)
                    = WhatsAppBot.validRequests
                        now (default [] (WhatsAppBot.rateLimiter b
                                         !! contactId))).
  { unfold checked, WhatsAppBot.checkRateLimitAt, WhatsAppBot.setRateLimiter.
    cbn [snd WhatsAppBot.rateLimiter]. rewrite lookup_insert_eq.
    reflexivity. }
  split; [ | split ].
  - unfold WhatsAppBot.checkRateLimitAt at 1. rewrite Hwindow.
    rewrite (validRequests_later now now) by lia.
    unfold checked, WhatsAppBot.checkRateLimitAt, WhatsAppBot.setRateLimiter.
    cbn [fst snd WhatsAppBot.rateLimiter WhatsAppBot.config].
    rewrite insert_insert_eq. reflexivity.
  - unfold WhatsAppBot.checkRateLimitAt at 1. cbn [fst]. rewrite Hwindow.
    rewrite validRequests_later by exact Hle. reflexivity.
  - unfold WhatsAppBot.checkRateLimitAt. cbn [fst].
    rewrite !Z.ltb_lt. intros Hok.
    pose proof (validRequests_shrinks
                  now later
                  (default [] (WhatsAppBot.rateLimiter b !! contactId)) Hle).
    lia.
Qed.

(** The theorem at the window 0, 50000 and the instants 59000 and 61000:
    the contact, refused at the first, is decided at the second as if the
    first check had not been made. *)
Lemma checkRateLimit_decisions_over_time_witness :
  fst (WhatsAppBot.checkRateLimitAt
         61000 "c"
         (snd (WhatsAppBot.checkRateLimitAt
                 59000 "c" (botWithWindow "c" [0; 50000]))))
  = fst (WhatsAppBot.checkRateLimitAt
           61000 "c" (botWithWindow "c" [0; 50000])).
Proof.
  refine (proj1 (proj2 (checkRateLimit_decisions_over_time
                          59000 61000 "c" (botWithWindow "c" [0; 50000]) _))).
  lia.
Defined.

(** Extra X12: what getStatus of WhatsAppBot counts.  activeChats is the
    number of contacts with a stored history: addToHistory adds one to it
    for a contact that had none and leaves it as it is otherwise.
    rateLimitedContacts is the number of contacts that have a rate-limit
    window, refused or not: a first check of a contact adds one to it even
    when the contact is admitted, and cleanupRateLimiter never makes it
    grow. *)
Theorem getStatus_counts_contacts_seen
        (now : Z) (contactId : string) (e : WhatsAppBot.HistoryEntry)
        (b : WhatsAppBot.t) :
  let chats b := WhatsAppBot.activeChats (WhatsAppBot.getStatus b) in
  let limited b :=
    WhatsAppBot.rateLimitedContacts (WhatsAppBot.getStatus b) in
  chats (WhatsAppBot.addToHistory contactId e b)
  = (if WhatsAppBot.chatHistory b !! contactId is Some _ then chats b
     else S (chats b))
  /\ limited (snd (WhatsAppBot.checkRateLimitAt now contactId b))
     = (if WhatsAppBot.rateLimiter b !! contactId is Some _ then limited b
        else S (limited b))
  /\ (WhatsAppBot.rateLimiter b !! contactId = None ->
      0 < WhatsAppBot.maxMessagesPerMinute (WhatsAppBot.config b) ->
      fst (WhatsAppBot.checkRateLimitAt now contactId b) = true
      /\ limited (snd (WhatsAppBot.checkRateLimitAt now contactId b))
         = S (limited b))
  /\ (limited (WhatsAppBot.cleanupRateLimiterAt now b) <= limited b)%nat.
Proof.
  intros chats limited. unfold chats, limited, WhatsAppBot.getStatus.
  cbn [WhatsAppBot.activeChats WhatsAppBot.rateLimitedContacts].
  unfold WhatsAppBot.addToHistory, WhatsAppBot.checkRateLimitAt,
    WhatsAppBot.cleanupRateLimiterAt, WhatsAppBot.setChatHistory,
    WhatsAppBot.setRateLimiter.
  cbn [fst snd WhatsAppBot.chatHistory WhatsAppBot.rateLimiter
       WhatsAppBot.config].
  split; [ | split; [ | split ] ].
  - destruct (WhatsAppBot.chatHistory b !! contactId) eqn:Hlookup.
    + apply map_size_insert_Some. eauto.
    + apply map_size_insert_None, Hlookup.
  - destruct (WhatsAppBot.rateLimiter b !! contactId) eqn:Hlookup.
    + apply map_size_insert_Some. eauto.
    + apply map_size_insert_None, Hlookup.
  - intros Hnone Hpositive. rewrite Hnone. cbn.
    split; [ apply Z.ltb_lt, Hpositive | ].
    apply map_size_insert_None, Hnone.
  - etransitivity; [ apply map_subseteq_size, map_filter_subseteq | ].
    rewrite map_size_fmap. reflexivity.
Qed.

(* ===================================================================== *)
(** * The conversation context and the typing delay of WhatsAppBot *)
(* ===================================================================== *)

Lemma sliceLast_suffix {A} (n : nat) (l : list A) :
  exists older, l = older ++ Js.sliceLast n l.
Proof.
  exists (List.firstn (List.length l - n) l). unfold Js.sliceLast.
  symmetry. apply firstn_skipn.
Qed.

Lemma last_sliceLast {A} (n : nat) (l : list A) :
  (1 <= n)%nat -> last (Js.sliceLast n l) = last l.
Proof.
  intros Hn. destruct (sliceLast_suffix n l) as [older Hl].
  rewrite Hl at 2. rewrite last_app.
  destruct (last (Js.sliceLast n l)) eqn:Hlast; [ reflexivity | ].
  apply last_None in Hlast.
  assert (Hlen : List.length (Js.sliceLast n l) = 0%nat)
    by (rewrite Hlast; reflexivity).
  rewrite sliceLast_length in Hlen.
  assert (l = []) as -> by (destruct l; [ reflexivity | cbn in Hlen; lia ]).
  destruct older; [ reflexivity | destruct older; discriminate ].
Qed.

Lemma last_pushCapped {A} (H : nat) (h : list A) (e : A) :
  (1 <= H)%nat -> last (pushCapped H h e) = Some e.
Proof.
  intros HH. unfold pushCapped, Js.shift.
  destruct (Nat.ltb_spec H (List.length (h ++ [e]))) as [Hlong | Hshort];
    [ | apply last_snoc ].
  rewrite length_app in Hlong. cbn [List.length] in Hlong.
  destruct h as [ | x h ]; [ cbn [List.length] in Hlong; lia | ].
  cbn [app List.tl]. apply last_snoc.
Qed.

Lemma sliceLast_pushCapped {A} (n H : nat) (h : list A) (e : A) :
  (n <= H)%nat ->
  Js.sliceLast n (pushCapped H h e) = Js.sliceLast n (h ++ [e]).
Proof.
  intros HnH. unfold pushCapped, Js.shift.
  destruct (Nat.ltb_spec H (List.length (h ++ [e]))) as [Hlong | Hshort];
    [ | reflexivity ].
  destruct (h ++ [e]) as [ | x l ] eqn:Hl; [ reflexivity | ].
  cbn [List.tl List.length] in *. unfold Js.sliceLast. cbn [List.length].
  replace (S (List.length l) - n)%nat with (S (List.length l - n)) by lia.
  reflexivity.
Qed.

(** Extra X13: the conversation context of a contact is the end of the
    stored history: at most six entries, in their order, and the whole
    history when it holds six entries or fewer.  After addToHistory with a
    history bound of at least one, the entry just added is the last of the
    context; with a bound of at least six, the context is the last six of
    the old history followed by the new entry, so the shift of the bounded
    history never takes an entry out of the context. *)
Theorem getConversationContext_is_the_recent_end
        (contactId : string) (e : WhatsAppBot.HistoryEntry)
        (b : WhatsAppBot.t) :
  let H := WhatsAppBot.maxHistoryLength (WhatsAppBot.config b) in
  let context := WhatsAppBot.getConversationContext contactId b in
  let context' :=
    WhatsAppBot.getConversationContext
      contactId (WhatsAppBot.addToHistory contactId e b) in
  (List.length context <= 6)%nat
  /\ (exists older, botHistory contactId b = older ++ context)
  /\ ((List.length (botHistory contactId b) <= 6)%nat ->
      context = botHistory contactId b)
  /\ ((1 <= H)%nat -> last context' = Some e)
  /\ ((6 <= H)%nat ->
      context' = Js.sliceLast 6 (botHistory contactId b ++ [e])).
Proof.
  intros H context context'.
  assert (Hcontext' :
            context' = Js.sliceLast 6 (pushCapped H (botHistory contactId b) e)).
  { unfold context', WhatsAppBot.getConversationContext.
    change (default [] (WhatsAppBot.chatHistory
                          (WhatsAppBot.addToHistory contactId e b)
                        !! contactId))
      with (botHistory contactId (WhatsAppBot.addToHistory contactId e b)).
    rewrite botHistory_addToHistory. reflexivity. }
  split; [ | split; [ | split; [ | split ] ] ].
  - unfold context, WhatsAppBot.getConversationContext.
    rewrite sliceLast_length. lia.
  - apply sliceLast_suffix.
  - intros Hshort. apply sliceLast_short, Hshort.
  - intros HH. rewrite Hcontext', last_sliceLast by lia.
    apply last_pushCapped, HH.
  - intros HH. rewrite Hcontext'. apply sliceLast_pushCapped, HH.
Qed.







Lemma includes_suffix (needle prefix rest : string) :
  Js.startsWith needle (needle +:+ rest) = true ->
  Js.includes needle (prefix +:+ needle +:+ rest) = true.
Proof.
  intros Hstart. induction prefix as [ | c prefix IH ].
  - change ("" +:+ needle +:+ rest) with (needle +:+ rest).
    destruct (needle +:+ rest); cbn [Js.includes]; rewrite Hstart;
      reflexivity.
  - change (String c prefix +:+ needle +:+ rest)
      with (String c (prefix +:+ needle +:+ rest)).
    cbn [Js.includes]. rewrite IH. apply orb_true_r.
Qed.

(** Extra X15: the chat identifier sendMessage of WhatsAppBot uses always
    holds an at sign: a recipient that holds one is used as it is, and the
    suffix at c.us is added to any other, the empty recipient included.
    While the bot is not ready, sendMessage throws Bot is not ready and
    asks nothing of the transport; when it is ready, it makes exactly one
    request, the delivery of the message to that chat identifier, and
    leaves the state as it was. *)
Theorem bot_sendMessage_targets_a_chat_identifier
        (env : Env) (to message : string) (b : WhatsAppBot.t) (w : World) :
  let chatId := WhatsAppBot.chatIdOf to in
  let result := WhatsAppBot.sendMessage env to message b w in
  Js.includes "@" chatId = true
  /\ (Js.includes "@" to = true -> chatId = to)
  /\ (Js.includes "@" to = false -> chatId = to +:+ "@c.us")
  /\ WhatsAppBot.chatIdOf chatId = chatId
  /\ (WhatsAppBot.isReady b = false ->
      result = (Throw "Bot is not ready", b, w))
  /\ (WhatsAppBot.isReady b = true ->
      snd (fst result) = b
      /\ trace (snd result)
         = trace w ++ [Transport (SendMessage chatId message)]
      /\ (fst (fst result) = Ok (requests w)
          \/ fst (fst result) = Throw "transport request failed")).
Proof.
  intros chatId result.
  assert (Hat : Js.includes "@" chatId = true).
  { unfold chatId, WhatsAppBot.chatIdOf.
    destruct (Js.includes "@" to) eqn:Hto; [ exact Hto | ].
    apply (includes_suffix "@" to "c.us"). reflexivity. }
  split; [ exact Hat | ].
  split; [ intros Hto; unfold chatId, WhatsAppBot.chatIdOf; rewrite Hto;
           reflexivity | ].
  split; [ intros Hto; unfold chatId, WhatsAppBot.chatIdOf; rewrite Hto;
           reflexivity | ].
  split; [ unfold WhatsAppBot.chatIdOf at 1; rewrite Hat; reflexivity | ].
  unfold result, WhatsAppBot.sendMessage. run.
  split; intros Hready; rewrite Hready; cbn [negb]; [ reflexivity | ].
  fold chatId. destruct (transportOk env (requests w)); cbn [fst snd]; world;
    repeat split; auto.
Qed.

(* ===================================================================== *)
(** * Replies and fallbacks in the pipeline of WhatsAppBot *)
(* ===================================================================== *)

(** Extra X16: in the pipeline of WhatsAppBot, when the transport works,
    the model is set up and the completion yields a text that is not empty
    once cleaned, generateAndSendResponse returns without error and hands
    exactly one message to the transport for delivery: the cleaned text,
    as a reply to the sender.  The completion service has been asked once,
    with the prompt built from the stored context.  The reply is appended
    to the bounded history of the contact as a sent entry stamped with the
    time read after the delivery, and the time read next is appended to
    the rate-limit window of the contact; nothing else of the state
    changes. *)
Theorem usable_completion_is_replied_and_recorded
        (env : Env) (message : Message) (contactId contactName text : string)
        (b : WhatsAppBot.t) (w : World) :
  (forall n, transportOk env n = true) ->
  WhatsAppBot.model b = true ->
  complete env (completions w) (promptFor message contactId contactName b)
  = Some text ->
  WhatsAppBot.cleanAIResponse text <> "" ->
  let reply := WhatsAppBot.cleanAIResponse text in
  let entry :=
    {| WhatsAppBot.type := WhatsAppBot.sent;
       WhatsAppBot.message := reply;
       WhatsAppBot.timestamp := clock env (ticks w);
       WhatsAppBot.party := contactName |} in
  let result :=
    WhatsAppBot.generateAndSendResponse env message contactId contactName
                                        b w in
  fst (fst result) = Ok tt
  /\ snd (fst result)
     = WhatsAppBot.updateRateLimitAt
         (clock env (S (ticks w))) contactId
         (WhatsAppBot.addToHistory contactId entry b)
  /\ List.filter isDispatch (trace (snd result))
     = List.filter isDispatch (trace w)
       ++ [Transport (Reply (from message) reply)]
  /\ completions (snd result) = S (completions w)
  /\ botHistory contactId (snd (fst result))
     = pushCapped (WhatsAppBot.maxHistoryLength (WhatsAppBot.config b))
                  (botHistory contactId b) entry
  /\ windowOf contactId (snd (fst result))
     = windowOf contactId b ++ [clock env (S (ticks w))].
Proof.
  intros Hok Hmodel Hsome Hclean reply entry result.
  assert (Hres :
            exists w',
              result
              = (Ok tt,
                 WhatsAppBot.updateRateLimitAt
                   (clock env (S (ticks w))) contactId
                   (WhatsAppBot.addToHistory contactId entry b), w')
              /\ List.filter isDispatch (trace w')
                 = List.filter isDispatch (trace w)
                   ++ [Transport (Reply (from message) reply)]
              /\ completions w' = S (completions w)).
  { unfold result, entry, reply. clear result entry reply.
    destruct (WhatsAppBot.cleanAIResponse text) as [ | c r ] eqn:Hreply;
      [ congruence | ].
    unfold WhatsAppBot.generateAndSendResponse, WhatsAppBot.getAIResponse,
      WhatsAppBot.calculateTypingDelay, WhatsAppBot.updateRateLimit,
      WhatsAppBot.emitMessage.
    run. world. repeat (rewrite Hok; world).
    rewrite Hmodel. cbn [negb]. world.
    fold (promptFor message contactId contactName b). rewrite Hsome. world.
    rewrite Hreply. world. repeat (rewrite Hok; world).
    cbn [WhatsAppBot.socket WhatsAppBot.updateRateLimitAt
         WhatsAppBot.addToHistory WhatsAppBot.setChatHistory
         WhatsAppBot.setRateLimiter].
    destruct (WhatsAppBot.socket b); world;
      (eexists; split; [ reflexivity | ]); world;
      (split; [ | reflexivity ]);
      rewrite !List.filter_app; cbn [List.filter isDispatch];
      rewrite ?app_nil_r; reflexivity. }
  destruct Hres as (w' & Hres & Hdispatch & Hcompletions).
  rewrite Hres. cbn [fst snd].
  split; [ reflexivity | ]. split; [ reflexivity | ].
  split; [ exact Hdispatch | ]. split; [ exact Hcompletions | ].
  split.
  - unfold WhatsAppBot.updateRateLimitAt, WhatsAppBot.setRateLimiter,
      botHistory.
    cbn [WhatsAppBot.chatHistory].
    change (default [] (WhatsAppBot.chatHistory
                          (WhatsAppBot.addToHistory contactId entry b)
                        !! contactId))
      with (botHistory contactId (WhatsAppBot.addToHistory contactId entry b)).
    apply botHistory_addToHistory.
  - unfold windowOf, WhatsAppBot.updateRateLimitAt,
      WhatsAppBot.setRateLimiter.
    cbn [WhatsAppBot.rateLimiter]. rewrite lookup_insert_eq. reflexivity.
Qed.

(** The theorem at the sample message, answered with the text Hey. *)
Lemma usable_completion_is_replied_and_recorded_witness :
  List.filter isDispatch
    (trace (snd (WhatsAppBot.generateAndSendResponse
                   (sampleEnv (1 # 2) (Some "Hey") (fun _ => true))
                   sampleMessage "911@c.us" "Rahul"
                   (WhatsAppBot.new true WhatsAppBot.defaultConfig) world0)))
  = List.filter isDispatch (trace world0)
    ++ [Transport (Reply (from sampleMessage)
                         (WhatsAppBot.cleanAIResponse "Hey"))].
Proof.
  refine (proj1 (proj2 (proj2
            (usable_completion_is_replied_and_recorded
               (sampleEnv (1 # 2) (Some "Hey") (fun _ => true))
               sampleMessage "911@c.us" "Rahul" "Hey"
               (WhatsAppBot.new true WhatsAppBot.defaultConfig) world0
               _ _ _ _)))).
  - intros n. reflexivity.
  - reflexivity.
  - reflexivity.
  - vm_compute. discriminate.
Defined.



(** generateAndSendResponse never throws: the failure of the fallback
    reply is caught too. *)
Lemma generateAndSendResponse_returns env message contactId contactName b w :
  fst (fst (WhatsAppBot.generateAndSendResponse env message contactId
                                                contactName b w)) = Ok tt.
Proof.
  unfold WhatsAppBot.generateAndSendResponse. unfold tryCatch at 1.
  match goal with
  | |- context [match ?body b w with _ => _ end] =>
      destruct (body b w) as [[[[] | e] b1] w1]
  end; [ reflexivity | ].
  unfold WhatsAppBot.getFallbackResponse. run.
  match goal with
  | |- context [transportOk env ?n] => destruct (transportOk env n)
  end; reflexivity.
Qed.

(** Simplifies the fields of a bot and the counters and the log of a
    world. *)
Ltac bot_world :=
  cbn [Eff.log Eff.nextDraw Eff.nextTick Eff.nextBytes Eff.nextCompletion
       Eff.nextRequest Eff.draws Eff.ticks Eff.drawnBytes Eff.completions
       Eff.requests Eff.trace
       WhatsAppBot.socket WhatsAppBot.model WhatsAppBot.config
       WhatsAppBot.messageCount WhatsAppBot.rateLimiter
       WhatsAppBot.chatHistory WhatsAppBot.setMessageCount
       WhatsAppBot.setRateLimiter WhatsAppBot.setChatHistory
       WhatsAppBot.addToHistory WhatsAppBot.checkRateLimitAt
       fst snd negb] in *.

(** Extra X18: handleIncomingMessage of WhatsAppBot records an inbound
    message before it asks for the reply.  For an inbound message whose
    contact lookup succeeds and which the rate limiter admits, the handler
    does what generateAndSendResponse does from the state in which the
    message is counted and recorded and the window of the sender pruned,
    and it returns without error.  With a history bound of at least one,
    the message is then the last entry of the conversation context that
    generateAndSendResponse reads for the prompt, besides being passed as
    the new message. *)
Theorem inbound_message_is_recorded_before_the_reply_is_generated
        (env : Env) (message : Message) (b : WhatsAppBot.t) (w : World) :
  isInbound message = true ->
  transportOk env (requests w) = true ->
  fst (WhatsAppBot.checkRateLimitAt (clock env (ticks w)) (from message) b)
  = true ->
  let contactName :=
    WhatsAppBot.contactNameOf (contactInfo env (requests w)) (from message) in
  let b1 := fst (accepted env message b w) in
  WhatsAppBot.handleIncomingMessage env message b w
  = WhatsAppBot.generateAndSendResponse
      env message (from message) contactName b1
      (snd (accepted env message b w))
  /\ fst (fst (WhatsAppBot.handleIncomingMessage env message b w)) = Ok tt
  /\ botHistory (from message) b1
     = pushCapped (WhatsAppBot.maxHistoryLength (WhatsAppBot.config b))
                  (botHistory (from message) b)
                  (acceptedEntry env message w)
  /\ ((1 <= WhatsAppBot.maxHistoryLength (WhatsAppBot.config b))%nat ->
      last (WhatsAppBot.getConversationContext (from message) b1)
      = Some (acceptedEntry env message w)).
Proof.
  intros Hin Hok Hpass contactName b1.
  unfold isInbound in Hin. apply andb_true_iff in Hin as [Hme Hfrom].
  apply negb_true_iff in Hme, Hfrom.
  assert (Hhistory :
            botHistory (from message) b1
            = pushCapped (WhatsAppBot.maxHistoryLength (WhatsAppBot.config b))
                         (botHistory (from message) b)
                         (acceptedEntry env message w)).
  { unfold b1, accepted. cbn [fst]. rewrite botHistory_addToHistory.
    reflexivity. }
  assert (Hhandler :
            WhatsAppBot.handleIncomingMessage env message b w
            = WhatsAppBot.generateAndSendResponse
                env message (from message) contactName b1
                (snd (accepted env message b w))).
  { pose proof (generateAndSendResponse_returns
                  env message (from message) contactName b1
                  (snd (accepted env message b w))) as Hreturns.
    set (reply := WhatsAppBot.generateAndSendResponse
                    env message (from message) contactName b1
                    (snd (accepted env message b w))) in *.
    unfold WhatsAppBot.handleIncomingMessage, WhatsAppBot.checkRateLimit,
      WhatsAppBot.emitMessage, getContact.
    rewrite Hme, Hfrom. run. bot_world. rewrite Hok. bot_world.
    rewrite Hpass. bot_world.
    destruct (WhatsAppBot.socket b) eqn:Hsocket; bot_world;
      match goal with
      | |- context [WhatsAppBot.generateAndSendResponse ?e ?m ?c ?n ?o ?w0] =>
          replace (WhatsAppBot.generateAndSendResponse e m c n o w0)
            with reply
            by (unfold reply, b1, contactName, accepted, acceptedEntry;
                bot_world; rewrite ?Hsocket; reflexivity)
      end;
      clearbody reply; destruct reply as [[r b2] w2];
      cbn [fst snd] in Hreturns; subst r; reflexivity. }
  split; [ exact Hhandler | ].
  split; [ rewrite Hhandler; apply generateAndSendResponse_returns | ].
  split; [ exact Hhistory | ].
  intros Hbound. unfold WhatsAppBot.getConversationContext.
  change (default [] (WhatsAppBot.chatHistory b1 !! from message))
    with (botHistory (from message) b1).
  rewrite Hhistory, last_sliceLast by lia.
  apply last_pushCapped, Hbound.
Qed.

(** The theorem at the sample message and a new bot. *)
Lemma inbound_message_is_recorded_before_the_reply_is_generated_witness :
  fst (fst (WhatsAppBot.handleIncomingMessage
              (sampleEnv (1 # 2) (Some "Hey") (fun _ => true)) sampleMessage
              (WhatsAppBot.new true WhatsAppBot.defaultConfig) world0))
  = Ok tt.
Proof.
  refine (proj1 (proj2
            (inbound_message_is_recorded_before_the_reply_is_generated
               (sampleEnv (1 # 2) (Some "Hey") (fun _ => true)) sampleMessage
               (WhatsAppBot.new true WhatsAppBot.defaultConfig) world0
               _ _ _))).
  - reflexivity.
  - reflexivity.
  - reflexivity.
Defined.

(* ===================================================================== *)
(** * The listeners of WhatsAppManager *)
(* ===================================================================== *)

Lemma onlyLogs_refl allowed w : onlyLogs allowed w w.
Proof. exists []. split; [ symmetry; apply app_nil_r | reflexivity ]. Qed.

Lemma onlyLogs_trans allowed w1 w2 w3 :
  onlyLogs allowed w1 w2 -> onlyLogs allowed w2 w3 -> onlyLogs allowed w1 w3.
Proof.
  intros (events1 & H1 & Hall1) (events2 & H2 & Hall2).
  exists (events1 ++ events2). split.
  - rewrite H2, H1, app_assoc. reflexivity.
  - rewrite forallb_app, Hall1, Hall2. reflexivity.
Qed.

Lemma onlyLogs_log allowed e w :
  allowed e = true -> onlyLogs allowed w (log e w).
Proof.
  intros He. exists [e]. split; [ reflexivity | ].
  cbn [forallb]. rewrite He. reflexivity.
Qed.

Lemma onlyLogs_same_trace allowed w w' :
  trace w' = trace w -> onlyLogs allowed w w'.
Proof.
  intros Hsame. exists []. split; [ rewrite app_nil_r; exact Hsame | ].
  reflexivity.
Qed.

Section Maintains.
Context {O : Type} (P : O -> Prop) (allowed : Event -> bool).

Lemma maintains_ret {A} (a : A) : maintains P allowed (ret a).
Proof. intros o w HP. split; [ exact HP | apply onlyLogs_refl ]. Qed.

Lemma maintains_throw {A} e : maintains P allowed (@throw O A e).
Proof. intros o w HP. split; [ exact HP | apply onlyLogs_refl ]. Qed.

Lemma maintains_gets {A} (g : O -> A) : maintains P allowed (gets g).
Proof. intros o w HP. split; [ exact HP | apply onlyLogs_refl ]. Qed.

Lemma maintains_modify (g : O -> O) :
  (forall o, P o -> P (g o)) -> maintains P allowed (modify g).
Proof.
  intros Hg o w HP. split; [ apply Hg, HP | apply onlyLogs_refl ].
Qed.

Lemma maintains_bind {A B} (m : M O A) (k : A -> M O B) :
  maintains P allowed m -> (forall a, maintains P allowed (k a)) ->
  maintains P allowed (bind m k).
Proof.
  intros Hm Hk o w HP. unfold bind. destruct (Hm o w HP) as [HP1 Hw1].
  destruct (m o w) as [[[a | e] o1] w1]; cbn [fst snd] in *.
  - destruct (Hk a o1 w1 HP1) as [HP2 Hw2].
    split; [ exact HP2 | exact (onlyLogs_trans _ _ _ _ Hw1 Hw2) ].
  - split; assumption.
Qed.

Lemma maintains_tryCatch {A} (m : M O A) (h : string -> M O A) :
  maintains P allowed m -> (forall e, maintains P allowed (h e)) ->
  maintains P allowed (tryCatch m h).
Proof.
  intros Hm Hh o w HP. unfold tryCatch. destruct (Hm o w HP) as [HP1 Hw1].
  destruct (m o w) as [[[a | e] o1] w1]; cbn [fst snd] in *.
  - split; assumption.
  - destruct (Hh e o1 w1 HP1) as [HP2 Hw2].
    split; [ exact HP2 | exact (onlyLogs_trans _ _ _ _ Hw1 Hw2) ].
Qed.

Lemma maintains_mathRandom env : maintains P allowed (@mathRandom env O).
Proof.
  intros o w HP. split; [ exact HP | ].
  apply onlyLogs_same_trace. reflexivity.
Qed.

Lemma maintains_dateNow env : maintains P allowed (@dateNow env O).
Proof.
  intros o w HP. split; [ exact HP | ].
  apply onlyLogs_same_trace. reflexivity.
Qed.

Lemma maintains_emit e : allowed e = true -> maintains P allowed (@emit O e).
Proof.
  intros He o w HP. split; [ exact HP | apply onlyLogs_log, He ].
Qed.

Lemma maintains_sleep ms :
  allowed (Sleep ms) = true -> maintains P allowed (@sleep O ms).
Proof. apply maintains_emit. Qed.

Lemma maintains_generateContent env prompt :
  allowed (Completion prompt) = true ->
  maintains P allowed (@generateContent env O prompt).
Proof.
  intros He o w HP. unfold generateContent.
  destruct (complete env (completions w) prompt); cbn [fst snd];
    (split; [ exact HP | ]);
    (apply onlyLogs_trans with (w2 := nextCompletion w);
     [ apply onlyLogs_same_trace; reflexivity | apply onlyLogs_log, He ]).
Qed.

Lemma maintains_request env r :
  allowed (Transport r) = true -> maintains P allowed (@request env O r).
Proof.
  intros He o w HP. unfold request.
  destruct (transportOk env (requests w)); cbn [fst snd];
    (split; [ exact HP | ]);
    (apply onlyLogs_trans with (w2 := nextRequest w);
     [ apply onlyLogs_same_trace; reflexivity | apply onlyLogs_log, He ]).
Qed.

Lemma maintains_zoom {T A} (proj : O -> T) (upd : T -> O -> O) (m : M T A) :
  maintains (fun _ => True) allowed m ->
  (forall t o, P o -> P (upd t o)) ->
  maintains P allowed (zoom proj upd m).
Proof.
  intros Hm Hupd o w HP. unfold zoom.
  destruct (Hm (proj o) w I) as [_ Hw].
  destruct (m (proj o) w) as [[r t'] w']; cbn [fst snd] in *.
  split; [ apply Hupd, HP | exact Hw ].
Qed.

End Maintains.

Lemma applyVariations_maintains env allowed vs response :
  maintains (fun _ => True) allowed (GeminiAI.applyVariations env vs response).
Proof.
  revert response. induction vs as [ | [word alternatives] vs IH ];
    intros response; cbn [GeminiAI.applyVariations].
  - apply maintains_ret.
  - destruct (Re.testWords [word] response); [ | apply IH ].
    apply maintains_bind; [ apply maintains_mathRandom | ].
    intros r. apply IH.
Qed.

(** generateResponse logs completion requests only. *)
Lemma generateResponse_maintains env allowed userMessage contactName
      chatHistory :
  (forall prompt, allowed (Completion prompt) = true) ->
  maintains (fun _ => True) allowed
            (GeminiAI.generateResponse env userMessage contactName
                                       chatHistory).
Proof.
  intros Hcompletion.
  unfold GeminiAI.generateResponse, GeminiAI.cacheGet, GeminiAI.cacheSet,
    GeminiAI.addPersonalTouch, GeminiAI.addHumanVariations,
    GeminiAI.getFallbackResponse.
  repeat first
    [ apply maintains_bind; [ | intros ? ]
    | apply maintains_tryCatch; [ | intros ? ]
    | apply maintains_ret
    | apply maintains_gets
    | apply maintains_mathRandom
    | apply maintains_dateNow
    | apply maintains_generateContent; apply Hcompletion
    | apply applyVariations_maintains
    | apply maintains_modify; intros; exact I
    | match goal with
      | |- maintains _ _ (if ?c then _ else _) => destruct c
      | |- maintains _ _ (match ?x with _ => _ end) => destruct x
      end ].
Qed.

Lemma manager_sendMessage_not_ready env to text :
  maintains (fun m => WhatsAppManager.isReady m = false) notDispatch
            (WhatsAppManager.sendMessage env to text).
Proof.
  intros m w Hready. unfold WhatsAppManager.sendMessage. run.
  rewrite Hready. cbn [negb fst snd].
  split; [ exact Hready | apply onlyLogs_refl ].
Qed.

Lemma manager_emitToSocket_maintains P allowed event data :
  (forall e b, allowed (SocketEmit e b) = true) ->
  (forall e b, allowed (IoEmit e b) = true) ->
  maintains P allowed (WhatsAppManager.emitToSocket event data).
Proof.
  intros Hsocket Hio. unfold WhatsAppManager.emitToSocket.
  repeat first
    [ apply maintains_bind; [ | intros ? ]
    | apply maintains_ret
    | apply maintains_gets
    | apply maintains_emit; solve [ apply Hsocket | apply Hio ]
    | match goal with
      | |- maintains _ _ (if ?c then _ else _) => destruct c
      end ].
Qed.

Lemma manager_handleIncomingMessage_not_ready env msg :
  maintains (fun m => WhatsAppManager.isReady m = false) notDispatch
            (WhatsAppManager.handleIncomingMessage env msg).
Proof.
  unfold WhatsAppManager.handleIncomingMessage,
    WhatsAppManager.generateAIResponse, WhatsAppManager.updateChatHistory,
    WhatsAppManager.simulateTyping, WhatsAppManager.getFallbackMessage,
    getContact.
  repeat first
    [ apply manager_sendMessage_not_ready
    | apply manager_emitToSocket_maintains; reflexivity
    | apply maintains_zoom;
      [ apply generateResponse_maintains; reflexivity
      | intros ? ? Hp; exact Hp ]
    | apply maintains_modify; intros ? Hp; exact Hp
    | apply maintains_bind; [ | intros ? ]
    | apply maintains_tryCatch; [ | intros ? ]
    | apply maintains_ret
    | apply maintains_throw
    | apply maintains_gets
    | apply maintains_mathRandom
    | apply maintains_dateNow
    | apply maintains_request; reflexivity
    | apply maintains_sleep; reflexivity
    | match goal with
      | |- maintains _ _ (if ?c then _ else _) => destruct c
      | |- maintains _ _ (match ?x with _ => _ end) => destruct x
      end ].
Qed.

Lemma preserves_zoom {O T X A} (f : O -> X) (proj : O -> T)
      (upd : T -> O -> O) (m : M T A) :
  (forall t o, f (upd t o) = f o) -> preserves f (zoom proj upd m).
Proof.
  intros Hupd o w. unfold zoom.
  destruct (m (proj o) w) as [[r t'] w']. cbn [fst snd]. apply Hupd.
Qed.

Lemma manager_emitToSocket_preserves {X} (f : WhatsAppManager.t -> X)
      event data :
  preserves f (WhatsAppManager.emitToSocket event data).
Proof. unfold WhatsAppManager.emitToSocket. frame_steps. Qed.

Lemma manager_sendMessage_preserves {X} (f : WhatsAppManager.t -> X)
      env to text :
  preserves f (WhatsAppManager.sendMessage env to text).
Proof. unfold WhatsAppManager.sendMessage. frame_steps. Qed.

Lemma manager_simulateTyping_preserves {X} (f : WhatsAppManager.t -> X)
      env chatId text :
  preserves f (WhatsAppManager.simulateTyping env chatId text).
Proof. unfold WhatsAppManager.simulateTyping. frame_steps. Qed.

(** What handleIncomingMessage leaves unchanged: every observation that
    does not read the counters, the history or the cache. *)
Lemma manager_handleIncomingMessage_preserves {X}
      (f : WhatsAppManager.t -> X) env msg :
  (forall st m, f (WhatsAppManager.setMessageStats st m) = f m) ->
  (forall h m, f (WhatsAppManager.setChatHistory h m) = f m) ->
  (forall g m, f (WhatsAppManager.setGeminiAI g m) = f m) ->
  preserves f (WhatsAppManager.handleIncomingMessage env msg).
Proof.
  intros Hstats Hhistory Hgemini.
  unfold WhatsAppManager.handleIncomingMessage,
    WhatsAppManager.generateAIResponse, WhatsAppManager.updateChatHistory,
    WhatsAppManager.getFallbackMessage, getContact.
  repeat first
    [ apply manager_emitToSocket_preserves
    | apply manager_sendMessage_preserves
    | apply manager_simulateTyping_preserves
    | apply preserves_zoom; exact Hgemini
    | apply preserves_modify; intros ?;
      solve [ apply Hstats | apply Hhistory ]
    | apply preserves_bind; [ | intros ? ]
    | apply preserves_tryCatch; [ | intros ? ]
    | solve [ auto with frame ]
    | match goal with
      | |- preserves _ (if ?c then _ else _) => destruct c
      | |- preserves _ (match ?x with _ => _ end) => destruct x
      end ].
Qed.

(** No listener throws. *)
Lemma setupEventListeners_returns env event m w :
  fst (fst (WhatsAppManager.setupEventListeners env event m w)) = Ok tt.
Proof.
  destruct event as [ [ image | ] | | | | | msg | [ | ] | ];
    cbn [WhatsAppManager.setupEventListeners];
    try (destruct m as [sid [ | ] [ | ] client isReady status createdAt g
                          stats history]; reflexivity).
  unfold WhatsAppManager.handleIncomingMessage. unfold tryCatch at 1.
  match goal with
  | |- context [match ?body m w with _ => _ end] =>
      destruct (body m w) as [[[[] | e] m1] w1]
  end; [ reflexivity | ].
  unfold WhatsAppManager.getFallbackMessage, WhatsAppManager.sendMessage.
  run. cbn [WhatsAppManager.isReady WhatsAppManager.countError
            WhatsAppManager.setMessageStats].
  destruct (WhatsAppManager.isReady m1); cbn [negb]; [ | reflexivity ].
  match goal with
  | |- context [transportOk env ?n] => destruct (transportOk env n)
  end; reflexivity.
Qed.





(** Extra X20: the catch block of generateAIResponse is never entered.
    GeminiAI.generateResponse answers its own failures with a line of its
    fallback pools and never throws, so generateAIResponse returns what
    generateResponse returns, stores the cache generateResponse leaves,
    and draws nothing from the fallback messages of WhatsAppManager. *)
Theorem generateAIResponse_is_generateResponse
        (env : Env) (userMessage contactId contactName : string)
        (m : WhatsAppManager.t) (w : World) :
  let inner :=
    GeminiAI.generateResponse
      env userMessage contactName
      (WhatsAppManager.getChatHistory contactId m)
      (WhatsAppManager.geminiAI m) w in
  WhatsAppManager.generateAIResponse env userMessage contactId contactName
                                     m w
  = (fst (fst inner),
     WhatsAppManager.setGeminiAI (snd (fst inner)) m, snd inner)
  /\ exists reply, fst (fst inner) = Ok reply.
Proof.
  intros inner.
  destruct (generateResponse_returns
              env userMessage contactName
              (WhatsAppManager.getChatHistory contactId m)
              (WhatsAppManager.geminiAI m) w) as [reply Hreply].
  fold inner in Hreply. split; [ | exists reply; exact Hreply ].
  unfold WhatsAppManager.generateAIResponse. run. fold inner.
  destruct inner as [[r g'] w']. cbn [fst snd] in *. subst r. reflexivity.
Qed.






Lemma deliver_step env event events m w :
  deliver env (event :: events) m w
  = deliver env events
            (snd (fst (WhatsAppManager.setupEventListeners env event m w)))
            (snd (WhatsAppManager.setupEventListeners env event m w)).
Proof.
  cbn [deliver]. unfold bind.
  pose proof (setupEventListeners_returns env event m w) as Hok.
  destruct (WhatsAppManager.setupEventListeners env event m w)
    as [[r m1] w1].
  cbn [fst snd] in *. rewrite Hok. reflexivity.
Qed.

Lemma deliver_returns env events m w :
  fst (fst (deliver env events m w)) = Ok tt.
Proof.
  revert m w. induction events as [ | event events IH ]; intros m w.
  - reflexivity.
  - rewrite deliver_step. apply IH.
Qed.

(** A listener other than the one of the ready event keeps a client that
    is not ready not ready, and dispatches nothing for it. *)
Lemma setupEventListeners_not_ready env event :
  isReadyEvent event = false ->
  maintains (fun m => WhatsAppManager.isReady m = false) notDispatch
            (WhatsAppManager.setupEventListeners env event).
Proof.
  intros Hevent.
  destruct event as [ [ image | ] | | | | | msg | [ | ] | ];
    try discriminate Hevent;
    cbn [WhatsAppManager.setupEventListeners];
    try apply manager_handleIncomingMessage_not_ready;
    unfold WhatsAppManager.onQr, WhatsAppManager.onAuthenticated,
      WhatsAppManager.onAuthFailure, WhatsAppManager.onDisconnected,
      WhatsAppManager.onMessageCreate, WhatsAppManager.onError,
      WhatsAppManager.emitError;
    repeat first
      [ apply manager_emitToSocket_maintains; reflexivity
      | apply maintains_modify; intros ? Hp; first [ exact Hp | reflexivity ]
      | apply maintains_bind; [ | intros ? ]
      | apply maintains_ret
      | apply maintains_gets ].
Qed.

(** Extra X22: WhatsAppManager sends nothing before its client is ready.
    Starting from a manager that is not ready, as a new one is, and for
    every sequence of client events in which the ready event does not
    occur, every listener returns, the manager is still not ready at the
    end, and no message is handed to the transport for delivery: neither a
    reply nor a fallback, whatever messages have come in. *)
Theorem nothing_is_sent_before_the_client_is_ready
        (env : Env) (events : list WhatsAppManager.ClientEvent)
        (m : WhatsAppManager.t) (w : World) :
  WhatsAppManager.isReady m = false ->
  existsb isReadyEvent events = false ->
  let result := deliver env events m w in
  fst (fst result) = Ok tt
  /\ WhatsAppManager.isReady (snd (fst result)) = false
  /\ exists logged,
      trace (snd result) = trace w ++ logged
      /\ existsb isDispatch logged = false.
Proof.
  intros Hready Hevents result.
  split; [ apply deliver_returns | ].
  assert (Hmaintained :
            WhatsAppManager.isReady (snd (fst result)) = false
            /\ onlyLogs notDispatch w (snd result)).
  { unfold result. clear result. revert m w Hready.
    induction events as [ | event events IH ]; intros m w Hready.
    - split; [ exact Hready | apply onlyLogs_refl ].
    - cbn [existsb] in Hevents. apply orb_false_iff in Hevents as [He Hes].
      rewrite deliver_step.
      destruct (setupEventListeners_not_ready env event He m w Hready)
        as [Hready1 Hlogs1].
      destruct (IH Hes _ (snd (WhatsAppManager.setupEventListeners
                                 env event m w)) Hready1)
        as [Hready2 Hlogs2].
      split; [ exact Hready2 | exact (onlyLogs_trans _ _ _ _ Hlogs1 Hlogs2) ]. }
  destruct Hmaintained as [Hstill (logged & Htrace & Hquiet)].
  split; [ exact Hstill | ].
  exists logged. split; [ exact Htrace | ].
  clear Htrace. induction logged as [ | e logged IH ]; [ reflexivity | ].
  cbn [forallb existsb] in *. apply andb_true_iff in Hquiet as [He Hrest].
  unfold notDispatch in He. apply negb_true_iff in He.
  rewrite He, (IH Hrest). reflexivity.
Qed.

(** The theorem at a new manager that receives a code, the sample message
    and an error. *)
Lemma nothing_is_sent_before_the_client_is_ready_witness :
  WhatsAppManager.isReady
    (snd (fst (deliver (sampleEnv (1 # 2) (Some "Hey") (fun _ => true))
                       [WhatsAppManager.qr (Some "image");
                        WhatsAppManager.message sampleMessage;
                        WhatsAppManager.error "closed"]
                       (WhatsAppManager.new "s" true true 0) world0)))
  = false.
Proof.
  refine (proj1 (proj2 (nothing_is_sent_before_the_client_is_ready
                          (sampleEnv (1 # 2) (Some "Hey") (fun _ => true))
                          [WhatsAppManager.qr (Some "image");
                           WhatsAppManager.message sampleMessage;
                           WhatsAppManager.error "closed"]
                          (WhatsAppManager.new "s" true true 0) world0 _ _))).
  - reflexivity.
  - reflexivity.
Defined.

Lemma manager_ignores env msg m w :
  isInbound msg = false ->
  WhatsAppManager.handleIncomingMessage env msg m w = (Ok tt, m, w).
Proof.
  unfold isInbound. intros Hskip.
  unfold WhatsAppManager.handleIncomingMessage. run.
  destruct (fromMe msg); [ reflexivity | ].
  destruct (String.eqb (from msg) "status@broadcast");
    [ reflexivity | discriminate ].
Qed.

(** Closes the steps of a method of WhatsAppManager that leave the
    observation as it is. *)
Ltac manager_frame :=
  repeat first
    [ apply manager_emitToSocket_preserves
    | apply manager_sendMessage_preserves
    | apply manager_simulateTyping_preserves
    | apply preserves_zoom; intros ? ?; reflexivity
    | apply preserves_modify; intros ?; reflexivity
    | apply preserves_bind; [ | intros ? ]
    | apply preserves_tryCatch; [ | intros ? ]
    | solve [ auto with frame ]
    | match goal with
      | |- preserves _ (if ?c then _ else _) => destruct c
      | |- preserves _ (match ?x with _ => _ end) => destruct x
      end ].

(** The counters after an inbound message: the message is counted as
    received, and as an error too when its handling has failed. *)
Lemma manager_handleIncomingMessage_stats env msg m w :
  isInbound msg = true ->
  let stats' :=
    WhatsAppManager.messageStats
      (snd (fst (WhatsAppManager.handleIncomingMessage env msg m w))) in
  stats' = WhatsAppManager.messageStats (WhatsAppManager.countReceived m)
  \/ stats' = WhatsAppManager.messageStats
                (WhatsAppManager.countError
                   (WhatsAppManager.countReceived m)).
Proof.
  intros Hin stats'. unfold isInbound in Hin.
  apply andb_true_iff in Hin as [Hme Hfrom].
  apply negb_true_iff in Hme, Hfrom.
  assert (Hstats :
            stats'
            = WhatsAppManager.messageStats
                (snd (fst (WhatsAppManager.handleIncomingMessage env msg m w))))
    by reflexivity.
  clearbody stats'.
  unfold WhatsAppManager.handleIncomingMessage in Hstats.
  rewrite Hme, Hfrom in Hstats. cbn [orb] in Hstats.
  unfold tryCatch at 1 in Hstats. unfold bind at 1 in Hstats.
  unfold modify at 1 in Hstats.
  match type of Hstats with
  | context [let (p, _) := ?body (WhatsAppManager.countReceived m) w in _] =>
      assert (Hbody : preserves WhatsAppManager.messageStats body)
        by (unfold WhatsAppManager.generateAIResponse,
              WhatsAppManager.updateChatHistory,
              WhatsAppManager.getFallbackMessage, getContact;
            manager_frame);
      specialize (Hbody (WhatsAppManager.countReceived m) w);
      destruct (body (WhatsAppManager.countReceived m) w)
        as [[[[] | e] m1] w1]
  end; cbn [fst snd] in *.
  - left. rewrite Hstats. exact Hbody.
  - right. unfold bind at 1 in Hstats. unfold modify at 1 in Hstats.
    match type of Hstats with
    | context [?tail (WhatsAppManager.countError m1) w1] =>
        assert (Htail : preserves WhatsAppManager.messageStats tail)
          by (unfold WhatsAppManager.getFallbackMessage; manager_frame);
        rewrite (Htail (WhatsAppManager.countError m1) w1) in Hstats
    end.
    rewrite Hstats.
    unfold WhatsAppManager.countError, WhatsAppManager.setMessageStats.
    cbn [WhatsAppManager.messageStats]. rewrite Hbody. reflexivity.
Qed.

Lemma setupEventListeners_stats env event m w :
  let stats := WhatsAppManager.messageStats m in
  let stats' :=
    WhatsAppManager.messageStats
      (snd (fst (WhatsAppManager.setupEventListeners env event m w))) in
  WhatsAppManager.statReceived stats'
  = WhatsAppManager.statReceived stats
    + (if isInboundEvent event then 1 else 0)
  /\ WhatsAppManager.statSent stats'
     = WhatsAppManager.statSent stats
       + (if isOwnMessageEvent event then 1 else 0)
  /\ WhatsAppManager.statErrors stats
     + (if isErrorEvent event then 1 else 0)
     <= WhatsAppManager.statErrors stats'
     <= WhatsAppManager.statErrors stats
        + (if isInboundEvent event || isErrorEvent event then 1 else 0).
Proof.
  intros stats stats'. unfold stats, stats'. clear stats stats'.
  destruct event as [ [ image | ] | | | | | msg | [ | ] | ];
    cbn [WhatsAppManager.setupEventListeners isInboundEvent
         isOwnMessageEvent isErrorEvent orb];
    try (destruct m as [sid [ | ] [ | ] client isReady status createdAt g
                          stats history];
         cbn; lia).
  destruct (isInbound msg) eqn:Hin.
  - destruct (manager_handleIncomingMessage_stats env msg m w Hin)
      as [-> | ->]; cbn; lia.
  - rewrite (manager_ignores env msg m w Hin). cbn. lia.
Qed.

(** Extra X23: the counters of WhatsAppManager count the events.  After
    any sequence of client events, the counter received has grown by the
    number of inbound messages, those that are neither self-originated nor
    status broadcasts, whether or not they could be answered; the counter
    sent has grown by the number of message_create events of the account
    itself; and the counter errors has grown by at least the number of
    error events and at most that number plus the number of inbound
    messages.  No counter ever goes down. *)
Theorem counters_count_the_client_events
        (env : Env) (events : list WhatsAppManager.ClientEvent)
        (m : WhatsAppManager.t) (w : World) :
  let stats := WhatsAppManager.messageStats m in
  let stats' :=
    WhatsAppManager.messageStats (snd (fst (deliver env events m w))) in
  WhatsAppManager.statReceived stats'
  = WhatsAppManager.statReceived stats + countOf isInboundEvent events
  /\ WhatsAppManager.statSent stats'
     = WhatsAppManager.statSent stats + countOf isOwnMessageEvent events
  /\ WhatsAppManager.statErrors stats + countOf isErrorEvent events
     <= WhatsAppManager.statErrors stats'
     <= WhatsAppManager.statErrors stats
        + countOf (fun e => isInboundEvent e || isErrorEvent e) events.
Proof.
  intros stats stats'. unfold stats, stats'. clear stats stats'.
  revert m w. induction events as [ | event events IH ]; intros m w.
  - unfold countOf. cbn. lia.
  - rewrite deliver_step.
    specialize (IH (snd (fst (WhatsAppManager.setupEventListeners
                                env event m w)))
                   (snd (WhatsAppManager.setupEventListeners env event m w))).
    pose proof (setupEventListeners_stats env event m w) as Hstep.
    cbv zeta in Hstep. unfold countOf in *. cbn [List.filter].
    destruct (isInboundEvent event), (isOwnMessageEvent event),
      (isErrorEvent event); cbn [orb List.length] in *; lia.
Qed.

Lemma setupEventListeners_ready env event m w :
  let m' := snd (fst (WhatsAppManager.setupEventListeners env event m w)) in
  WhatsAppManager.isReady m' = readyAfter (WhatsAppManager.isReady m) [event]
  /\ (readyStatusIsReady m -> readyStatusIsReady m')
  /\ WhatsAppManager.sessionId m' = WhatsAppManager.sessionId m.
Proof.
  intros m'. unfold m'. clear m'. unfold readyStatusIsReady.
  destruct event as [ [ image | ] | | | | | msg | [ | ] | ];
    cbn [WhatsAppManager.setupEventListeners readyAfter];
    try (destruct m as [sid [ | ] [ | ] client isReady status createdAt g
                          stats history];
         cbn; repeat split; intros Hinv; try intros Hstatus;
         first [ discriminate Hstatus | reflexivity | exact (Hinv Hstatus) ]).
  pose proof (manager_handleIncomingMessage_preserves
                (fun m => (WhatsAppManager.isReady m,
                           WhatsAppManager.status m,
                           WhatsAppManager.sessionId m))
                env msg
                (fun _ _ => eq_refl) (fun _ _ => eq_refl)
                (fun _ _ => eq_refl) m w) as Hkeep.
  cbv beta in Hkeep. injection Hkeep as Hready Hstatus Hid.
  rewrite Hready, Hstatus, Hid. repeat split. intros Hinv. exact Hinv.
Qed.

Lemma readyAfter_step before event events :
  readyAfter before (event :: events)
  = readyAfter (readyAfter before [event]) events.
Proof. destruct event; reflexivity. Qed.

(** Extra X24: the flag isReady of WhatsAppManager follows the connection
    events.  After any sequence of client events the flag is what the last
    ready or disconnected event of the sequence says, and what it was
    before when there is none: messages, codes, authentication events and
    errors never change it.  The status ready is shown by a ready manager
    only: when this holds before the events, as it does for a new manager,
    it holds after them.  The session identifier never changes. *)
Theorem isReady_follows_the_connection_events
        (env : Env) (events : list WhatsAppManager.ClientEvent)
        (m : WhatsAppManager.t) (w : World) :
  let m' := snd (fst (deliver env events m w)) in
  fst (fst (deliver env events m w)) = Ok tt
  /\ WhatsAppManager.isReady m'
     = readyAfter (WhatsAppManager.isReady m) events
  /\ (readyStatusIsReady m -> readyStatusIsReady m')
  /\ WhatsAppManager.sessionId m' = WhatsAppManager.sessionId m.
Proof.
  intros m'. unfold m'. clear m'.
  split; [ apply deliver_returns | ].
  revert m w. induction events as [ | event events IH ]; intros m w.
  - repeat split. intros Hinv. exact Hinv.
  - rewrite deliver_step, readyAfter_step.
    destruct (setupEventListeners_ready env event m w)
      as (Hready & Hinv & Hid).
    destruct (IH (snd (fst (WhatsAppManager.setupEventListeners
                              env event m w)))
                 (snd (WhatsAppManager.setupEventListeners env event m w)))
      as (Hready' & Hinv' & Hid').
    rewrite Hready', Hready, Hid', Hid. repeat split.
    intros H0. apply Hinv', Hinv, H0.
Qed.

(** Extra X25: destroy of WhatsAppManager is all or nothing.  When the
    manager holds a client and the destruction of the client fails, destroy
    throws and leaves the manager as it was: its flag, status, client and
    histories are kept.  Otherwise destroy returns, asks the transport only
    when there was a client, and leaves a manager that is not ready, has
    the status destroyed, no client and no history; sendMessage then
    throws WhatsApp client not ready without asking the transport. *)
Theorem manager_destroy_is_all_or_nothing
        (env : Env) (to text contactId : string)
        (m : WhatsAppManager.t) (w : World) :
  let result := WhatsAppManager.destroy env m w in
  let w' := if WhatsAppManager.client m
            then log (Transport DestroyClient) (nextRequest w) else w in
  snd result = w'
  /\ (WhatsAppManager.client m && negb (transportOk env (requests w)) = true ->
      fst result = (Throw "transport request failed", m))
  /\ (WhatsAppManager.client m && negb (transportOk env (requests w)) = false ->
      fst result = (Ok tt, WhatsAppManager.destroyed m)
      /\ WhatsAppManager.isReady (snd (fst result)) = false
      /\ WhatsAppManager.status (snd (fst result)) = "destroyed"
      /\ WhatsAppManager.client (snd (fst result)) = false
      /\ WhatsAppManager.getChatHistory contactId (snd (fst result)) = []
      /\ WhatsAppManager.sendMessage env to text (snd (fst result)) w'
         = (Throw "WhatsApp client not ready", snd (fst result), w')).
Proof.
  intros result w'. unfold result, w', WhatsAppManager.destroy. run.
  destruct (WhatsAppManager.client m); cbn [andb negb fst snd].
  - destruct (transportOk env (requests w)); cbn [negb fst snd];
      (split; [ reflexivity | ]); (split; [ intros H | intros H ]);
      try discriminate H; try reflexivity.
    repeat split.
  - split; [ reflexivity | ]. split; [ intros H; discriminate H | ].
    intros _. repeat split.
Qed.

(* ===================================================================== *)
(** * The history bounds as invariants of the handlers *)
(* ===================================================================== *)

Lemma botHistoriesBounded_addToHistory contactId e b :
  botHistoriesBounded b ->
  botHistoriesBounded (WhatsAppBot.addToHistory contactId e b).
Proof.
  intros Hb other. change (WhatsAppBot.config
                             (WhatsAppBot.addToHistory contactId e b))
    with (WhatsAppBot.config b).
  destruct (decide (other = contactId)) as [-> | Hne].
  - rewrite botHistory_addToHistory. apply pushCapped_length, Hb.
  - rewrite botHistory_addToHistory_other by congruence. apply Hb.
Qed.

Lemma managerHistoriesBounded_updateChatHistoryAt now contactId text isBot m :
  managerHistoriesBounded m ->
  managerHistoriesBounded
    (WhatsAppManager.updateChatHistoryAt now contactId text isBot m).
Proof.
  intros Hm other. destruct (decide (other = contactId)) as [-> | Hne].
  - rewrite getChatHistory_updateChatHistoryAt. apply pushCapped_length, Hm.
  - unfold WhatsAppManager.getChatHistory,
      WhatsAppManager.updateChatHistoryAt, WhatsAppManager.setChatHistory.
    cbn [WhatsAppManager.chatHistory].
    rewrite lookup_insert_ne by congruence. apply Hm.
Qed.

Lemma bot_handleIncomingMessage_bounded env message :
  maintains botHistoriesBounded anyEvent
            (WhatsAppBot.handleIncomingMessage env message).
Proof.
  unfold WhatsAppBot.handleIncomingMessage,
    WhatsAppBot.generateAndSendResponse, WhatsAppBot.getAIResponse,
    WhatsAppBot.calculateTypingDelay, WhatsAppBot.updateRateLimit,
    WhatsAppBot.emitMessage, WhatsAppBot.getFallbackResponse, getContact.
  repeat first
    [ apply maintains_modify; intros ? Hp;
      first [ apply botHistoriesBounded_addToHistory, Hp | exact Hp ]
    | apply maintains_bind; [ | intros ? ]
    | apply maintains_tryCatch; [ | intros ? ]
    | apply maintains_ret
    | apply maintains_throw
    | apply maintains_gets
    | apply maintains_mathRandom
    | apply maintains_dateNow
    | apply maintains_generateContent; reflexivity
    | apply maintains_request; reflexivity
    | apply maintains_emit; reflexivity
    | apply maintains_sleep; reflexivity
    | match goal with
      | |- maintains _ _ (WhatsAppBot.checkRateLimit _ _) =>
          unfold WhatsAppBot.checkRateLimit;
          apply maintains_bind; [ apply maintains_dateNow | ];
          intros now o w Hp; cbn [fst snd];
          split; [ exact Hp | apply onlyLogs_refl ]
      | |- maintains _ _ (if ?c then _ else _) => destruct c
      | |- maintains _ _ (match ?x with _ => _ end) => destruct x
      end ].
Qed.

Lemma setupEventListeners_bounded env event :
  maintains managerHistoriesBounded anyEvent
            (WhatsAppManager.setupEventListeners env event).
Proof.
  destruct event; cbn [WhatsAppManager.setupEventListeners];
    unfold WhatsAppManager.onQr, WhatsAppManager.onAuthenticated,
      WhatsAppManager.onAuthFailure, WhatsAppManager.onReady,
      WhatsAppManager.onDisconnected, WhatsAppManager.onMessageCreate,
      WhatsAppManager.onError, WhatsAppManager.emitError,
      WhatsAppManager.handleIncomingMessage,
      WhatsAppManager.generateAIResponse, WhatsAppManager.updateChatHistory,
      WhatsAppManager.simulateTyping, WhatsAppManager.sendMessage,
      WhatsAppManager.getFallbackMessage, getContact;
    repeat first
      [ apply manager_emitToSocket_maintains; reflexivity
      | apply maintains_zoom;
        [ apply generateResponse_maintains; reflexivity
        | intros ? ? Hp; exact Hp ]
      | apply maintains_modify; intros ? Hp;
        first [ apply managerHistoriesBounded_updateChatHistoryAt, Hp
              | exact Hp ]
      | apply maintains_bind; [ | intros ? ]
      | apply maintains_tryCatch; [ | intros ? ]
      | apply maintains_ret
      | apply maintains_throw
      | apply maintains_gets
      | apply maintains_mathRandom
      | apply maintains_dateNow
      | apply maintains_request; reflexivity
      | apply maintains_sleep; reflexivity
      | match goal with
        | |- maintains _ _ (if ?c then _ else _) => destruct c
        | |- maintains _ _ (match ?x with _ => _ end) => destruct x
        end ].
Qed.

(** Extra X26: the bounds of the chat histories are invariants of the
    handlers.  When every stored history of a WhatsAppBot is within
    maxHistoryLength, it is so after handleIncomingMessage, whatever the
    message and whatever the transport and the completion service do; and
    when every stored history of a WhatsAppManager holds at most ten
    entries, it is so after any sequence of client events.  Both hold of a
    new object, whose histories are empty. *)
Theorem handlers_keep_the_histories_bounded
        (env : Env) (message : Message)
        (events : list WhatsAppManager.ClientEvent)
        (b : WhatsAppBot.t) (m : WhatsAppManager.t) (w : World) :
  botHistoriesBounded b ->
  managerHistoriesBounded m ->
  botHistoriesBounded
    (snd (fst (WhatsAppBot.handleIncomingMessage env message b w)))
  /\ managerHistoriesBounded (snd (fst (deliver env events m w)))
  /\ botHistoriesBounded (WhatsAppBot.new true WhatsAppBot.defaultConfig)
  /\ managerHistoriesBounded (WhatsAppManager.new "s" true true 0).
Proof.
  intros Hb Hm.
  split; [ apply (bot_handleIncomingMessage_bounded env message b w Hb) | ].
  split.
  - revert m w Hm. induction events as [ | event events IH ]; intros m w Hm.
    + exact Hm.
    + rewrite deliver_step. apply IH.
      apply (setupEventListeners_bounded env event m w Hm).
  - split; intros contactId.
    + unfold botHistory. cbn [WhatsAppBot.chatHistory WhatsAppBot.new].
      rewrite lookup_empty. cbn. lia.
    + unfold WhatsAppManager.getChatHistory.
      cbn [WhatsAppManager.chatHistory WhatsAppManager.new].
      rewrite lookup_empty. cbn. lia.
Qed.

(** The theorem at a new bot and a new manager, for the sender of the
    sample message. *)
Lemma handlers_keep_the_histories_bounded_witness :
  (List.length
     (botHistory
        "911@c.us"
        (snd (fst (WhatsAppBot.handleIncomingMessage
                     (sampleEnv (1 # 2) (Some "Hey") (fun _ => true))
                     sampleMessage
                     (WhatsAppBot.new true WhatsAppBot.defaultConfig)
                     world0))))
   <= 10)%nat.
Proof.
  refine (proj1 (handlers_keep_the_histories_bounded
                   (sampleEnv (1 # 2) (Some "Hey") (fun _ => true))
                   sampleMessage [WhatsAppManager.message sampleMessage]
                   (WhatsAppBot.new true WhatsAppBot.defaultConfig)
                   (WhatsAppManager.new "s" true true 0) world0 _ _)
                "911@c.us").
  - intros contactId. unfold botHistory.
    cbn [WhatsAppBot.chatHistory WhatsAppBot.new].
    rewrite lookup_empty. cbn. lia.
  - intros contactId. unfold WhatsAppManager.getChatHistory.
    cbn [WhatsAppManager.chatHistory WhatsAppManager.new].
    rewrite lookup_empty. cbn. lia.
Defined.

(* ===================================================================== *)
(** * The punctuation of a cleaned reply *)
(* ===================================================================== *)

Lemma noPair_cons c a s :
  noPair c (String a s)
  = negb ((Js.byte a =? Js.byte c) && headIs c s) && noPair c s.
Proof. destruct s; cbn [noPair headIs]; rewrite ?andb_false_r; reflexivity. Qed.

Lemma noPair_tail c a s : noPair c (String a s) = true -> noPair c s = true.
Proof. rewrite noPair_cons. intros H. apply andb_true_iff in H. tauto. Qed.

Lemma noPair_includes c s :
  noPair c s = true ->
  Js.includes (String c (String c EmptyString)) s = false.
Proof.
  induction s as [ | a s IH ]; intros Hs; [ reflexivity | ].
  cbn [Js.includes]. rewrite (IH (noPair_tail _ _ _ Hs)), orb_false_r.
  rewrite noPair_cons in Hs. apply andb_true_iff in Hs as [Hhead _].
  apply negb_true_iff in Hhead.
  destruct s as [ | b s ]; cbn [Js.startsWith headIs] in *.
  - apply andb_false_r.
  - rewrite andb_true_r.
    rewrite (Z.eqb_sym (Js.byte c) (Js.byte a)),
      (Z.eqb_sym (Js.byte c) (Js.byte b)).
    exact Hhead.
Qed.

Lemma append_cons a p s : String a p +:+ s = String a (p +:+ s).
Proof. reflexivity. Qed.

Lemma append_nil s : "" +:+ s = s.
Proof. reflexivity. Qed.

Lemma headIs_app c p s :
  hasChar c p = false ->
  headIs c (p +:+ s) = match p with EmptyString => headIs c s | _ => false end.
Proof.
  destruct p as [ | a p ]; [ reflexivity | ].
  cbn [hasChar]. intros H. apply orb_false_iff in H as [Ha _].
  rewrite append_cons. exact Ha.
Qed.

Lemma noPair_app c p s :
  hasChar c p = false -> noPair c (p +:+ s) = noPair c s.
Proof.
  induction p as [ | a p IH ]; intros Hp; [ reflexivity | ].
  cbn [hasChar] in Hp. apply orb_false_iff in Hp as [Ha Hp].
  rewrite append_cons, noPair_cons, Ha, IH by exact Hp. reflexivity.
Qed.

Lemma noPair_nochar c p : hasChar c p = false -> noPair c p = true.
Proof.
  induction p as [ | a p IH ]; intros Hp; [ reflexivity | ].
  cbn [hasChar] in Hp. apply orb_false_iff in Hp as [Ha Hp].
  rewrite noPair_cons, Ha, IH by exact Hp. reflexivity.
Qed.

Lemma hasChar_flush c d repl run :
  (Js.byte d =? Js.byte c) = false -> hasChar c repl = false ->
  hasChar c (Re.flush d repl run) = false.
Proof.
  intros Hd Hrepl. destruct run as [ | [ | run ] ]; cbn [Re.flush hasChar].
  - reflexivity.
  - rewrite Hd. reflexivity.
  - exact Hrepl.
Qed.

(** A run of two or more [c] replaced by one [c]: no two are left in a
    row. *)
Lemma noPair_collapse_self c run s :
  noPair c (Re.collapseFrom c (String c EmptyString) run s) = true.
Proof.
  revert run. induction s as [ | x s IH ]; intros run;
    cbn [Re.collapseFrom].
  - destruct run as [ | [ | run ] ]; reflexivity.
  - destruct (Js.byte x =? Js.byte c) eqn:Hx; [ apply IH | ].
    assert (Hrest :
              noPair c (String x (Re.collapseFrom c (String c "") 0 s))
              = true)
      by (rewrite noPair_cons, Hx, IH; reflexivity).
    destruct run as [ | [ | run ] ]; cbn [Re.flush];
      rewrite ?append_nil, ?append_cons, ?append_nil; try exact Hrest;
      rewrite noPair_cons; cbn [headIs]; rewrite Hx, andb_false_r, Hrest;
      reflexivity.
Qed.

(** The runs of another character replaced by a text without [c]: no two
    [c] come together. *)
Lemma noPair_collapse_other c d repl run s :
  (Js.byte d =? Js.byte c) = false -> hasChar c repl = false ->
  repl <> EmptyString ->
  noPair c s = true ->
  noPair c (Re.collapseFrom d repl run s) = true
  /\ (headIs c (Re.collapseFrom d repl run s) = true ->
      run = 0%nat /\ headIs c s = true).
Proof.
  intros Hd Hrepl Hnonempty. revert run.
  induction s as [ | x s IH ]; intros run Hs; cbn [Re.collapseFrom].
  - pose proof (hasChar_flush c d repl run Hd Hrepl) as Hflush.
    split.
    + apply noPair_nochar, Hflush.
    + intros Hhead. exfalso.
      destruct (Re.flush d repl run) as [ | a f ]; [ discriminate | ].
      cbn [hasChar headIs] in *. rewrite Hhead in Hflush. discriminate.
  - pose proof (noPair_tail _ _ _ Hs) as Htail.
    destruct (Js.byte x =? Js.byte d) eqn:Hx.
    + destruct (IH (S run) Htail) as [Hno Hhead].
      split; [ exact Hno | ].
      intros H. destruct (Hhead H) as [Hrun _]. discriminate.
    + destruct (IH 0%nat Htail) as [Hno Hhead].
      pose proof (hasChar_flush c d repl run Hd Hrepl) as Hflush.
      assert (Hrest :
                noPair c (String x (Re.collapseFrom d repl 0 s)) = true).
      { rewrite noPair_cons, Hno, andb_true_r. apply negb_true_iff.
        destruct (Js.byte x =? Js.byte c) eqn:Hxc; [ | reflexivity ].
        destruct (headIs c (Re.collapseFrom d repl 0 s)) eqn:Hh;
          [ | reflexivity ].
        destruct (Hhead eq_refl) as [_ Hs0].
        rewrite noPair_cons, Hxc, Hs0 in Hs. discriminate. }
      split.
      * rewrite noPair_app by exact Hflush. exact Hrest.
      * rewrite headIs_app by exact Hflush.
        destruct (Re.flush d repl run) eqn:Hf; [ | discriminate ].
        intros Hh. cbn [headIs] in *. split; [ | exact Hh ].
        destruct run as [ | [ | run ] ]; [ reflexivity | discriminate | ].
        cbn [Re.flush] in Hf. congruence.
Qed.

Lemma noPair_trimStart c s : noPair c s = true -> noPair c (Js.trimStart s) = true.
Proof.
  remember (String.length s) as n eqn:Hn.
  assert (Hle : (String.length s <= n)%nat) by lia. clear Hn.
  revert s Hle. induction n as [ | n IH ]; intros s Hle Hs.
  - destruct s; [ reflexivity | cbn [String.length] in Hle; lia ].
  - destruct s as [ | a r1 ]; [ reflexivity | ].
    cbn [String.length] in Hle. cbn [Js.trimStart].
    pose proof (noPair_tail _ _ _ Hs) as H1.
    destruct (Js.ws1 a); [ apply IH; [ lia | exact H1 ] | ].
    destruct r1 as [ | b r2 ]; cbv beta iota; [ exact Hs | ].
    cbn [String.length] in Hle.
    pose proof (noPair_tail _ _ _ H1) as H2.
    destruct (Js.ws2 a b); [ apply IH; [ lia | exact H2 ] | ].
    destruct r2 as [ | x r3 ]; cbv beta iota; [ exact Hs | ].
    cbn [String.length] in Hle.
    pose proof (noPair_tail _ _ _ H2) as H3.
    destruct (Js.ws3 a b x); [ apply IH; [ lia | exact H3 ] | exact Hs ].
Qed.

Lemma noPair_trimStartRev c s :
  noPair c s = true -> noPair c (Js.trimStartRev s) = true.
Proof.
  remember (String.length s) as n eqn:Hn.
  assert (Hle : (String.length s <= n)%nat) by lia. clear Hn.
  revert s Hle. induction n as [ | n IH ]; intros s Hle Hs.
  - destruct s; [ reflexivity | cbn [String.length] in Hle; lia ].
  - destruct s as [ | a r1 ]; [ reflexivity | ].
    cbn [String.length] in Hle. cbn [Js.trimStartRev].
    pose proof (noPair_tail _ _ _ Hs) as H1.
    destruct (Js.ws1 a); [ apply IH; [ lia | exact H1 ] | ].
    destruct r1 as [ | b r2 ]; cbv beta iota; [ exact Hs | ].
    cbn [String.length] in Hle.
    pose proof (noPair_tail _ _ _ H1) as H2.
    destruct (Js.ws2 b a); [ apply IH; [ lia | exact H2 ] | ].
    destruct r2 as [ | x r3 ]; cbv beta iota; [ exact Hs | ].
    cbn [String.length] in Hle.
    pose proof (noPair_tail _ _ _ H2) as H3.
    destruct (Js.ws3 x b a); [ apply IH; [ lia | exact H3 ] | exact Hs ].
Qed.

Lemma noPair_rev_app c s acc :
  noPair c (String.rev_app s acc)
  = noPair c s && noPair c acc && negb (headIs c s && headIs c acc).
Proof.
  revert acc. induction s as [ | a s IH ]; intros acc;
    cbn [String.rev_app].
  - cbn [noPair headIs andb negb]. apply eq_sym, andb_true_r.
  - rewrite IH, !noPair_cons. cbn [headIs].
    destruct (Js.byte a =? Js.byte c), (headIs c s), (headIs c acc),
      (noPair c s), (noPair c acc); reflexivity.
Qed.

Lemma noPair_rev c s : noPair c (String.rev s) = noPair c s.
Proof.
  unfold String.rev. rewrite noPair_rev_app. cbn [noPair headIs].
  rewrite andb_false_r, !andb_true_r. reflexivity.
Qed.

Lemma noPair_trim c s : noPair c s = true -> noPair c (Js.trim s) = true.
Proof.
  intros Hs. unfold Js.trim, Js.trimEnd.
  rewrite noPair_rev. apply noPair_trimStartRev.
  rewrite noPair_rev. apply noPair_trimStart, Hs.
Qed.

(** Extra X27: a reply cleaned by cleanResponse of GeminiAI never holds two
    exclamation marks in a row, nor two question marks in a row, whatever
    the text the AI service returned: every run of either mark has been
    reduced to one, and the later replacements and the trimming bring no
    two of them together. *)
Theorem cleanResponse_leaves_no_repeated_mark (response : string) :
  Js.includes "!!" (GeminiAI.cleanResponse response) = false
  /\ Js.includes "??" (GeminiAI.cleanResponse response) = false.
Proof.
  unfold GeminiAI.cleanResponse, Re.collapse. split.
  - apply (noPair_includes "!"), noPair_trim.
    apply noPair_collapse_other; [ reflexivity | reflexivity | discriminate | ].
    apply noPair_collapse_other; [ reflexivity | reflexivity | discriminate | ].
    apply noPair_collapse_self.
  - apply (noPair_includes "?"), noPair_trim.
    apply noPair_collapse_other; [ reflexivity | reflexivity | discriminate | ].
    apply noPair_collapse_self.
Qed.
